(** * x402-mcp-extension: payment-gated RPC mediation, shallow embedding

    The development embeds the server-side handler wrapper and payment
    orchestrator, the handler registry and decorators, the facilitator base
    class, and the client-side key/value store, audit ledger, guardrails,
    payment responder and send interceptor of the TypeScript sources, and
    proves properties of their control flow.

    Conventions of the embedding:
    - asynchronous methods are sequential programs; every [await] is a
      sequence point of a state-and-exception monad;
    - external collaborators (session transport, facilitator, wallet, pricer,
      URL constructor, handler bodies) are oracles collected in environment
      records; every call to one of them is recorded in a trace;
    - the context object [extra] of an invocation is shared and mutable:
      handler bodies yield the context as they leave it;
    - logger calls are omitted: they do not influence control flow. *)

From Stdlib Require Import String Ascii List Bool ZArith QArith Lia.
From Stdlib Require Import DecimalString.
Import ListNotations.

Local Open Scope string_scope.
Local Open Scope Z_scope.

(* ================================================================= *)
(** ** JavaScript values used by the sources *)

Module Js.

(** A JavaScript [number]: the finite doubles are rationals, plus the three
    special values.  Only comparisons are performed on numbers here. *)
Inductive number : Type :=
| NaN
| NegInfinity
| Finite (q : Q)
| PosInfinity.

(** [a > b] *)
Definition gt (a b : number) : bool :=
  match a, b with
  | NaN, _ | _, NaN => false
  | PosInfinity, PosInfinity => false
  | PosInfinity, _ => true
  | _, PosInfinity => false
  | NegInfinity, _ => false
  | Finite _, NegInfinity => true
  | Finite x, Finite y => negb (Qle_bool x y)
  end.

(** [a <= b] *)
Definition le (a b : number) : bool :=
  match a, b with
  | NaN, _ | _, NaN => false
  | _, PosInfinity => true
  | PosInfinity, _ => false
  | NegInfinity, _ => true
  | Finite _, NegInfinity => false
  | Finite x, Finite y => Qle_bool x y
  end.

Definition zero : number := Finite 0%Q.

(** Truthiness of a string: the empty string is falsy.  A field that is
    absent on the wire is read as [undefined], which is falsy as well; string
    fields of wire messages use [""] for both. *)
Definition truthy (s : string) : bool :=
  match s with EmptyString => false | String _ _ => true end.

Definition truthy_opt (s : option string) : bool :=
  match s with Some t => truthy t | None => false end.

(** [hay.includes(needle)] *)
Fixpoint includes (needle hay : string) : bool :=
  if String.prefix needle hay then true
  else match hay with
       | EmptyString => false
       | String _ rest => includes needle rest
       end.

(** Template rendering of an optional string: [undefined] prints as the
    word undefined. *)
Definition render (s : option string) : string :=
  match s with Some t => t | None => "undefined" end.

(** [a || b] on optional strings *)
Definition or_else (a : option string) (b : string) : string :=
  match a with
  | Some t => if truthy t then t else b
  | None => b
  end.

(** The protocol's [RequestId]: a string or an (integral) number.  Numeric
    ids are below 10^21 in magnitude, where [toString] prints the decimal
    numeral. *)
Inductive RequestId : Type :=
| IdStr (s : string)
| IdNum (n : Z).

Definition RequestId_truthy (r : RequestId) : bool :=
  match r with
  | IdStr s => truthy s
  | IdNum n => negb (n =? 0)
  end.

(** [requestId.toString()] *)
Definition toString (r : RequestId) : string :=
  match r with
  | IdStr s => s
  | IdNum n => NilZero.string_of_int (Z.to_int n)
  end.

End Js.

(* ================================================================= *)
(** ** Error codes and thrown values *)

Module ERROR_CODES.
Definition METHOD_NOT_FOUND : Z := -32601.
Definition INVALID_REQUEST : Z := -32600.
Definition INVALID_PARAMS : Z := -32602.
Definition INTERNAL_ERROR : Z := -32603.
Definition PAYMENT_REQUIRED : Z := 40200.
Definition PAYMENT_INVALID : Z := 40201.
Definition INSUFFICIENT_PAYMENT : Z := 40202.
Definition REPLAY_DETECTED : Z := 40203.
Definition PAYMENT_EXECUTION_FAILED : Z := 40204.
Definition GUARDRAIL_VIOLATION : Z := 40210.
Definition WHITELIST_VIOLATION : Z := 40211.
End ERROR_CODES.

(** The value of an error's [code] field.  Protocol and payment codes are
    integers; errors of the runtime and of the transport carry strings (such
    as ECONNRESET); of any other value only the truthiness matters.  The
    field is untyped at run time: the constructor of [PaymentError] stores
    whatever it is given. *)
Inductive ErrorCode : Type :=
| NumCode (n : Z)
| StrCode (s : string)
| OtherCode (truthy : bool).

Coercion NumCode : Z >-> ErrorCode.

(** Values that the code throws or catches.  [PaymentError] is the class of
    the sources; [ErrorObj] is any other instance of [Error] (with the
    optional [code] that protocol and runtime errors carry); [Thrown] is a
    value that is not an [Error], with the fields the code inspects (a
    [message], where present, is a string) and its [String(...)] rendering;
    [Nullish] is a thrown [null] or [undefined], on which a plain property
    access fails. *)
Inductive JsError : Type :=
| PaymentError (code : ErrorCode) (message : string) (details : Details)
| ErrorObj (code : option ErrorCode) (message : string)
| Thrown (code : option ErrorCode) (message : option string)
    (rendering : string)
| Nullish (rendering : string)

with Details : Type :=
| NoDetails
| PaymentRequiredDetails (amount asset paymentAddress network : string)
| CauseDetails (cause : JsError)
| CapDetails (amount maxPaymentPerCall : Js.number)
| WhitelistDetails (payTo : string) (whitelistedServers : list string).

Module Err.

(** [error instanceof PaymentError] *)
Definition isPaymentError (e : JsError) : bool :=
  match e with PaymentError _ _ _ => true | _ => false end.

(** [error instanceof Error ? error.message : String(error)] *)
Definition messageOf (e : JsError) : string :=
  match e with
  | PaymentError _ m _ => m
  | ErrorObj _ m => m
  | Thrown _ _ r => r
  | Nullish r => r
  end.

(** [error?.code] *)
Definition codeOf (e : JsError) : option ErrorCode :=
  match e with
  | PaymentError c _ _ => Some c
  | ErrorObj c _ => c
  | Thrown c _ _ => c
  | Nullish _ => None
  end.

(** [error?.message] *)
Definition messageField (e : JsError) : option string :=
  match e with
  | PaymentError _ m _ => Some m
  | ErrorObj _ m => Some m
  | Thrown _ m _ => m
  | Nullish _ => None
  end.

(** Truthiness of a code: zero and the empty string are falsy. *)
Definition codeTruthy (c : ErrorCode) : bool :=
  match c with
  | NumCode n => negb (n =? 0)
  | StrCode s => Js.truthy s
  | OtherCode b => b
  end.

(** [error.code ? error.code : fallback] on a value that is not nullish. *)
Definition codeOr (e : JsError) (fallback : ErrorCode) : ErrorCode :=
  match codeOf e with
  | Some c => if codeTruthy c then c else fallback
  | None => fallback
  end.

(** [error.code === n] *)
Definition codeIs (e : JsError) (n : Z) : bool :=
  match codeOf e with
  | Some (NumCode c) => c =? n
  | _ => false
  end.

(** The message of the [TypeError] that reading a property of [null] or
    [undefined] raises (in the wording of V8). *)
Definition cannotRead (rendering property : string) : string :=
  "Cannot read properties of " ++ rendering
    ++ " (reading '" ++ property ++ "')".

Definition detailsOf (e : JsError) : Details :=
  match e with
  | PaymentError _ _ d => d
  | _ => NoDetails
  end.

End Err.

(** Outcome of a call that may throw. *)
Inductive Result (A : Type) : Type :=
| Ok (a : A)
| Throw (e : JsError).
Arguments Ok {A} a.
Arguments Throw {A} e.

(* ================================================================= *)
(** ** InMemoryStorage: the key/value store behind the audit ledger *)

Module InMemoryStorage.
Section WithValue.

(** The source stores strings; the ledger stores [JSON.stringify] of a record
    and reads it back with [JSON.parse].  The codec is taken as lossless, so
    the store is modelled over the decoded value type. *)
Variable V : Type.

Record StorageEntry : Type := mkEntry {
  value : V;
  timestamp : Z;
  ttl : Z
}.

(** The [Map<string, StorageEntry>] in insertion order, together with the
    configuration fixed by the constructor.  [evictQuota] is the value of
    [Math.ceil(this.maxSize * 0.1)]. *)
Record t : Type := mkStorage {
  storage : list (string * StorageEntry);
  defaultTtl : Z;
  maxSize : Z;
  evictQuota : nat
}.

Definition with_storage (st : t) (m : list (string * StorageEntry)) : t :=
  {| storage := m; defaultTtl := defaultTtl st; maxSize := maxSize st;
     evictQuota := evictQuota st |}.

(** [config.ttl || 300000], [config.maxSize || 10000] *)
Definition create (cfg_ttl cfg_maxSize : option Z) (quota : nat) : t :=
  {| storage := [];
     defaultTtl := match cfg_ttl with
                   | Some x => if x =? 0 then 300000 else x
                   | None => 300000
                   end;
     maxSize := match cfg_maxSize with
                | Some x => if x =? 0 then 10000 else x
                | None => 10000
                end;
     evictQuota := quota |}.

(** *** The JavaScript [Map] operations *)

Fixpoint map_get (key : string) (m : list (string * StorageEntry))
  : option StorageEntry :=
  match m with
  | [] => None
  | (k, e) :: rest => if String.eqb k key then Some e else map_get key rest
  end.

(** [Map.set]: an existing key keeps its position, a new key goes last. *)
Fixpoint map_set (key : string) (e : StorageEntry)
  (m : list (string * StorageEntry)) : list (string * StorageEntry) :=
  match m with
  | [] => [(key, e)]
  | (k, e0) :: rest =>
      if String.eqb k key then (k, e) :: rest
      else (k, e0) :: map_set key e rest
  end.

Definition map_delete (key : string) (m : list (string * StorageEntry))
  : list (string * StorageEntry) :=
  filter (fun kv => negb (String.eqb (fst kv) key)) m.

Definition map_has (key : string) (m : list (string * StorageEntry)) : bool :=
  match map_get key m with Some _ => true | None => false end.

Definition size (st : t) : Z := Z.of_nat (length (storage st)).

(** [entry.ttl && now - entry.timestamp > entry.ttl] *)
Definition expired (now : Z) (e : StorageEntry) : bool :=
  negb (ttl e =? 0) && (now - timestamp e >? ttl e).

Definition cleanupExpired (now : Z) (st : t) : t :=
  with_storage st (filter (fun kv => negb (expired now (snd kv))) (storage st)).

(** Stable sort by ascending timestamp, as [Array.prototype.sort] with the
    comparator [a[1].timestamp - b[1].timestamp]. *)
Fixpoint insert_by_timestamp (x : string * StorageEntry)
  (l : list (string * StorageEntry)) : list (string * StorageEntry) :=
  match l with
  | [] => [x]
  | y :: rest =>
      if timestamp (snd x) <=? timestamp (snd y) then x :: l
      else y :: insert_by_timestamp x rest
  end.

Definition sort_by_timestamp (l : list (string * StorageEntry))
  : list (string * StorageEntry) :=
  fold_right insert_by_timestamp [] l.

Definition evictOldest (st : t) : t :=
  let entries := sort_by_timestamp (storage st) in
  let victims := map fst (firstn (evictQuota st) entries) in
  with_storage st (fold_left (fun m k => map_delete k m) victims (storage st)).

(** *** The [IStorageInterface] methods; [now] is the value of [Date.now()]
    during the call. *)

Definition get (now : Z) (key : string) (st : t) : option V * t :=
  match map_get key (storage st) with
  | None => (None, st)
  | Some e =>
      if expired now e
      then (None, with_storage st (map_delete key (storage st)))
      else (Some (value e), st)
  end.

Definition set (now : Z) (key : string) (v : V) (ttl_arg : option Z) (st : t)
  : t :=
  let st1 := cleanupExpired now st in
  let st2 := if size st1 >=? maxSize st1 then evictOldest st1 else st1 in
  let ttl' := match ttl_arg with
              | Some x => if x =? 0 then defaultTtl st else x
              | None => defaultTtl st
              end in
  with_storage st2 (map_set key (mkEntry v now ttl') (storage st2)).

Definition has (now : Z) (key : string) (st : t) : bool * t :=
  match get now key st with
  | (Some _, st') => (true, st')
  | (None, st') => (false, st')
  end.

Definition delete (now : Z) (key : string) (st : t) : bool * t :=
  let st1 := cleanupExpired now st in
  (map_has key (storage st1), with_storage st1 (map_delete key (storage st1))).

Definition clear (st : t) : t := with_storage st [].

End WithValue.

Arguments mkEntry {V}.
Arguments value {V}.
Arguments timestamp {V}.
Arguments ttl {V}.
Arguments storage {V}.
Arguments defaultTtl {V}.
Arguments maxSize {V}.
Arguments evictQuota {V}.
Arguments with_storage {V}.
Arguments create {V}.
Arguments map_get {V}.
Arguments map_set {V}.
Arguments map_delete {V}.
Arguments map_has {V}.
Arguments size {V}.
Arguments expired {V}.
Arguments cleanupExpired {V}.
Arguments evictOldest {V}.
Arguments get {V}.
Arguments set {V}.
Arguments has {V}.
Arguments delete {V}.
Arguments clear {V}.

End InMemoryStorage.

(* ================================================================= *)
(** ** PaymentAuditStorage: the client-side audit ledger *)

Module PaymentAuditStorage.

Inductive RequestStatus : Type := RequestPending | RequestCompleted | RequestFailed.
Inductive PaymentStatus : Type := PaymentPending | PaymentCompleted | PaymentFailed.

Definition PaymentStatus_eqb (a b : PaymentStatus) : bool :=
  match a, b with
  | PaymentPending, PaymentPending
  | PaymentCompleted, PaymentCompleted
  | PaymentFailed, PaymentFailed => true
  | _, _ => false
  end.

(** Dates are milliseconds since the epoch; [params] is opaque. *)
Record PaymentAuditRecord : Type := mkRecord {
  requestId : option Js.RequestId;
  serverId : string;
  method : string;
  params : option string;
  paymentAmount : option string;
  paymentNetwork : option string;
  paymentAsset : option string;
  paymentPayTo : option string;
  requestStatus : RequestStatus;
  paymentStatus : PaymentStatus;
  createdAt : Z;
  requestCompletedAt : option Z;
  paymentCompletedAt : option Z;
  errorReason : option string;
  transactionHash : option string;
  payerAddress : option string
}.

Definition set_request (r : PaymentAuditRecord) (s : RequestStatus)
  (at_ : option Z) : PaymentAuditRecord :=
  mkRecord (requestId r) (serverId r) (method r) (params r) (paymentAmount r)
    (paymentNetwork r) (paymentAsset r) (paymentPayTo r) s (paymentStatus r)
    (createdAt r) at_ (paymentCompletedAt r) (errorReason r)
    (transactionHash r) (payerAddress r).

Definition set_payment (r : PaymentAuditRecord) (s : PaymentStatus)
  (at_ : option Z) : PaymentAuditRecord :=
  mkRecord (requestId r) (serverId r) (method r) (params r) (paymentAmount r)
    (paymentNetwork r) (paymentAsset r) (paymentPayTo r) (requestStatus r) s
    (createdAt r) (requestCompletedAt r) at_ (errorReason r)
    (transactionHash r) (payerAddress r).

Definition set_transactionHash (r : PaymentAuditRecord) (h : string)
  : PaymentAuditRecord :=
  mkRecord (requestId r) (serverId r) (method r) (params r) (paymentAmount r)
    (paymentNetwork r) (paymentAsset r) (paymentPayTo r) (requestStatus r)
    (paymentStatus r) (createdAt r) (requestCompletedAt r)
    (paymentCompletedAt r) (errorReason r) (Some h) (payerAddress r).

Definition set_payerAddress (r : PaymentAuditRecord) (a : string)
  : PaymentAuditRecord :=
  mkRecord (requestId r) (serverId r) (method r) (params r) (paymentAmount r)
    (paymentNetwork r) (paymentAsset r) (paymentPayTo r) (requestStatus r)
    (paymentStatus r) (createdAt r) (requestCompletedAt r)
    (paymentCompletedAt r) (errorReason r) (transactionHash r) (Some a).

Definition set_errorReason (r : PaymentAuditRecord) (e : string)
  : PaymentAuditRecord :=
  mkRecord (requestId r) (serverId r) (method r) (params r) (paymentAmount r)
    (paymentNetwork r) (paymentAsset r) (paymentPayTo r) (requestStatus r)
    (paymentStatus r) (createdAt r) (requestCompletedAt r)
    (paymentCompletedAt r) (Some e) (transactionHash r) (payerAddress r).

Definition PENDING_PREFIX : string := "pending:".
Definition TTL : Z := 86400.

(** The ledger object holds only its backing store. *)
Definition t : Type := InMemoryStorage.t PaymentAuditRecord.

Definition buildPendingKey (requestId : Js.RequestId) : string :=
  PENDING_PREFIX ++ Js.toString requestId.

Definition read (now : Z) (key : string) (st : t)
  : option PaymentAuditRecord * t :=
  InMemoryStorage.get now key st.

Definition write (now : Z) (key : string) (record : PaymentAuditRecord)
  (st : t) : t :=
  InMemoryStorage.set now key record (Some TTL) st.

(** The caller's record with the three managed fields overridden. *)
Definition storePendingRequest (now : Z) (record : PaymentAuditRecord)
  (st : t) : Result unit * t :=
  let fullRecord :=
    mkRecord (requestId record) (serverId record) (method record)
      (params record) (paymentAmount record) (paymentNetwork record)
      (paymentAsset record) (paymentPayTo record) RequestPending
      PaymentPending now (requestCompletedAt record)
      (paymentCompletedAt record) (errorReason record)
      (transactionHash record) (payerAddress record) in
  match requestId record with
  | Some id =>
      if Js.RequestId_truthy id
      then (Ok tt, write now (buildPendingKey id) fullRecord st)
      else (Throw (ErrorObj None "Invalid audit record: missing request id"), st)
  | None => (Throw (ErrorObj None "Invalid audit record: missing request id"), st)
  end.

Definition getPendingRequest (now : Z) (requestId : Js.RequestId) (st : t)
  : option PaymentAuditRecord * t :=
  read now (buildPendingKey requestId) st.

Definition markRequestCompleted (now : Z) (requestId : Js.RequestId)
  (completedAt : option Z) (st : t) : t :=
  match read now (buildPendingKey requestId) st with
  | (Some record, st1) =>
      let record' :=
        set_request record RequestCompleted
          (Some (match completedAt with Some d => d | None => now end)) in
      write now (Js.toString requestId) record' st1
  | (None, st1) => st1
  end.

Record PaymentDetails : Type := mkDetails {
  d_transactionHash : option string;
  d_payerAddress : option string;
  d_errorReason : option string;
  d_completedAt : option Z
}.

Definition applyDetails (status : PaymentStatus) (now : Z)
  (details : option PaymentDetails) (record : PaymentAuditRecord)
  : PaymentAuditRecord :=
  let completedAt :=
    match details with
    | Some d => match d_completedAt d with Some x => x | None => now end
    | None => now
    end in
  let r1 := set_payment record status (Some completedAt) in
  let field (f : PaymentDetails -> option string) : option string :=
    match details with Some d => f d | None => None end in
  let r2 := match field d_transactionHash with
            | Some h => if Js.truthy h then set_transactionHash r1 h else r1
            | None => r1
            end in
  let r3 := match field d_payerAddress with
            | Some a => if Js.truthy a then set_payerAddress r2 a else r2
            | None => r2
            end in
  match field d_errorReason with
  | Some e => if Js.truthy e then set_errorReason r3 e else r3
  | None => r3
  end.

Definition updatePaymentStatus (now : Z) (requestId : Js.RequestId)
  (status : PaymentStatus) (details : option PaymentDetails) (st : t) : t :=
  match read now (buildPendingKey requestId) st with
  | (Some record, st1) =>
      let record' := applyDetails status now details record in
      if negb (PaymentStatus_eqb status PaymentPending)
      then write now (Js.toString requestId) record' st1
      else write now (buildPendingKey requestId) record' st1
  | (None, st1) => st1
  end.

Definition removePendingRequest (now : Z) (requestId : Js.RequestId) (st : t)
  : t :=
  snd (InMemoryStorage.delete now (Js.toString requestId) st).

End PaymentAuditStorage.

(* ================================================================= *)
(** ** State-and-exception monad for the asynchronous methods *)

Module Eff.

Definition M (S A : Type) : Type := S -> Result A * S.

Definition ret {S A} (a : A) : M S A := fun s => (Ok a, s).

Definition bind {S A B} (m : M S A) (k : A -> M S B) : M S B :=
  fun s =>
    match m s with
    | (Ok a, s') => k a s'
    | (Throw e, s') => (Throw e, s')
    end.

Definition throw {S A} (e : JsError) : M S A := fun s => (Throw e, s).

(** [try { body } catch (error) { handler(error) }] *)
Definition try_catch {S A} (body : M S A) (handler : JsError -> M S A)
  : M S A :=
  fun s =>
    match body s with
    | (Ok a, s') => (Ok a, s')
    | (Throw e, s') => handler e s'
    end.

(** [try { body } finally { cleanup }], for a [cleanup] that cannot throw. *)
Definition finally {S A} (body : M S A) (cleanup : S -> S) : M S A :=
  fun s => let '(r, s') := body s in (r, cleanup s').

Definition gets {S A} (f : S -> A) : M S A := fun s => (Ok (f s), s).

Definition modify {S} (f : S -> S) : M S unit := fun s => (Ok tt, f s).

(** A call whose outcome is already known (an oracle). *)
Definition lift {S A} (r : Result A) : M S A := fun s => (r, s).

End Eff.

Declare Scope eff_scope.
Delimit Scope eff_scope with eff.
Notation "x <- m ;; k" := (Eff.bind m (fun x => k))
  (at level 61, m at next level, right associativity) : eff_scope.
Notation "m ;; k" := (Eff.bind m (fun _ => k))
  (at level 61, right associativity) : eff_scope.

(* ================================================================= *)
(** ** Wire-level message shapes *)

Module PaymentRequirements.
Record t : Type := mk {
  scheme : string;
  network : string;
  maxAmountRequired : string;
  resource : string;
  description : string;
  mimeType : string;
  payTo : string;
  maxTimeoutSeconds : Z;
  asset : string;
  outputSchema : option string;
  extra : option string
}.
End PaymentRequirements.

(** [ExtendedPaymentRequirements]: the params of [x402/payment_required]. *)
Module PaymentRequiredParams.
Record t : Type := mk {
  scheme : string;
  network : string;
  maxAmountRequired : string;
  resource : string;
  description : string;
  mimeType : string;
  payTo : string;
  maxTimeoutSeconds : Z;
  asset : string;
  outputSchema : option string;
  extra : option string;
  x402Version : Z;
  requestId : option Js.RequestId
}.
End PaymentRequiredParams.

Module PaymentRequiredRequest.
Record t : Type := mk {
  id : Js.RequestId;
  method : string;
  params : option PaymentRequiredParams.t
}.
End PaymentRequiredRequest.

(** [payload.signature] is [None] when [payload] or the signature is absent;
    the authorization is opaque. *)
Module PaymentPayload.
Record t : Type := mk {
  x402Version : Z;
  scheme : string;
  network : string;
  signature : option string;
  authorization : string
}.
End PaymentPayload.

Module PaymentRequiredResponse.
Record t : Type := mk {
  id : Js.RequestId;
  payment : option PaymentPayload.t
}.
End PaymentRequiredResponse.

(** [PaymentResult], the facilitator's settle response. *)
Module PaymentResult.
Record t : Type := mk {
  success : bool;
  transaction : option string;
  network : string;
  payer : option string;
  errorReason : option string
}.
End PaymentResult.

(** The [x402/payment_result] notification. *)
Module PaymentResultNotification.
Record t : Type := mk {
  method : string;
  success : bool;
  transaction : option string;
  network : string;
  requestId : Js.RequestId;
  payer : option string;
  errorReason : option string
}.
End PaymentResultNotification.

(* ================================================================= *)
(** ** Client: guardrails and the payment responder *)

Module GuardrailsService.

Record t : Type := mk {
  maxPaymentPerCall : option Js.number;
  whitelistedServers : option (list string)
}.

(** [this.whitelistedServers.includes(payTo)] *)
Definition array_includes (l : list string) (x : string) : bool :=
  existsb (String.eqb x) l.

Section Enforce.
(** Rendering of a number inside a template string. *)
Variable numToString : Js.number -> string.

(** The per-call limit: [maxPaymentPerCall !== undefined && amount > max]. *)
Definition enforcePerCallLimit (g : t) (amount : Js.number) : Result unit :=
  match maxPaymentPerCall g with
  | Some cap =>
      if Js.gt amount cap then
        Throw (PaymentError ERROR_CODES.GUARDRAIL_VIOLATION
                 ("Payment exceeds max per-call limit: $" ++ numToString amount
                    ++ " > $" ++ numToString cap)
                 (CapDetails amount cap))
      else Ok tt
  | None => Ok tt
  end.

(** The allowlist: [whitelistedServers && !whitelistedServers.includes(payTo)]. *)
Definition enforceWhitelist (g : t) (payTo : string) : Result unit :=
  match whitelistedServers g with
  | Some wl =>
      if negb (array_includes wl payTo) then
        Throw (PaymentError ERROR_CODES.WHITELIST_VIOLATION
                 ("Payment recipient " ++ payTo ++ " is not whitelisted")
                 (WhitelistDetails payTo wl))
      else Ok tt
  | None => Ok tt
  end.

(** [enforce({ amount, payTo })]: the two checks in sequence. *)
Definition enforce (g : t) (amount : Js.number) (payTo : string)
  : Result unit :=
  match enforcePerCallLimit g amount with
  | Throw e => Throw e
  | Ok _ => enforceWhitelist g payTo
  end.

End Enforce.
End GuardrailsService.

Module X402MCPClient.

(** The viem account returned by the wallet provider (opaque). *)
Definition Account : Type := string.

(** Result of the pricer [processPriceToAtomicAmount]: an error text or the
    asset's decimals. *)
Inductive PriceInfo : Type :=
| PriceError (error : string)
| PriceAsset (decimals : Z).

(** External collaborators of the client. *)
Record Env : Type := mkEnv {
  (** [walletProvider.createAccount()] *)
  createAccount : Result Account;
  (** [exact.evm.createPayment(account, x402Version, requirements)] *)
  createPayment : Account -> Z -> PaymentRequiredParams.t
                  -> Result PaymentPayload.t;
  (** [processPriceToAtomicAmount(price, network)] *)
  processPriceToAtomicAmount : string -> string -> PriceInfo;
  (** [parseFloat(formatUnits(BigInt(atomic), decimals))]; [BigInt] throws on
      a string that is not an integer literal. *)
  atomicToUsd : string -> Z -> Result Js.number;
  numToString : Js.number -> string
}.

Inductive Event : Type :=
| EvGetPendingRequest (requestId : Js.RequestId)
| EvUpdatePaymentStatus (requestId : Js.RequestId)
    (status : PaymentAuditStorage.PaymentStatus)
| EvProcessPrice (price network : string)
| EvEnforce (amount : Js.number) (payTo : string)
| EvCreateAccount
| EvCreatePayment (account : Account) (params : PaymentRequiredParams.t).

(** The client object: fixed guardrails, the optional ledger (mutable), and
    the trace of calls made so far. *)
Record State : Type := mkState {
  guardrailsService : option GuardrailsService.t;
  auditStorage : option PaymentAuditStorage.t;
  trace : list Event
}.

Definition emit (ev : Event) : Eff.M State unit :=
  Eff.modify (fun s =>
    mkState (guardrailsService s) (auditStorage s) (trace s ++ [ev])).

Definition set_auditStorage (a : PaymentAuditStorage.t) : Eff.M State unit :=
  Eff.modify (fun s => mkState (guardrailsService s) (Some a) (trace s)).

Section Methods.
Variable env : Env.
(** The clock value during the call. *)
Variable now : Z.

Local Open Scope eff_scope.

(** [this.auditStorage.getPendingRequest(requestId)] *)
Definition ledger_getPendingRequest (a : PaymentAuditStorage.t)
  (requestId : Js.RequestId)
  : Eff.M State (option PaymentAuditStorage.PaymentAuditRecord) :=
  emit (EvGetPendingRequest requestId) ;;
  let '(r, a') := PaymentAuditStorage.getPendingRequest now requestId a in
  set_auditStorage a' ;;
  Eff.ret r.

(** [this.auditStorage.updatePaymentStatus(requestId, status, details)],
    on the ledger as it is when the call is made. *)
Definition ledger_updatePaymentStatus (requestId : Js.RequestId)
  (status : PaymentAuditStorage.PaymentStatus)
  (details : option PaymentAuditStorage.PaymentDetails)
  : Eff.M State unit :=
  emit (EvUpdatePaymentStatus requestId status) ;;
  a <- Eff.gets auditStorage ;;
  match a with
  | Some a0 =>
      set_auditStorage
        (PaymentAuditStorage.updatePaymentStatus now requestId status details a0)
  | None => Eff.ret tt
  end.

(** Step 1 of [handlePaymentRequired]: the basic checks on the params. *)
Definition validateParams (request : PaymentRequiredRequest.t)
  : Eff.M State PaymentRequiredParams.t :=
  match PaymentRequiredRequest.params request with
  | None =>
      Eff.throw (ErrorObj None
        "Invalid payment_required request: missing required fields")
  | Some params =>
      if negb (Js.truthy (PaymentRequiredParams.payTo params))
         || negb (Js.truthy (PaymentRequiredParams.maxAmountRequired params))
         || negb (Js.truthy (PaymentRequiredParams.network params))
      then Eff.throw (ErrorObj None
             "Invalid payment_required request: missing required fields")
      else if negb (String.eqb (PaymentRequiredParams.scheme params) "exact")
      then Eff.throw (ErrorObj None
             ("Unsupported scheme: " ++ PaymentRequiredParams.scheme params))
      else if negb (PaymentRequiredParams.x402Version params =? 1)
      then Eff.throw (ErrorObj None
             ("Unsupported x402 version: "
                ++ Js.toString (Js.IdNum (PaymentRequiredParams.x402Version params))))
      else Eff.ret params
  end.

(** Steps 2 and 3: correlation with the ledger, only [if (this.auditStorage)]. *)
Definition correlate (requestId : Js.RequestId) : Eff.M State unit :=
  a <- Eff.gets auditStorage ;;
  match a with
  | Some a0 =>
      matchingRequest <- ledger_getPendingRequest a0 requestId ;;
      match matchingRequest with
      | None =>
          Eff.throw (PaymentError ERROR_CODES.PAYMENT_INVALID
            ("Payment request for unknown payment: " ++ Js.toString requestId)
            NoDetails)
      | Some _ =>
          ledger_updatePaymentStatus requestId
            PaymentAuditStorage.PaymentPending
            (Some (PaymentAuditStorage.mkDetails None None None (Some now)))
      end
  | None => Eff.ret tt
  end.

(** Step 4: guardrails, only [if (this.guardrailsService)]. *)
Definition guard (params : PaymentRequiredParams.t) : Eff.M State unit :=
  g <- Eff.gets guardrailsService ;;
  match g with
  | Some g0 =>
      emit (EvProcessPrice (PaymentRequiredParams.maxAmountRequired params)
              (PaymentRequiredParams.network params)) ;;
      match processPriceToAtomicAmount env
              (PaymentRequiredParams.maxAmountRequired params)
              (PaymentRequiredParams.network params) with
      | PriceError error =>
          Eff.throw (PaymentError ERROR_CODES.PAYMENT_INVALID
            ("Failed to process payment amount: " ++ error) NoDetails)
      | PriceAsset decimals =>
          usdAmount <- Eff.lift
            (atomicToUsd env (PaymentRequiredParams.maxAmountRequired params)
               decimals) ;;
          emit (EvEnforce usdAmount (PaymentRequiredParams.payTo params)) ;;
          Eff.lift (GuardrailsService.enforce (numToString env) g0 usdAmount
                      (PaymentRequiredParams.payTo params))
      end
  | None => Eff.ret tt
  end.

(** Steps 5 to 8: account, signed payload, response. *)
Definition signAndRespond (request : PaymentRequiredRequest.t)
  (params : PaymentRequiredParams.t)
  : Eff.M State PaymentRequiredResponse.t :=
  emit EvCreateAccount ;;
  account <- Eff.lift (createAccount env) ;;
  emit (EvCreatePayment account params) ;;
  paymentPayload <- Eff.lift
    (createPayment env account (PaymentRequiredParams.x402Version params)
       params) ;;
  Eff.ret (PaymentRequiredResponse.mk (PaymentRequiredRequest.id request)
             (Some paymentPayload)).

Definition handlePaymentRequired (request : PaymentRequiredRequest.t)
  : Eff.M State PaymentRequiredResponse.t :=
  params <- validateParams request ;;
  match PaymentRequiredParams.requestId params with
  | None =>
      Eff.throw (PaymentError ERROR_CODES.PAYMENT_INVALID
        "Payment request missing requestId" NoDetails)
  | Some requestId =>
      if negb (Js.RequestId_truthy requestId) then
        Eff.throw (PaymentError ERROR_CODES.PAYMENT_INVALID
          "Payment request missing requestId" NoDetails)
      else
        correlate requestId ;;
        guard params ;;
        signAndRespond request params
  end.

(** [handleNotification]: reconcile an [x402/payment_result]. *)
Definition handleNotification (n : PaymentResultNotification.t)
  : Eff.M State unit :=
  a <- Eff.gets auditStorage ;;
  match a with
  | Some a0 =>
      if Js.RequestId_truthy (PaymentResultNotification.requestId n) then
        matchingRequest <-
          ledger_getPendingRequest a0 (PaymentResultNotification.requestId n) ;;
        match matchingRequest with
        | Some record =>
            match PaymentAuditStorage.requestId record with
            | Some rid =>
                ledger_updatePaymentStatus rid
                  (if PaymentResultNotification.success n
                   then PaymentAuditStorage.PaymentCompleted
                   else PaymentAuditStorage.PaymentFailed)
                  (Some (PaymentAuditStorage.mkDetails
                           (PaymentResultNotification.transaction n)
                           (PaymentResultNotification.payer n)
                           (PaymentResultNotification.errorReason n)
                           (Some now)))
            | None =>
                (* [requestId.toString()] on [undefined] *)
                Eff.throw (ErrorObj None
                  "Cannot read properties of undefined (reading 'toString')")
            end
        | None => Eff.ret tt
        end
      else Eff.ret tt
  | None => Eff.ret tt
  end.

End Methods.
End X402MCPClient.

(* ================================================================= *)
(** ** Server: decorators and the handler registry *)

Module PaymentOptions.
Record t : Type := mk {
  amount : Js.number;
  description : option string
}.
End PaymentOptions.

Module MCPToolOptions.
(** [inputSchema] is kept as the list of its keys. *)
Record t : Type := mk {
  name : string;
  description : option string;
  inputSchema : option (list string);
  payment : option PaymentOptions.t
}.
End MCPToolOptions.

Module MCPPromptOptions.
Record t : Type := mk {
  name : string;
  description : option string;
  payment : option PaymentOptions.t
}.
End MCPPromptOptions.

Module MCPResourceOptions.
Record t : Type := mk {
  name : string;
  uri : option string;
  template : option string;
  description : option string;
  payment : option PaymentOptions.t
}.
End MCPResourceOptions.

(** The per-invocation context ([extra]) and handler bodies. *)
Module Invocation.

Record Ctx : Type := mkCtx {
  requestId : Js.RequestId;
  paymentProof : option PaymentPayload.t;
  paymentRequirements : option PaymentRequirements.t
}.

(** The [args] object built by the session callbacks. *)
Record Args : Type := mkArgs {
  uri : option string;
  variables : option string;
  fields : string
}.

Definition emptyArgs : Args := mkArgs None None "{}".

(** The three calling conventions of developer handlers. *)
Inductive Call : Type :=
| CallArgs (args : Args)
| CallUri (uri : option string)
| CallUriVariables (uri variables : option string).

(** A developer handler: it receives its arguments and the context object
    [extra], and returns a result (opaque) or throws.  Handler bodies are
    external code, and the context is the one mutable object that wrapper,
    orchestrator and handler share: what the body assigns to its fields is
    what [settlePayment] and the [finally] clause find afterwards.  A handler
    therefore yields, beside its outcome, the context as it leaves it.  The
    session layer always supplies the context, so the wrapper's [if (extra)]
    guard is taken. *)
Definition Handler : Type := Call -> Ctx -> Result string * Ctx.

End Invocation.

Module HandlerRegistry.

Inductive HandlerType : Type := tool | prompt | resource | resourceTemplate.

Inductive HandlerOptions : Type :=
| ToolOptions (o : MCPToolOptions.t)
| PromptOptions (o : MCPPromptOptions.t)
| ResourceOptions (o : MCPResourceOptions.t).

(** An own property of a handler class prototype, with the decorator metadata
    attached to it ([Reflect.getMetadata] under the three keys). *)
Record Method : Type := mkMethod {
  methodName : string;
  isFunction : bool;
  body : Invocation.Handler;
  toolMetadata : option MCPToolOptions.t;
  promptMetadata : option MCPPromptOptions.t;
  resourceMetadata : option MCPResourceOptions.t
}.

(** A handler class: [Object.getOwnPropertyNames(prototype)] in order. *)
Record HandlerClass : Type := mkClass {
  className : string;
  prototype : list Method
}.

Record HandlerInfo : Type := mkInfo {
  name : string;
  handler : Invocation.Handler;
  type : HandlerType;
  options : HandlerOptions;
  paymentOptions : option PaymentOptions.t;
  instance : string
}.

Record SessionHandlers : Type := mkSession {
  tools : list HandlerInfo;
  prompts : list HandlerInfo;
  resources : list HandlerInfo;
  resourceTemplates : list HandlerInfo
}.

(** One iteration of the loop over the prototype's property names. *)
Definition extractMethod (instance : string) (m : Method)
  : option HandlerInfo :=
  if String.eqb (methodName m) "constructor" then None
  else if negb (isFunction m) then None
  else
    match toolMetadata m, promptMetadata m, resourceMetadata m with
    | Some toolOptions, _, _ =>
        Some (mkInfo (MCPToolOptions.name toolOptions) (body m) tool
                (ToolOptions toolOptions) (MCPToolOptions.payment toolOptions)
                instance)
    | None, Some promptOptions, _ =>
        Some (mkInfo (MCPPromptOptions.name promptOptions) (body m) prompt
                (PromptOptions promptOptions)
                (MCPPromptOptions.payment promptOptions) instance)
    | None, None, Some resourceOptions =>
        match MCPResourceOptions.template resourceOptions with
        | Some tpl =>
            if Js.truthy tpl then
              Some (mkInfo (MCPResourceOptions.name resourceOptions) (body m)
                      resourceTemplate (ResourceOptions resourceOptions)
                      (MCPResourceOptions.payment resourceOptions) instance)
            else
              Some (mkInfo (MCPResourceOptions.name resourceOptions) (body m)
                      resource (ResourceOptions resourceOptions)
                      (MCPResourceOptions.payment resourceOptions) instance)
        | None =>
            Some (mkInfo (MCPResourceOptions.name resourceOptions) (body m)
                    resource (ResourceOptions resourceOptions)
                    (MCPResourceOptions.payment resourceOptions) instance)
        end
    | None, None, None => None
    end.

(** [extractHandlersFromInstance(instance)]; the instance of a class is
    identified by the class name. *)
Definition extractHandlersFromInstance (c : HandlerClass) : list HandlerInfo :=
  fold_left
    (fun handlers m =>
       match extractMethod (className c) m with
       | Some h => (handlers ++ [h])%list
       | None => handlers
       end)
    (prototype c) [].

Definition push (s : SessionHandlers) (h : HandlerInfo) : SessionHandlers :=
  match type h with
  | tool =>
      mkSession (tools s ++ [h]) (prompts s) (resources s) (resourceTemplates s)
  | prompt =>
      mkSession (tools s) (prompts s ++ [h]) (resources s) (resourceTemplates s)
  | resource =>
      mkSession (tools s) (prompts s) (resources s ++ [h]) (resourceTemplates s)
  | resourceTemplate =>
      mkSession (tools s) (prompts s) (resources s) (resourceTemplates s ++ [h])
  end.

(** [createSessionHandlers(handlerClasses)] *)
Definition createSessionHandlers (handlerClasses : list HandlerClass)
  : SessionHandlers :=
  fold_left
    (fun sessionHandlers handlerClass =>
       fold_left push (extractHandlersFromInstance handlerClass) sessionHandlers)
    handlerClasses (mkSession [] [] [] []).

(** [isPaymentRequired(handlerInfo)] *)
Definition isPaymentRequired (h : HandlerInfo) : bool :=
  match paymentOptions h with Some _ => true | None => false end.

Definition getPaymentOptions (h : HandlerInfo) : option PaymentOptions.t :=
  paymentOptions h.

(** *** The decorator and the process-wide registry *)

Record RegisteredHandler : Type := mkRegistered {
  target : string;
  propertyKey : string;
  toolOptions : option MCPToolOptions.t;
  promptOptions : option MCPPromptOptions.t;
  resourceOptions : option MCPResourceOptions.t
}.

Definition GlobalRegistry : Type := list (string * RegisteredHandler).

(** [target.constructor?.name || target.name || 'anonymous'], then the
    property key; a target is identified by that name. *)
Definition getHandlerKey (target propertyKey : string) : string :=
  (if Js.truthy target then target else "anonymous") ++ "." ++ propertyKey.

Definition first_some {A} (a b : option A) : option A :=
  match a with Some _ => a | None => b end.

(** [{ ...existing, ...handler }]: the keys present in [handler] win. *)
Definition merge (existing handler : RegisteredHandler) : RegisteredHandler :=
  mkRegistered (target handler) (propertyKey handler)
    (first_some (toolOptions handler) (toolOptions existing))
    (first_some (promptOptions handler) (promptOptions existing))
    (first_some (resourceOptions handler) (resourceOptions existing)).

Fixpoint registry_get (key : string) (g : GlobalRegistry)
  : option RegisteredHandler :=
  match g with
  | [] => None
  | (k, h) :: rest => if String.eqb k key then Some h else registry_get key rest
  end.

Fixpoint registry_set (key : string) (h : RegisteredHandler)
  (g : GlobalRegistry) : GlobalRegistry :=
  match g with
  | [] => [(key, h)]
  | (k, h0) :: rest =>
      if String.eqb k key then (k, h) :: rest
      else (k, h0) :: registry_set key h rest
  end.

Definition registerHandler (h : RegisteredHandler) (g : GlobalRegistry)
  : GlobalRegistry :=
  let key := getHandlerKey (target h) (propertyKey h) in
  match registry_get key g with
  | Some existing => registry_set key (merge existing h) g
  | None => registry_set key h g
  end.

(** Attach metadata to the decorated method of a prototype. *)
Definition defineToolMetadata (propertyKey : string) (o : MCPToolOptions.t)
  (c : HandlerClass) : HandlerClass :=
  mkClass (className c)
    (map (fun m =>
            if String.eqb (methodName m) propertyKey
            then mkMethod (methodName m) (isFunction m) (body m) (Some o)
                   (promptMetadata m) (resourceMetadata m)
            else m)
         (prototype c)).

(** [@MCPTool(options)] applied to method [propertyKey] of class [c]. *)
Definition MCPTool (o : MCPToolOptions.t) (propertyKey : string)
  (cg : HandlerClass * GlobalRegistry) : HandlerClass * GlobalRegistry :=
  let '(c, g) := cg in
  (defineToolMetadata propertyKey o c,
   registerHandler (mkRegistered (className c) propertyKey (Some o) None None) g).

End HandlerRegistry.

(* ================================================================= *)
(** ** Server: requirement assembly, orchestrator and handler wrapper *)

Module Server.

Import Invocation.

Record ValidationResult : Type := mkValidation {
  isValid : bool;
  invalidReason : option string;
  payer : option string
}.

(** Result of the pricer on the server side. *)
Inductive PriceResult : Type :=
| PriceError (error : string)
| PriceOk (maxAmountRequired assetAddress : string) (eip712 : option string).

Record X402Config : Type := mkConfig {
  payTo : string;
  network : string;
  baseUrl : option string
}.

(** External collaborators of one server session, and the orchestrator's
    options ([options.payTo], [options.network]; the facilitator is the pair
    of oracles). *)
Record Env : Type := mkEnv {
  (** [extra.sendRequest(request, schema)] *)
  sendRequest : PaymentRequiredRequest.t -> Result PaymentRequiredResponse.t;
  (** [extra.sendNotification(notification)] *)
  sendNotification : PaymentResultNotification.t -> Result unit;
  facilitator_validatePayment :
    PaymentPayload.t -> PaymentRequirements.t -> Result ValidationResult;
  facilitator_executePayment :
    PaymentPayload.t -> PaymentRequirements.t -> Result PaymentResult.t;
  processPriceToAtomicAmount : Js.number -> string -> Result PriceResult;
  (** [new URL(path, base).toString()] *)
  newURL : string -> string -> Result string;
  numToString : Js.number -> string;
  options_payTo : string;
  options_network : string
}.

Inductive Event : Type :=
| EvSendRequest (request : PaymentRequiredRequest.t)
| EvFacilitatorValidate (payment : PaymentPayload.t)
    (requirements : PaymentRequirements.t)
| EvHandlerCalled (call : Call) (extra : Ctx)
| EvHandlerReturned (extra : Ctx)
| EvHandlerThrew (error : JsError)
| EvSettlePayment
| EvExecutePayment (payment : PaymentPayload.t)
    (requirements : PaymentRequirements.t)
| EvSendNotification (notification : PaymentResultNotification.t).

(** The context object shared by wrapper, orchestrator and handler, and the
    trace of external calls. *)
Record State : Type := mkState {
  extra : Ctx;
  trace : list Event
}.

Definition emit (ev : Event) : Eff.M State unit :=
  Eff.modify (fun s => mkState (extra s) (trace s ++ [ev])).

Definition update_extra (f : Ctx -> Ctx) : Eff.M State unit :=
  Eff.modify (fun s => mkState (f (extra s)) (trace s)).

Section Session.
Variable env : Env.

Local Open Scope eff_scope.

(** *** payment-utils *)

Definition assemblePaymentRequirements (options : PaymentOptions.t)
  (resourcePath : string) (x402Config : X402Config) (base : option string)
  : Result PaymentRequirements.t :=
  match processPriceToAtomicAmount env (PaymentOptions.amount options)
          (network x402Config) with
  | Throw e => Throw e
  | Ok (PriceError error) =>
      Throw (ErrorObj None
        ("Failed to process price for amount "
           ++ numToString env (PaymentOptions.amount options)
           ++ " on network " ++ network x402Config ++ ": " ++ error))
  | Ok (PriceOk maxAmountRequired assetAddress eip712) =>
      let build (resourceUrl : string) :=
        PaymentRequirements.mk "exact" (network x402Config) maxAmountRequired
          resourceUrl
          (Js.or_else (PaymentOptions.description options) "")
          "application/json" (payTo x402Config) 60 assetAddress None eip712 in
      match base with
      | Some b =>
          if Js.truthy b then
            match newURL env resourcePath b with
            | Ok resourceUrl => Ok (build resourceUrl)
            | Throw e => Throw e
            end
          else Ok (build resourcePath)
      | None => Ok (build resourcePath)
      end
  end.

(** *** PaymentOrchestrator *)

Definition isMethodNotFoundError (error : JsError) : bool :=
  Err.codeIs error (-32601)
  || match Err.messageField error with
     | Some m => Js.includes "Method not found" m
     | None => false
     end
  || match Err.messageField error with
     | Some m => Js.includes "method not found" m
     | None => false
     end.

(** The canonical [PaymentRequiredRequest] built from the requirements. *)
Definition buildPaymentRequest (requestId : Js.RequestId)
  (paymentRequirements : PaymentRequirements.t) : PaymentRequiredRequest.t :=
  PaymentRequiredRequest.mk requestId "x402/payment_required"
    (Some (PaymentRequiredParams.mk
             (PaymentRequirements.scheme paymentRequirements)
             (PaymentRequirements.network paymentRequirements)
             (PaymentRequirements.maxAmountRequired paymentRequirements)
             (PaymentRequirements.resource paymentRequirements)
             (PaymentRequirements.description paymentRequirements)
             (PaymentRequirements.mimeType paymentRequirements)
             (PaymentRequirements.payTo paymentRequirements)
             (PaymentRequirements.maxTimeoutSeconds paymentRequirements)
             (PaymentRequirements.asset paymentRequirements)
             (PaymentRequirements.outputSchema paymentRequirements)
             (PaymentRequirements.extra paymentRequirements)
             1
             (Some requestId))).

Definition sendPaymentRequiredRequest
  (paymentRequirements : PaymentRequirements.t)
  : Eff.M State PaymentRequiredResponse.t :=
  requestId <- Eff.gets (fun s => requestId (extra s)) ;;
  let paymentRequest := buildPaymentRequest requestId paymentRequirements in
  Eff.try_catch
    (emit (EvSendRequest paymentRequest) ;;
     Eff.lift (sendRequest env paymentRequest))
    (fun error =>
       if isMethodNotFoundError error then
         Eff.throw (PaymentError ERROR_CODES.PAYMENT_REQUIRED
           ("Payment required: "
              ++ (if Js.truthy (PaymentRequirements.description paymentRequirements)
                  then PaymentRequirements.description paymentRequirements
                  else "Payment is required for this operation"))
           (PaymentRequiredDetails
              (PaymentRequirements.maxAmountRequired paymentRequirements)
              (PaymentRequirements.asset paymentRequirements)
              (options_payTo env)
              (options_network env)))
       else
         match error with
         | Nullish rendering =>
             (* [error.code] on [null] or [undefined] *)
             Eff.throw (ErrorObj None (Err.cannotRead rendering "code"))
         | _ =>
             Eff.throw (PaymentError
               (Err.codeOr error ERROR_CODES.PAYMENT_INVALID)
               "Failed to send payment request" (CauseDetails error))
         end).

Definition validatePaymentProof (response : PaymentRequiredResponse.t)
  (paymentRequirements : PaymentRequirements.t)
  : Eff.M State PaymentPayload.t :=
  match PaymentRequiredResponse.payment response with
  | None =>
      Eff.throw (PaymentError ERROR_CODES.PAYMENT_INVALID
        "Invalid payment proof: missing signature" NoDetails)
  | Some payment =>
      if negb (Js.truthy_opt (PaymentPayload.signature payment)) then
        Eff.throw (PaymentError ERROR_CODES.PAYMENT_INVALID
          "Invalid payment proof: missing signature" NoDetails)
      else if negb (PaymentPayload.x402Version payment =? 1) then
        Eff.throw (PaymentError ERROR_CODES.INVALID_REQUEST
          "Invalid x402 version" NoDetails)
      else if negb (String.eqb (PaymentPayload.scheme payment) "exact") then
        Eff.throw (PaymentError ERROR_CODES.PAYMENT_INVALID
          "Invalid payment scheme" NoDetails)
      else if negb (String.eqb (PaymentPayload.network payment)
                      (PaymentRequirements.network paymentRequirements)) then
        Eff.throw (PaymentError ERROR_CODES.PAYMENT_INVALID
          "Invalid payment proof: network mismatch" NoDetails)
      else
        emit (EvFacilitatorValidate payment paymentRequirements) ;;
        res <- Eff.lift
          (facilitator_validatePayment env payment paymentRequirements) ;;
        if negb (isValid res) then
          Eff.throw (PaymentError ERROR_CODES.PAYMENT_INVALID
            (Js.or_else (invalidReason res) "Payment proof validation failed")
            NoDetails)
        else
          update_extra (fun c =>
            mkCtx (requestId c) (Some payment) (Some paymentRequirements)) ;;
          Eff.ret payment
  end.

Definition validatePayment (handlerName : string)
  (paymentRequirements : PaymentRequirements.t) : Eff.M State unit :=
  Eff.try_catch
    (paymentResponse <- sendPaymentRequiredRequest paymentRequirements ;;
     validatePaymentProof paymentResponse paymentRequirements ;;
     Eff.ret tt)
    (fun error =>
       if Err.isPaymentError error then Eff.throw error
       else Eff.throw (PaymentError ERROR_CODES.PAYMENT_INVALID
              ("Payment validation failed: " ++ Err.messageOf error)
              NoDetails)).

Definition executePayment (paymentProof : PaymentPayload.t)
  (paymentRequirements : PaymentRequirements.t)
  : Eff.M State PaymentResult.t :=
  emit (EvExecutePayment paymentProof paymentRequirements) ;;
  Eff.lift (facilitator_executePayment env paymentProof paymentRequirements).

Definition notify (n : PaymentResultNotification.t) : Eff.M State unit :=
  emit (EvSendNotification n) ;;
  Eff.lift (sendNotification env n).

Definition settlePayment : Eff.M State unit :=
  emit EvSettlePayment ;;
  Eff.try_catch
    (c <- Eff.gets extra ;;
     match paymentProof c, paymentRequirements c with
     | Some proof, Some requirements =>
         paymentResult <- executePayment proof requirements ;;
         if negb (PaymentResult.success paymentResult) then
           Eff.throw (PaymentError ERROR_CODES.PAYMENT_EXECUTION_FAILED
             ("Payment settlement failed: "
                ++ Js.render (PaymentResult.errorReason paymentResult))
             NoDetails)
         else
           notify (PaymentResultNotification.mk "x402/payment_result" true
                     (PaymentResult.transaction paymentResult)
                     (PaymentResult.network paymentResult)
                     (requestId c)
                     (PaymentResult.payer paymentResult)
                     None)
     | _, _ =>
         Eff.throw (PaymentError ERROR_CODES.PAYMENT_INVALID
           "Payment proof or requirements not found in context" NoDetails)
     end)
    (fun error =>
       c <- Eff.gets extra ;;
       notify (PaymentResultNotification.mk "x402/payment_result" false
                 None (options_network env) (requestId c) None
                 (Some (Err.messageOf error))) ;;
       if Err.isPaymentError error then Eff.throw error
       else Eff.throw (PaymentError ERROR_CODES.PAYMENT_EXECUTION_FAILED
              ("Payment settlement failed: " ++ Err.messageOf error)
              NoDetails)).

(** *** HandlerWrapperFactory *)

(** The arguments passed to the developer handler, by handler type. *)
Definition callOf (handlerInfo : HandlerRegistry.HandlerInfo) (args : Args)
  : Call :=
  match HandlerRegistry.type handlerInfo with
  | HandlerRegistry.resource => CallUri (uri args)
  | HandlerRegistry.resourceTemplate =>
      CallUriVariables (uri args) (variables args)
  | _ => CallArgs args
  end.

Definition callHandler (handlerInfo : HandlerRegistry.HandlerInfo)
  (args : Args) : Eff.M State string :=
  c <- Eff.gets extra ;;
  emit (EvHandlerCalled (callOf handlerInfo args) c) ;;
  match HandlerRegistry.handler handlerInfo (callOf handlerInfo args) c with
  | (Ok result, c') =>
      update_extra (fun _ => c') ;; emit (EvHandlerReturned c') ;;
      Eff.ret result
  | (Throw e, c') =>
      update_extra (fun _ => c') ;; emit (EvHandlerThrew e) ;; Eff.throw e
  end.

(** The [catch] clause of the wrapper: a [PaymentError] is re-thrown as it
    is, anything else as a generic processing error. *)
Definition rethrow (error : JsError) : JsError :=
  if Err.isPaymentError error then error
  else ErrorObj None ("Handler execution failed: " ++ Err.messageOf error).

(** The [finally] clause: [delete extra.paymentProof] and
    [delete extra.paymentRequirements]. *)
Definition stripPayment (s : State) : State :=
  mkState (mkCtx (requestId (extra s)) None None) (trace s).

Definition createWrappedHandler (handlerInfo : HandlerRegistry.HandlerInfo)
  (x402Config : X402Config) (args : Args) : Eff.M State string :=
  Eff.finally
    (Eff.try_catch
       ((* Step 1: validate payment if required *)
        match HandlerRegistry.paymentOptions handlerInfo with
        | Some paymentOptions =>
            let resourcePath := "/tools/" ++ HandlerRegistry.name handlerInfo in
            paymentRequirements <- Eff.lift
              (assemblePaymentRequirements paymentOptions resourcePath
                 x402Config (baseUrl x402Config)) ;;
            validatePayment (HandlerRegistry.name handlerInfo)
              paymentRequirements
        | None => Eff.ret tt
        end ;;
        (* Step 2: call the developer-supplied handler *)
        result <- callHandler handlerInfo args ;;
        (* Step 3: settle payment on successful outcome *)
        match HandlerRegistry.paymentOptions handlerInfo with
        | Some _ => settlePayment
        | None => Eff.ret tt
        end ;;
        Eff.ret result)
       (fun error => Eff.throw (rethrow error)))
    stripPayment.

(** [Object.keys(inputSchema).length > 0] on a present schema *)
Definition hasInputSchema (handlerInfo : HandlerRegistry.HandlerInfo) : bool :=
  match HandlerRegistry.options handlerInfo with
  | HandlerRegistry.ToolOptions o =>
      match MCPToolOptions.inputSchema o with
      | Some keys => negb (Nat.eqb (length keys) 0)
      | None => false
      end
  | _ => false
  end.

(** The four session callbacks.  A tool without input schema is called with
    the context only and passes the empty object as [args]. *)
Definition createToolWrapper (handlerInfo : HandlerRegistry.HandlerInfo)
  (x402Config : X402Config) (args : Args) : Eff.M State string :=
  if hasInputSchema handlerInfo
  then createWrappedHandler handlerInfo x402Config args
  else createWrappedHandler handlerInfo x402Config emptyArgs.

Definition createPromptWrapper (handlerInfo : HandlerRegistry.HandlerInfo)
  (x402Config : X402Config) (args : Args) : Eff.M State string :=
  createWrappedHandler handlerInfo x402Config args.

Definition createResourceWrapper (handlerInfo : HandlerRegistry.HandlerInfo)
  (x402Config : X402Config) (uri : string) : Eff.M State string :=
  createWrappedHandler handlerInfo x402Config (mkArgs (Some uri) None "").

Definition createResourceTemplateWrapper
  (handlerInfo : HandlerRegistry.HandlerInfo) (x402Config : X402Config)
  (uri variables : string) : Eff.M State string :=
  createWrappedHandler handlerInfo x402Config
    (mkArgs (Some uri) (Some variables) "").

End Session.

(** A fresh invocation: the session layer supplies the context of the RPC. *)
Definition initial (requestId : Js.RequestId) : State :=
  mkState (mkCtx requestId None None) [].

End Server.

(* ================================================================= *)
(** ** Observations on traces *)

Module Observe.

Import Server Invocation.

(** One protected or free invocation, started by the session layer with
    context [c] and an empty trace. *)
Definition invoke (env : Env) (hi : HandlerRegistry.HandlerInfo)
  (cfg : X402Config) (args : Args) (c : Ctx) : Result string * State :=
  createWrappedHandler env hi cfg args (mkState c []).

(** Events of the verify phase. *)
Definition verify_event (ev : Event) : bool :=
  match ev with
  | EvSendRequest _ | EvFacilitatorValidate _ _ => true
  | _ => false
  end.

(** Events of settlement: the call of [settlePayment], the facilitator's
    [executePayment], and any [x402/payment_result] notification. *)
Definition settle_event (ev : Event) : bool :=
  match ev with
  | EvSettlePayment | EvExecutePayment _ _ | EvSendNotification _ => true
  | _ => false
  end.

(** The request id carried by an outbound message equals [rid]. *)
Definition carries (rid : Js.RequestId) (ev : Event) : Prop :=
  match ev with
  | EvSendRequest req =>
      PaymentRequiredRequest.id req = rid
      /\ exists p, PaymentRequiredRequest.params req = Some p
                   /\ PaymentRequiredParams.requestId p = Some rid
  | EvSendNotification n => PaymentResultNotification.requestId n = rid
  | _ => True
  end.

(** The notifications sent, in order. *)
Fixpoint notifications (tr : list Event) : list PaymentResultNotification.t :=
  match tr with
  | [] => []
  | EvSendNotification n :: rest => n :: notifications rest
  | _ :: rest => notifications rest
  end.

(** The notification of a failed settlement. *)
Definition failureNotice (env : Env) (rid : Js.RequestId) (reason : string)
  : PaymentResultNotification.t :=
  PaymentResultNotification.mk "x402/payment_result" false None
    (options_network env) rid None (Some reason).

(** The error raised for a failed settlement. *)
Definition executionFailed (reason : string) : JsError :=
  PaymentError ERROR_CODES.PAYMENT_EXECUTION_FAILED
    ("Payment settlement failed: " ++ reason) NoDetails.

(** The error raised by [settlePayment] on a context without proof or
    requirements. *)
Definition proofMissing : JsError :=
  PaymentError ERROR_CODES.PAYMENT_INVALID
    "Payment proof or requirements not found in context" NoDetails.

(** Handler bodies that do not assign [extra.requestId], and bodies that do
    not assign [extra.paymentProof] and [extra.paymentRequirements]. *)
Definition keepsRequestId (h : Handler) : Prop :=
  forall call c, requestId (snd (h call c)) = requestId c.

Definition keepsPayment (h : Handler) : Prop :=
  forall call c,
    paymentProof (snd (h call c)) = paymentProof c
    /\ paymentRequirements (snd (h call c)) = paymentRequirements c.

(** Client side: ledger accesses and signing steps. *)
Definition ledger_event (ev : X402MCPClient.Event) : bool :=
  match ev with
  | X402MCPClient.EvGetPendingRequest _
  | X402MCPClient.EvUpdatePaymentStatus _ _ => true
  | _ => false
  end.

Definition signing_event (ev : X402MCPClient.Event) : bool :=
  match ev with
  | X402MCPClient.EvCreateAccount
  | X402MCPClient.EvCreatePayment _ _ => true
  | _ => false
  end.

(** A challenge that passes the responder's basic checks and carries a
    request id. *)
Definition structurallyValid (request : PaymentRequiredRequest.t)
  (p : PaymentRequiredParams.t) (rid : Js.RequestId) : Prop :=
  PaymentRequiredRequest.params request = Some p
  /\ Js.truthy (PaymentRequiredParams.payTo p) = true
  /\ Js.truthy (PaymentRequiredParams.maxAmountRequired p) = true
  /\ Js.truthy (PaymentRequiredParams.network p) = true
  /\ PaymentRequiredParams.scheme p = "exact"
  /\ PaymentRequiredParams.x402Version p = 1
  /\ PaymentRequiredParams.requestId p = Some rid
  /\ Js.RequestId_truthy rid = true.

(** The error of the per-call cap. *)
Definition capViolation (numToString : Js.number -> string)
  (amount cap : Js.number) : JsError :=
  PaymentError ERROR_CODES.GUARDRAIL_VIOLATION
    ("Payment exceeds max per-call limit: $" ++ numToString amount
       ++ " > $" ++ numToString cap)
    (CapDetails amount cap).

(** The session list a descriptor of a given type belongs to. *)
Definition handlersOfType (ty : HandlerRegistry.HandlerType)
  (s : HandlerRegistry.SessionHandlers) : list HandlerRegistry.HandlerInfo :=
  match ty with
  | HandlerRegistry.tool => HandlerRegistry.tools s
  | HandlerRegistry.prompt => HandlerRegistry.prompts s
  | HandlerRegistry.resource => HandlerRegistry.resources s
  | HandlerRegistry.resourceTemplate => HandlerRegistry.resourceTemplates s
  end.

(** The [payment] field of a descriptor's decorator options. *)
Definition paymentOfOptions (o : HandlerRegistry.HandlerOptions)
  : option PaymentOptions.t :=
  match o with
  | HandlerRegistry.ToolOptions t => MCPToolOptions.payment t
  | HandlerRegistry.PromptOptions p => MCPPromptOptions.payment p
  | HandlerRegistry.ResourceOptions r => MCPResourceOptions.payment r
  end.

End Observe.

(* ================================================================= *)
(** ** Concrete scenarios *)

Module Scenario.

Import Server Invocation.

Definition proof0 : PaymentPayload.t :=
  PaymentPayload.mk 1 "exact" "base-sepolia" (Some "0xsig") "authorization".

Definition config0 : X402Config :=
  mkConfig "0xPayee" "base-sepolia" (Some "https://example.com").

(** A client that answers every challenge with [proof0]. *)
Definition payingClient (req : PaymentRequiredRequest.t)
  : Result PaymentRequiredResponse.t :=
  Ok (PaymentRequiredResponse.mk (PaymentRequiredRequest.id req) (Some proof0)).

(** The mock facilitator: always verifies; executes or not. *)
Definition mockValidate (p : PaymentPayload.t) (r : PaymentRequirements.t)
  : Result ValidationResult :=
  Ok (mkValidation true None (Some "0x1234")).

Definition mockExecute (shouldExecute : bool) (p : PaymentPayload.t)
  (r : PaymentRequirements.t) : Result PaymentResult.t :=
  if shouldExecute
  then Ok (PaymentResult.mk true (Some "0xabc") (PaymentRequirements.network r)
             (Some "0x1234") None)
  else Ok (PaymentResult.mk false (Some "0x") "" None
             (Some "unexpected_settle_error")).

Definition serverEnv
  (client : PaymentRequiredRequest.t -> Result PaymentRequiredResponse.t)
  (execute : PaymentPayload.t -> PaymentRequirements.t
             -> Result PaymentResult.t) : Env :=
  mkEnv client (fun _ => Ok tt) mockValidate execute
    (fun _ _ => Ok (PriceOk "1000" "0xUSDC" None))
    (fun path base => Ok (base ++ path))
    (fun _ => "0.001")
    "0xPayee" "base-sepolia".

Definition addNumbers : Handler := fun _ c => (Ok "Result: 30", c).
Definition boom : Handler := fun _ c => (Throw (ErrorObj None "boom"), c).

(** Handlers that assign to the context they are given: one drops the stored
    proof, one relabels the request. *)
Definition forgetful : Handler :=
  fun _ c => (Ok "Result: 30", mkCtx (requestId c) None (paymentRequirements c)).
Definition relabelling : Handler :=
  fun _ c => (Ok "Result: 30",
              mkCtx (Js.IdNum 99) (paymentProof c) (paymentRequirements c)).

Definition addOptions : MCPToolOptions.t :=
  MCPToolOptions.mk "add-numbers" (Some "Add two numbers") (Some ["a"; "b"])
    (Some (PaymentOptions.mk (Js.Finite (1 # 1000)) (Some "Add two numbers"))).

Definition paidTool (h : Handler) : HandlerRegistry.HandlerInfo :=
  HandlerRegistry.mkInfo "add-numbers" h HandlerRegistry.tool
    (HandlerRegistry.ToolOptions addOptions)
    (MCPToolOptions.payment addOptions) "TestCalculator".

Definition args0 : Args := mkArgs None None "{a:10,b:20}".
Definition ctx0 : Ctx := mkCtx (Js.IdNum 7) None None.

Definition requirements0 : PaymentRequirements.t :=
  PaymentRequirements.mk "exact" "base-sepolia" "1000"
    "https://example.com/tools/add-numbers" "Add two numbers"
    "application/json" "0xPayee" 60 "0xUSDC" None None.

(** A facilitator that signals a replayed proof by throwing. *)
Definition replayExecute (p : PaymentPayload.t) (r : PaymentRequirements.t)
  : Result PaymentResult.t :=
  Throw (PaymentError ERROR_CODES.REPLAY_DETECTED "Replay detected" NoDetails).

(** A peer without the extension, and a peer whose guardrails refuse. *)
Definition unawareClient (req : PaymentRequiredRequest.t)
  : Result PaymentRequiredResponse.t :=
  Throw (ErrorObj (Some (NumCode (-32601)))
           "MCP error -32601: Method not found").

Definition refusingClient (req : PaymentRequiredRequest.t)
  : Result PaymentRequiredResponse.t :=
  Throw (ErrorObj (Some (NumCode 40210))
           "Payment exceeds max per-call limit: $0.001 > $0.0005").

(** A transport that fails with an error of the runtime. *)
Definition resetClient (req : PaymentRequiredRequest.t)
  : Result PaymentRequiredResponse.t :=
  Throw (ErrorObj (Some (StrCode "ECONNRESET")) "read ECONNRESET").

(** A class with one tool priced at zero. *)
Definition freeOptions : MCPToolOptions.t :=
  MCPToolOptions.mk "free-tool" None None
    (Some (PaymentOptions.mk Js.zero (Some "Free service"))).

Definition freeClass : HandlerRegistry.HandlerClass :=
  HandlerRegistry.mkClass "FreeService"
    [HandlerRegistry.mkMethod "constructor" true addNumbers None None None;
     HandlerRegistry.mkMethod "free" true addNumbers (Some freeOptions) None None].

(** The same class before the decorator has run. *)
Definition plainClass : HandlerRegistry.HandlerClass :=
  HandlerRegistry.mkClass "FreeService"
    [HandlerRegistry.mkMethod "constructor" true addNumbers None None None;
     HandlerRegistry.mkMethod "free" true addNumbers None None None].

(** A class with a method that carries two annotations, and a prompt priced
    below zero. *)
Definition bothOptions : MCPToolOptions.t :=
  MCPToolOptions.mk "both" None None None.

Definition negativePrompt : MCPPromptOptions.t :=
  MCPPromptOptions.mk "ask" None
    (Some (PaymentOptions.mk (Js.Finite (-1 # 1)) None)).

Definition mixedClass : HandlerRegistry.HandlerClass :=
  HandlerRegistry.mkClass "Mixed"
    [HandlerRegistry.mkMethod "both" true addNumbers (Some bothOptions)
       (Some negativePrompt) None;
     HandlerRegistry.mkMethod "ask" true addNumbers None (Some negativePrompt)
       None].

(** Client side. *)
Definition clientEnv : X402MCPClient.Env :=
  X402MCPClient.mkEnv (Ok "0xAccount")
    (fun account version params =>
       Ok (PaymentPayload.mk version "exact"
             (PaymentRequiredParams.network params) (Some "0xsig")
             "authorization"))
    (fun _ _ => X402MCPClient.PriceAsset 6)
    (fun atomic decimals =>
       if String.eqb atomic "1000" then Ok (Js.Finite (1 # 1000))
       else if String.eqb atomic "10000" then Ok (Js.Finite (1 # 100))
       else Throw (ErrorObj None "Cannot convert to a BigInt"))
    (fun _ => "n").

Definition challenge (atomic : string) : PaymentRequiredRequest.t :=
  buildPaymentRequest (Js.IdNum 7)
    (PaymentRequirements.mk "exact" "base-sepolia" atomic
       "https://example.com/tools/add-numbers" "Add two numbers"
       "application/json" "0xPayee" 60 "0xUSDC" None None).

Definition params0 (atomic : string) : PaymentRequiredParams.t :=
  PaymentRequiredParams.mk "exact" "base-sepolia" atomic
    "https://example.com/tools/add-numbers" "Add two numbers"
    "application/json" "0xPayee" 60 "0xUSDC" None None 1 (Some (Js.IdNum 7)).

Definition cap (q : Q) : GuardrailsService.t :=
  GuardrailsService.mk (Some (Js.Finite q)) None.

Definition emptyLedger : PaymentAuditStorage.t :=
  InMemoryStorage.create None None 1000.

Definition record0 : PaymentAuditStorage.PaymentAuditRecord :=
  PaymentAuditStorage.mkRecord (Some (Js.IdNum 7)) "https://example.com/mcp"
    "tools/call" (Some "{name:add-numbers}") None None None None
    PaymentAuditStorage.RequestPending PaymentAuditStorage.PaymentPending 0
    None None None None None.

(** The ledger after request 7 was sent at time 100. *)
Definition ledger1 : PaymentAuditStorage.t :=
  snd (PaymentAuditStorage.storePendingRequest 100 record0 emptyLedger).

End Scenario.

(* ================================================================= *)
(** ** Client: the send interceptor installed by [connect] *)

Module X402MCPClientConnect.

Import X402MCPClient.

(** An outgoing JSON-RPC message: requests carry [id] and [method],
    notifications only [method], responses only [id]. *)
Record Message : Type := mkMessage {
  id : option Js.RequestId;
  method : option string;
  params : option string
}.

Section Connect.
(** [transport.send] before interception, and [transport.url]. *)
Variable originalSend : Message -> Result unit.
Variable serverUrl : string.
(** The clock when the message is handed over, and when the underlying send
    has settled. *)
Variable sentAt : Z.
Variable settledAt : Z.

Local Open Scope eff_scope.

(** [trackRequest(requestId, serverId, method, params)] *)
Definition trackRequest (requestId : Js.RequestId) (serverId method : string)
  (params : option string) : Eff.M State unit :=
  a <- Eff.gets auditStorage ;;
  match a with
  | Some a0 =>
      let '(r, a') :=
        PaymentAuditStorage.storePendingRequest sentAt
          (PaymentAuditStorage.mkRecord (Some requestId) serverId method params
             None None None None PaymentAuditStorage.RequestPending
             PaymentAuditStorage.PaymentPending sentAt None None None None
             None) a0 in
      set_auditStorage a' ;;
      Eff.lift r
  | None => Eff.ret tt
  end.

(** [markRequestCompleted(requestId)] *)
Definition markRequestCompleted (requestId : Js.RequestId)
  : Eff.M State unit :=
  a <- Eff.gets auditStorage ;;
  match a with
  | Some a0 =>
      set_auditStorage
        (PaymentAuditStorage.markRequestCompleted settledAt requestId None a0)
  | None => Eff.ret tt
  end.

Definition markIfIdentified (message : Message) : Eff.M State unit :=
  match id message with
  | Some requestId =>
      if Js.RequestId_truthy requestId then markRequestCompleted requestId
      else Eff.ret tt
  | None => Eff.ret tt
  end.

(** The replacement of [transport.send]. *)
Definition interceptedSend (message : Message) : Eff.M State unit :=
  match id message, method message with
  | Some requestId, Some m =>
      if Js.RequestId_truthy requestId && Js.truthy m
      then trackRequest requestId serverUrl m (params message)
      else Eff.ret tt
  | _, _ => Eff.ret tt
  end ;;
  Eff.try_catch
    (result <- Eff.lift (originalSend message) ;;
     markIfIdentified message ;;
     Eff.ret result)
    (fun error =>
       markIfIdentified message ;;
       Eff.throw error).

(** [transport.send] after [connect]: intercepted only when the client has
    audit storage. *)
Definition send (message : Message) : Eff.M State unit :=
  a <- Eff.gets auditStorage ;;
  match a with
  | Some _ => interceptedSend message
  | None => Eff.lift (originalSend message)
  end.

End Connect.
End X402MCPClientConnect.

(* ================================================================= *)
(** ** Server: facilitator base class and the mock facilitator *)

Module BaseFacilitatorService.

Import Server.

Definition createValidResult (payer : option string) : ValidationResult :=
  mkValidation true None payer.

Definition createInvalidResult (reason : string) : ValidationResult :=
  mkValidation false (Some reason) None.

(** [error instanceof Error ? error.message : 'Unknown error'] *)
Definition reasonOf (e : JsError) : string :=
  match e with
  | PaymentError _ m _ => m
  | ErrorObj _ m => m
  | Thrown _ _ _ => "Unknown error"
  | Nullish _ => "Unknown error"
  end.

Section WithImplementation.
(** The two abstract methods of a concrete facilitator. *)
Variable performValidation :
  PaymentPayload.t -> PaymentRequirements.t -> Result ValidationResult.
Variable performExecution :
  PaymentPayload.t -> PaymentRequirements.t -> Result PaymentResult.t.

Definition validatePayment (payload : PaymentPayload.t)
  (paymentRequirements : PaymentRequirements.t) : Result ValidationResult :=
  match performValidation payload paymentRequirements with
  | Ok v => Ok v
  | Throw error => Ok (mkValidation false (Some (reasonOf error)) None)
  end.

Definition executePayment (payload : PaymentPayload.t)
  (paymentRequirements : PaymentRequirements.t) : Result PaymentResult.t :=
  performExecution payload paymentRequirements.

End WithImplementation.
End BaseFacilitatorService.

Module MockFacilitatorService.

Import Server.

Record t : Type := mk {
  shouldValidate : bool;
  shouldExecute : bool;
  mockTxHash : string
}.

Definition performValidation (f : t) (payload : PaymentPayload.t)
  (paymentRequirements : PaymentRequirements.t) : Result ValidationResult :=
  if shouldValidate f
  then Ok (BaseFacilitatorService.createValidResult
             (Some "0x1234567890123456789012345678901234567890"))
  else Ok (BaseFacilitatorService.createInvalidResult "Mock validation failed").

(** The settle response; a field that the source leaves out is [None], or
    [""] for the network. *)
Definition performExecution (f : t) (payload : PaymentPayload.t)
  (paymentRequirements : PaymentRequirements.t) : Result PaymentResult.t :=
  if shouldExecute f
  then Ok (PaymentResult.mk true (Some (mockTxHash f))
             (PaymentRequirements.network paymentRequirements)
             (Some "0x1234567890123456789012345678901234567890") None)
  else Ok (PaymentResult.mk false (Some "0x") "" None
             (Some "unexpected_settle_error")).

Definition validatePayment (f : t) :=
  BaseFacilitatorService.validatePayment (performValidation f).

Definition executePayment (f : t) :=
  BaseFacilitatorService.executePayment (performExecution f).

End MockFacilitatorService.

(* ================================================================= *)
(** ** Server: the tool decorator's getters and the registry statistics *)

Module Registry.

Import HandlerRegistry.

(** The method [instance[methodName]] of a class, if any. *)
Fixpoint findMethod (propertyKey : string) (ms : list Method)
  : option Method :=
  match ms with
  | [] => None
  | m :: rest =>
      if String.eqb (methodName m) propertyKey then Some m
      else findMethod propertyKey rest
  end.

(** [getMCPToolOptions(target, propertyKey)], for a property that holds a
    function or nothing. *)
Definition getMCPToolOptions (c : HandlerClass) (propertyKey : string)
  : option MCPToolOptions.t :=
  match findMethod propertyKey (prototype c) with
  | Some m => toolMetadata m
  | None => None
  end.

(** The tool decorator's [isPaymentRequired] and [getPaymentOptions]. *)
Definition getPaymentOptions (c : HandlerClass) (propertyKey : string)
  : option PaymentOptions.t :=
  match getMCPToolOptions c propertyKey with
  | Some o => MCPToolOptions.payment o
  | None => None
  end.

Definition isPaymentRequired (c : HandlerClass) (propertyKey : string)
  : bool :=
  match getPaymentOptions c propertyKey with Some _ => true | None => false end.

Definition getRegistryStats (g : GlobalRegistry) : nat * list string :=
  (length g, map fst g).

End Registry.

(* ================================================================= *)
(** ** Further observations *)

Module View.

(** The time to live that [set] stores: [ttl || this.defaultTtl]. *)
Definition effectiveTtl {V} (ttl_arg : option Z) (st : InMemoryStorage.t V)
  : Z :=
  match ttl_arg with
  | Some x => if x =? 0 then InMemoryStorage.defaultTtl st else x
  | None => InMemoryStorage.defaultTtl st
  end.

Definition HandlerType_eqb (a b : HandlerRegistry.HandlerType) : bool :=
  match a, b with
  | HandlerRegistry.tool, HandlerRegistry.tool
  | HandlerRegistry.prompt, HandlerRegistry.prompt
  | HandlerRegistry.resource, HandlerRegistry.resource
  | HandlerRegistry.resourceTemplate, HandlerRegistry.resourceTemplate => true
  | _, _ => false
  end.

(** All descriptors of a list of classes, class by class and method by
    method. *)
Definition allHandlers (classes : list HandlerRegistry.HandlerClass)
  : list HandlerRegistry.HandlerInfo :=
  flat_map HandlerRegistry.extractHandlersFromInstance classes.

(** The structural checks of [validatePaymentProof] on a response. *)
Definition wellFormedProof (response : PaymentRequiredResponse.t)
  (requirements : PaymentRequirements.t) : option PaymentPayload.t :=
  match PaymentRequiredResponse.payment response with
  | Some payment =>
      if Js.truthy_opt (PaymentPayload.signature payment)
         && (PaymentPayload.x402Version payment =? 1)
         && String.eqb (PaymentPayload.scheme payment) "exact"
         && String.eqb (PaymentPayload.network payment)
              (PaymentRequirements.network requirements)
      then Some payment
      else None
  | None => None
  end.

(** The failure of the first structural check that a response misses. *)
Definition proofDefect (response : PaymentRequiredResponse.t)
  (requirements : PaymentRequirements.t) : option JsError :=
  match PaymentRequiredResponse.payment response with
  | None =>
      Some (PaymentError ERROR_CODES.PAYMENT_INVALID
              "Invalid payment proof: missing signature" NoDetails)
  | Some payment =>
      if negb (Js.truthy_opt (PaymentPayload.signature payment)) then
        Some (PaymentError ERROR_CODES.PAYMENT_INVALID
                "Invalid payment proof: missing signature" NoDetails)
      else if negb (PaymentPayload.x402Version payment =? 1) then
        Some (PaymentError ERROR_CODES.INVALID_REQUEST
                "Invalid x402 version" NoDetails)
      else if negb (String.eqb (PaymentPayload.scheme payment) "exact") then
        Some (PaymentError ERROR_CODES.PAYMENT_INVALID
                "Invalid payment scheme" NoDetails)
      else if negb (String.eqb (PaymentPayload.network payment)
                      (PaymentRequirements.network requirements)) then
        Some (PaymentError ERROR_CODES.PAYMENT_INVALID
                "Invalid payment proof: network mismatch" NoDetails)
      else None
  end.

(** The events of a trace before the first handler call. *)
Fixpoint beforeHandler (tr : list Server.Event) : list Server.Event :=
  match tr with
  | [] => []
  | Server.EvHandlerCalled _ _ :: _ => []
  | ev :: rest => ev :: beforeHandler rest
  end.

(** The number of [executePayment] calls in a trace. *)
Definition executions (tr : list Server.Event) : nat :=
  length (filter (fun ev => match ev with
                            | Server.EvExecutePayment _ _ => true
                            | _ => false
                            end) tr).

(** The ledger of a client state, as a store map. *)
Definition ledgerEntry (s : X402MCPClient.State) (key : string)
  : option PaymentAuditStorage.PaymentAuditRecord :=
  match X402MCPClient.auditStorage s with
  | Some a =>
      match InMemoryStorage.map_get key (InMemoryStorage.storage a) with
      | Some e => Some (InMemoryStorage.value e)
      | None => None
      end
  | None => None
  end.

End View.


(* ================================================================= *)
(** * Properties of the store and of the audit ledger *)

Section StorageProperties.

Import InMemoryStorage.

Context {V : Type}.

Lemma map_get_set_same key (e : StorageEntry V) m :
  map_get key (map_set key e m) = Some e.
Proof.
  induction m as [|[k e0] m IH]; simpl.
  - rewrite String.eqb_refl. reflexivity.
  - destruct (String.eqb k key) eqn:Hk; simpl; rewrite Hk; auto.
Qed.

Lemma map_get_set_other key key' (e : StorageEntry V) m :
  key <> key' ->
  map_get key' (map_set key e m) = map_get key' m.
Proof.
  intros Hneq. induction m as [|[k e0] m IH]; simpl.
  - apply String.eqb_neq in Hneq. rewrite Hneq. reflexivity.
  - destruct (String.eqb k key) eqn:Hk; simpl.
    + apply String.eqb_eq in Hk. subst k.
      apply String.eqb_neq in Hneq. rewrite Hneq. reflexivity.
    + rewrite IH. reflexivity.
Qed.

Lemma map_get_cleanup now key (e : StorageEntry V) st :
  map_get key (storage st) = Some e ->
  expired now e = false ->
  map_get key (storage (cleanupExpired now st)) = Some e.
Proof.
  unfold cleanupExpired. simpl. intros Hget Hexp.
  induction (storage st) as [|[k e0] m IH]; simpl in *; [discriminate|].
  destruct (String.eqb k key) eqn:Hk.
  - injection Hget as ->. rewrite Hexp. simpl. rewrite Hk. reflexivity.
  - destruct (expired now e0); simpl; [|rewrite Hk]; auto.
Qed.

(** A successful read leaves the store as it is and returns the value of a
    live entry. *)
Lemma get_some now key (v : V) st :
  fst (get now key st) = Some v ->
  get now key st = (Some v, st)
  /\ exists e, map_get key (storage st) = Some e
               /\ value e = v /\ expired now e = false.
Proof.
  unfold get. destruct (map_get key (storage st)) as [e|]; [|discriminate].
  destruct (expired now e) eqn:Hexp; simpl; [discriminate|].
  intros [= <-]. split; [reflexivity|]. exists e. auto.
Qed.

Lemma get_live now key (e : StorageEntry V) st :
  map_get key (storage st) = Some e ->
  expired now e = false ->
  get now key st = (Some (value e), st).
Proof. unfold get. intros -> ->. reflexivity. Qed.

(** Reading back, at the time of the write, what [set] has just stored with
    a positive time to live. *)
Lemma get_after_set now key (v : V) ttl_arg st :
  0 < ttl_arg ->
  fst (get now key (set now key v (Some ttl_arg) st)) = Some v.
Proof.
  intros Hpos. unfold set. cbv zeta.
  match goal with
  | |- context [with_storage ?s (map_set key ?e (storage ?s))] =>
      rewrite (get_live now key e (with_storage s (map_set key e (storage s))))
  end.
  - reflexivity.
  - simpl. apply map_get_set_same.
  - unfold expired. simpl. rewrite Z.sub_diag.
    assert (H0 : (ttl_arg =? 0) = false) by (apply Z.eqb_neq; lia).
    rewrite H0, H0. simpl. rewrite Z.gtb_ltb. apply Z.ltb_ge. lia.
Qed.

(** A write below capacity leaves every other live entry readable. *)
Lemma get_other_after_set now key key' (v : V) (e : StorageEntry V) ttl_arg st :
  key <> key' ->
  map_get key' (storage st) = Some e ->
  expired now e = false ->
  size (cleanupExpired now st) < maxSize st ->
  fst (get now key' (set now key v ttl_arg st)) = Some (value e).
Proof.
  intros Hneq Hget Hexp Hsize. unfold set. cbv zeta.
  assert (Hno : (size (cleanupExpired now st)
                 >=? maxSize (cleanupExpired now st)) = false).
  { simpl. rewrite Z.geb_leb. apply Z.leb_gt. exact Hsize. }
  rewrite Hno.
  match goal with
  | |- context [with_storage ?s ?m] =>
      rewrite (get_live now key' e (with_storage s m))
  end.
  - reflexivity.
  - simpl. rewrite map_get_set_other by assumption.
    apply (map_get_cleanup now key' e st Hget Hexp).
  - exact Hexp.
Qed.

End StorageProperties.

Section LedgerProperties.

Import PaymentAuditStorage.

Lemma length_append_string (a b : string) :
  String.length (a ++ b) = (String.length a + String.length b)%nat.
Proof. induction a as [|c a IH]; simpl; [reflexivity|]. rewrite IH. reflexivity. Qed.

(** The key of the completed record differs from the pending key. *)
Lemma plain_key_not_pending id : Js.toString id <> buildPendingKey id.
Proof.
  intros Heq. apply (f_equal String.length) in Heq.
  unfold buildPendingKey in Heq. rewrite length_append_string in Heq.
  simpl in Heq. lia.
Qed.

(** C3, as stated, fails: after [markRequestCompleted], and after a terminal
    [updatePaymentStatus], the entry under [pending:7] is still in the store,
    with both statuses still pending. *)
Lemma pending_entry_survives_terminal_state :
  (fst (getPendingRequest 150 (Js.IdNum 7)
          (markRequestCompleted 150 (Js.IdNum 7) None Scenario.ledger1))
   = Some (mkRecord (Some (Js.IdNum 7)) "https://example.com/mcp"
             "tools/call" (Some "{name:add-numbers}") None None None None
             RequestPending PaymentPending 100 None None None None None)
   /\ map (fun kv => (fst kv, requestStatus (InMemoryStorage.value (snd kv))))
        (InMemoryStorage.storage
           (markRequestCompleted 150 (Js.IdNum 7) None Scenario.ledger1))
      = [("pending:7", RequestPending); ("7", RequestCompleted)])
  /\ (fst (getPendingRequest 150 (Js.IdNum 7)
             (updatePaymentStatus 150 (Js.IdNum 7) PaymentFailed
                (Some (mkDetails None None (Some "cap exceeded") None))
                Scenario.ledger1))
      = Some (mkRecord (Some (Js.IdNum 7)) "https://example.com/mcp"
                "tools/call" (Some "{name:add-numbers}") None None None None
                RequestPending PaymentPending 100 None None None None None)
      /\ map (fun kv => (fst kv, paymentStatus (InMemoryStorage.value (snd kv))))
           (InMemoryStorage.storage
              (updatePaymentStatus 150 (Js.IdNum 7) PaymentFailed
                 (Some (mkDetails None None (Some "cap exceeded") None))
                 Scenario.ledger1))
         = [("pending:7", PaymentPending); ("7", PaymentFailed)]).
Proof. repeat split; reflexivity. Qed.

(** C3, amended: when the pending record of a request id is marked completed,
    or its payment status is set to completed or failed, the updated record
    is written under key [<id>]; the entry under [pending:<id>] is not
    deleted: as long as the store does not evict it for capacity it stays
    readable there, unchanged. *)
Theorem terminal_update_rekeys_and_keeps_pending
  now id completedAt status details st record :
  fst (getPendingRequest now id st) = Some record ->
  status <> PaymentPending ->
  InMemoryStorage.size (InMemoryStorage.cleanupExpired now st)
  < InMemoryStorage.maxSize st ->
  (fst (read now (Js.toString id) (markRequestCompleted now id completedAt st))
   = Some (set_request record RequestCompleted
             (Some (match completedAt with Some d => d | None => now end)))
   /\ fst (getPendingRequest now id (markRequestCompleted now id completedAt st))
      = Some record)
  /\ (fst (read now (Js.toString id) (updatePaymentStatus now id status details st))
      = Some (applyDetails status now details record)
      /\ fst (getPendingRequest now id
                (updatePaymentStatus now id status details st))
         = Some record).
Proof.
  intros Hget Hstatus Hsize.
  unfold getPendingRequest, read in *.
  destruct (get_some now (buildPendingKey id) record st Hget)
    as (Hread & e & He & Hval & Hexp).
  assert (Hterm : negb (PaymentStatus_eqb status PaymentPending) = true).
  { destruct status; try reflexivity. congruence. }
  unfold markRequestCompleted, updatePaymentStatus, read, write.
  rewrite Hread, Hterm. repeat split.
  - apply get_after_set. reflexivity.
  - rewrite <- Hval.
    apply (get_other_after_set now (Js.toString id) (buildPendingKey id));
      auto using plain_key_not_pending.
  - apply get_after_set. reflexivity.
  - rewrite <- Hval.
    apply (get_other_after_set now (Js.toString id) (buildPendingKey id));
      auto using plain_key_not_pending.
Qed.

Lemma terminal_update_rekeys_and_keeps_pending_witness :
  fst (read 150 "7"
         (updatePaymentStatus 150 (Js.IdNum 7) PaymentCompleted
            (Some (mkDetails (Some "0xabc") (Some "0x1234") None (Some 150)))
            Scenario.ledger1))
  = Some (mkRecord (Some (Js.IdNum 7)) "https://example.com/mcp"
            "tools/call" (Some "{name:add-numbers}") None None None None
            RequestPending PaymentCompleted 100 None (Some 150) None
            (Some "0xabc") (Some "0x1234"))
  /\ fst (getPendingRequest 150 (Js.IdNum 7)
            (updatePaymentStatus 150 (Js.IdNum 7) PaymentCompleted
               (Some (mkDetails (Some "0xabc") (Some "0x1234") None (Some 150)))
               Scenario.ledger1))
     = Some (mkRecord (Some (Js.IdNum 7)) "https://example.com/mcp"
               "tools/call" (Some "{name:add-numbers}") None None None None
               RequestPending PaymentPending 100 None None None None None).
Proof.
  apply (terminal_update_rekeys_and_keeps_pending 150 (Js.IdNum 7) None
           PaymentCompleted
           (Some (mkDetails (Some "0xabc") (Some "0x1234") None (Some 150)))
           Scenario.ledger1
           (mkRecord (Some (Js.IdNum 7)) "https://example.com/mcp"
              "tools/call" (Some "{name:add-numbers}") None None None None
              RequestPending PaymentPending 100 None None None None None)).
  - reflexivity.
  - discriminate.
  - vm_compute. reflexivity.
Defined.

End LedgerProperties.

(* ================================================================= *)
(** * Further properties of the store and the ledger *)

(* ================================================================= *)
(** * Further properties of the store *)

Section StoreLifetime.

Import InMemoryStorage View.

Context {V : Type}.

Lemma map_get_delete_same key (m : list (string * StorageEntry V)) :
  map_get key (map_delete key m) = None.
Proof.
  unfold map_delete. induction m as [|[k e] m IH]; simpl; [reflexivity|].
  destruct (String.eqb k key) eqn:Hk; simpl; [exact IH|].
  rewrite Hk. exact IH.
Qed.

Lemma stored_entry now key (v : V) ttl_arg st :
  map_get key (storage (set now key v ttl_arg st))
  = Some (mkEntry v now (effectiveTtl ttl_arg st)).
Proof.
  unfold set. cbv zeta. simpl. rewrite map_get_set_same. reflexivity.
Qed.

(** A value written with [set] is live until its time to live runs out. *)
Lemma get_set_live now later key (v : V) ttl_arg st :
  effectiveTtl ttl_arg st = 0 \/ later - now <= effectiveTtl ttl_arg st ->
  get later key (set now key v ttl_arg st)
  = (Some v, set now key v ttl_arg st).
Proof.
  intros Hlive.
  apply (get_live later key (mkEntry v now (effectiveTtl ttl_arg st))).
  - apply stored_entry.
  - unfold expired. simpl. destruct Hlive as [H0|Hle].
    + rewrite H0. reflexivity.
    + apply andb_false_iff. right.
      rewrite Z.gtb_ltb. apply Z.ltb_ge. exact Hle.
Qed.

(** After its time to live, the entry is dropped by [get]. *)
Lemma get_set_expired now later key (v : V) ttl_arg st :
  effectiveTtl ttl_arg st <> 0 ->
  effectiveTtl ttl_arg st < later - now ->
  fst (get later key (set now key v ttl_arg st)) = None
  /\ map_get key (storage (snd (get later key (set now key v ttl_arg st))))
     = None.
Proof.
  intros Hnz Hlate. unfold get. rewrite stored_entry.
  assert (Hexp : expired later (mkEntry v now (effectiveTtl ttl_arg st)) = true).
  { unfold expired. simpl. apply andb_true_iff. split.
    - apply negb_true_iff. apply Z.eqb_neq. exact Hnz.
    - rewrite Z.gtb_ltb. apply Z.ltb_lt. exact Hlate. }
  rewrite Hexp. simpl. split; [reflexivity|]. apply map_get_delete_same.
Qed.


(** X1: a value written with [set] is returned by [get], and reported by
    [has], for as long as its time to live has not run out (for ever when
    that time is 0), even when the write had to evict other entries; reading
    it does not change the store. *)
Theorem set_then_get_within_ttl now later key (v : V) ttl_arg st :
  effectiveTtl ttl_arg st = 0 \/ later - now <= effectiveTtl ttl_arg st ->
  get later key (set now key v ttl_arg st)
  = (Some v, set now key v ttl_arg st)
  /\ has later key (set now key v ttl_arg st)
     = (true, set now key v ttl_arg st).
Proof.
  intros Hlive. unfold has.
  rewrite (get_set_live now later key v ttl_arg st Hlive).
  split; reflexivity.
Qed.

(** X2: once more than the time to live has passed since the write, [get]
    returns null, [has] returns false, and the read removes the entry from
    the map (lazy expiration). *)
Theorem get_after_ttl_expires now later key (v : V) ttl_arg st :
  effectiveTtl ttl_arg st <> 0 ->
  effectiveTtl ttl_arg st < later - now ->
  fst (get later key (set now key v ttl_arg st)) = None
  /\ fst (has later key (set now key v ttl_arg st)) = false
  /\ map_get key (storage (snd (get later key (set now key v ttl_arg st))))
     = None.
Proof.
  intros Hnz Hlate.
  destruct (get_set_expired now later key v ttl_arg st Hnz Hlate)
    as [Hget Hmap].
  split; [exact Hget|]. split; [|exact Hmap].
  unfold has.
  destruct (get later key (set now key v ttl_arg st)) as [[x|] st'];
    [discriminate|reflexivity].
Qed.










Lemma map_get_delete_other key key' (m : list (string * StorageEntry V)) :
  key <> key' ->
  map_get key' (map_delete key m) = map_get key' m.
Proof.
  intros Hneq. unfold map_delete.
  induction m as [|[k e] m IH]; simpl; [reflexivity|].
  destruct (String.eqb k key) eqn:Hk; simpl.
  - apply String.eqb_eq in Hk. subst k.
    apply String.eqb_neq in Hneq. rewrite Hneq. exact IH.
  - destruct (String.eqb k key'); [reflexivity|exact IH].
Qed.

(** X4: [delete] removes its key, so that [get] and [has] answer null and
    false at any later time, and leaves every other live entry readable. *)
Theorem delete_removes_only_its_key now later key key' (e : StorageEntry V) st :
  key <> key' ->
  map_get key' (storage st) = Some e ->
  expired now e = false ->
  fst (get later key (snd (delete now key st))) = None
  /\ fst (has later key (snd (delete now key st))) = false
  /\ fst (get now key' (snd (delete now key st))) = Some (value e).
Proof.
  intros Hneq Hget Hexp.
  assert (Hdel : get later key (snd (delete now key st))
                 = (None, snd (delete now key st))).
  { unfold get, delete. simpl. rewrite map_get_delete_same. reflexivity. }
  unfold has. rewrite Hdel. split; [reflexivity|]. split; [reflexivity|].
  rewrite (get_live now key' e); [reflexivity| |exact Hexp].
  unfold delete. simpl. rewrite map_get_delete_other by exact Hneq.
  apply (map_get_cleanup now key' e st Hget Hexp).
Qed.

End StoreLifetime.

Lemma set_then_get_within_ttl_witness :
  InMemoryStorage.get 86500 "k"
    (InMemoryStorage.set 100 "k" 7%nat (Some 86400)
       (InMemoryStorage.create None None 1000))
  = (Some 7%nat,
     InMemoryStorage.set 100 "k" 7%nat (Some 86400)
       (InMemoryStorage.create None None 1000)).
Proof.
  refine (proj1 (set_then_get_within_ttl 100 86500 "k" 7%nat (Some 86400)
                   (InMemoryStorage.create None None 1000) _)).
  right. vm_compute. discriminate.
Defined.


Lemma get_after_ttl_expires_witness :
  fst (InMemoryStorage.get 300101 "k"
         (InMemoryStorage.set 100 "k" 7%nat None
            (InMemoryStorage.create None None 1000)))
  = None.
Proof.
  refine (proj1 (get_after_ttl_expires 100 300101 "k" 7%nat None
                   (InMemoryStorage.create None None 1000) _ _)).
  - vm_compute. discriminate.
  - vm_compute. reflexivity.
Defined.



Lemma delete_removes_only_its_key_witness :
  fst (InMemoryStorage.get 9 "a"
         (snd (InMemoryStorage.delete 5 "a"
                 (InMemoryStorage.set 4 "b" 2%nat None
                    (InMemoryStorage.set 3 "a" 1%nat None
                       (InMemoryStorage.create None None 1000)))))) = None
  /\ fst (InMemoryStorage.has 9 "a"
            (snd (InMemoryStorage.delete 5 "a"
                    (InMemoryStorage.set 4 "b" 2%nat None
                       (InMemoryStorage.set 3 "a" 1%nat None
                          (InMemoryStorage.create None None 1000)))))) = false
  /\ fst (InMemoryStorage.get 5 "b"
            (snd (InMemoryStorage.delete 5 "a"
                    (InMemoryStorage.set 4 "b" 2%nat None
                       (InMemoryStorage.set 3 "a" 1%nat None
                          (InMemoryStorage.create None None 1000))))))
     = Some 2%nat.
Proof.
  apply (delete_removes_only_its_key 5 9 "a" "b"
           (InMemoryStorage.mkEntry 2%nat 4 300000)
           (InMemoryStorage.set 4 "b" 2%nat None
              (InMemoryStorage.set 3 "a" 1%nat None
                 (InMemoryStorage.create None None 1000)))).
  - discriminate.
  - reflexivity.
  - reflexivity.
Defined.

(* ================================================================= *)
(** * Further properties of the audit ledger *)

Section LedgerLifecycle.

Import PaymentAuditStorage InMemoryStorage.

Lemma map_get_filter_none {V} key f (m : list (string * StorageEntry V)) :
  map_get key m = None -> map_get key (filter f m) = None.
Proof.
  induction m as [|[k e] m IH]; simpl; [reflexivity|].
  destruct (String.eqb k key) eqn:Hk; [discriminate|].
  intros H. destruct (f (k, e)); simpl; [rewrite Hk|]; auto.
Qed.

Lemma map_get_delete_all_none {V} key victims
  (m : list (string * StorageEntry V)) :
  map_get key m = None ->
  map_get key (fold_left (fun m0 k => map_delete k m0) victims m) = None.
Proof.
  revert m. induction victims as [|k ks IH]; intros m H; simpl; [exact H|].
  apply IH. unfold map_delete. apply map_get_filter_none. exact H.
Qed.

(** [set] creates no entry under another key. *)
Lemma set_creates_only_its_key {V} now key key' (v : V) ttl_arg st :
  key <> key' ->
  map_get key' (storage st) = None ->
  map_get key' (storage (set now key v ttl_arg st)) = None.
Proof.
  intros Hneq Hnone. unfold set. cbv zeta. simpl.
  rewrite map_get_set_other by exact Hneq.
  assert (Hclean : map_get key' (storage (cleanupExpired now st)) = None)
    by (apply map_get_filter_none; exact Hnone).
  destruct (size (cleanupExpired now st) >=? maxSize st); [|exact Hclean].
  unfold evictOldest. simpl. apply map_get_delete_all_none. exact Hclean.
Qed.

(** A live entry under another key survives a write below capacity. *)
Lemma entry_survives_set {V} now key key' (v : V) (e : StorageEntry V)
  ttl_arg st :
  key <> key' ->
  map_get key' (storage st) = Some e ->
  expired now e = false ->
  size (cleanupExpired now st) < maxSize st ->
  map_get key' (storage (set now key v ttl_arg st)) = Some e.
Proof.
  intros Hneq Hget Hexp Hsize. unfold set. cbv zeta.
  assert (Hno : (size (cleanupExpired now st)
                 >=? maxSize (cleanupExpired now st)) = false).
  { simpl. rewrite Z.geb_leb. apply Z.leb_gt. exact Hsize. }
  rewrite Hno. simpl. rewrite map_get_set_other by exact Hneq.
  apply (map_get_cleanup now key' e st Hget Hexp).
Qed.

Lemma pending_key_not_plain id : buildPendingKey id <> Js.toString id.
Proof. intros H. symmetry in H. exact (plain_key_not_pending id H). Qed.

(** The record that [storePendingRequest] writes. *)
Lemma storePendingRequest_valid now record id st :
  requestId record = Some id ->
  Js.RequestId_truthy id = true ->
  storePendingRequest now record st
  = (Ok tt,
     write now (buildPendingKey id)
       (mkRecord (requestId record) (serverId record) (method record)
          (params record) (paymentAmount record) (paymentNetwork record)
          (paymentAsset record) (paymentPayTo record) RequestPending
          PaymentPending now (requestCompletedAt record)
          (paymentCompletedAt record) (errorReason record)
          (transactionHash record) (payerAddress record)) st).
Proof.
  intros Hid Htruthy. unfold storePendingRequest. rewrite Hid, Htruthy.
  reflexivity.
Qed.

(** X5: a request stored with [storePendingRequest] is returned by
    [getPendingRequest] under the same id for the next 86400 milliseconds,
    with both statuses pending, [createdAt] set to the time of the call and
    the caller's other fields unchanged. *)
Theorem storePendingRequest_then_getPendingRequest now later record id st :
  requestId record = Some id ->
  Js.RequestId_truthy id = true ->
  later - now <= 86400 ->
  fst (storePendingRequest now record st) = Ok tt
  /\ fst (getPendingRequest later id (snd (storePendingRequest now record st)))
     = Some (mkRecord (Some id) (serverId record) (method record)
               (params record) (paymentAmount record) (paymentNetwork record)
               (paymentAsset record) (paymentPayTo record) RequestPending
               PaymentPending now (requestCompletedAt record)
               (paymentCompletedAt record) (errorReason record)
               (transactionHash record) (payerAddress record)).
Proof.
  intros Hid Htruthy Hlive.
  rewrite (storePendingRequest_valid now record id st Hid Htruthy).
  split; [reflexivity|].
  unfold getPendingRequest, read, write. simpl snd.
  rewrite get_set_live; [rewrite Hid; reflexivity|].
  right. exact Hlive.
Qed.



(** X6: the ledger passes its TTL of 86400 to a store that counts
    milliseconds: more than 86400 ms after it was stored, a pending request
    is no longer found. *)
Theorem pending_request_expires_after_86400_ms now later record id st :
  requestId record = Some id ->
  Js.RequestId_truthy id = true ->
  86400 < later - now ->
  fst (getPendingRequest later id (snd (storePendingRequest now record st)))
  = None.
Proof.
  intros Hid Htruthy Hlate.
  rewrite (storePendingRequest_valid now record id st Hid Htruthy).
  unfold getPendingRequest, read, write. simpl snd.
  apply get_set_expired; [discriminate|exact Hlate].
Qed.

(** X7: for an id without a live pending record, [markRequestCompleted] and
    [updatePaymentStatus] write nothing: the ledger is what the failed lookup
    left, and no entry appears under [<id>]. *)
Theorem updates_of_unknown_request_write_nothing
  now id completedAt status details st :
  fst (getPendingRequest now id st) = None ->
  markRequestCompleted now id completedAt st
  = snd (getPendingRequest now id st)
  /\ updatePaymentStatus now id status details st
     = snd (getPendingRequest now id st)
  /\ map_get (Js.toString id) (storage (snd (getPendingRequest now id st)))
     = map_get (Js.toString id) (storage st).
Proof.
  unfold markRequestCompleted, updatePaymentStatus, getPendingRequest, read.
  intros Hnone.
  destruct (get now (buildPendingKey id) st) as [[r|] st1] eqn:Hget;
    [discriminate|].
  simpl. split; [reflexivity|]. split; [reflexivity|].
  unfold get in Hget.
  destruct (map_get (buildPendingKey id) (storage st)) as [e|].
  - destruct (expired now e); [|discriminate].
    injection Hget as <-. simpl.
    apply map_get_delete_other. apply pending_key_not_plain.
  - injection Hget as <-. reflexivity.
Qed.

Lemma applyDetails_requestStatus status now details record :
  requestStatus (applyDetails status now details record)
  = requestStatus record
  /\ requestCompletedAt (applyDetails status now details record)
     = requestCompletedAt record
  /\ paymentStatus (applyDetails status now details record) = status.
Proof.
  unfold applyDetails.
  destruct details as [[tx pa er ca]|]; simpl.
  - destruct tx as [h|]; [destruct (Js.truthy h)|];
      (destruct pa as [a|]; [destruct (Js.truthy a)|]);
      (destruct er as [x|]; [destruct (Js.truthy x)|]); repeat split.
  - repeat split.
Qed.

(** X8: [updatePaymentStatus] with status pending rewrites the record under
    [pending:<id>] with the payment fields updated, and creates no entry
    under [<id>]. *)
Theorem pending_payment_status_stays_in_pending_namespace
  now id details st record :
  fst (getPendingRequest now id st) = Some record ->
  map_get (Js.toString id) (storage st) = None ->
  fst (getPendingRequest now id
         (updatePaymentStatus now id PaymentPending details st))
  = Some (applyDetails PaymentPending now details record)
  /\ map_get (Js.toString id)
       (storage (updatePaymentStatus now id PaymentPending details st))
     = None.
Proof.
  intros Hget Hnone. unfold getPendingRequest, read in *.
  destruct (get_some now (buildPendingKey id) record st Hget)
    as (Hread & _).
  unfold updatePaymentStatus, read, write. rewrite Hread. simpl negb.
  cbv iota. split.
  - rewrite get_set_live; [reflexivity|].
    right. rewrite Z.sub_diag. discriminate.
  - apply set_creates_only_its_key;
      [apply pending_key_not_plain|exact Hnone].
Qed.

(** X9: [removePendingRequest] deletes the entry under [<id>], not the one
    under [pending:<id>]: a live pending record is still returned by
    [getPendingRequest] afterwards. *)
Theorem removePendingRequest_keeps_pending_entry now id st record :
  fst (getPendingRequest now id st) = Some record ->
  fst (read now (Js.toString id) (removePendingRequest now id st)) = None
  /\ fst (getPendingRequest now id (removePendingRequest now id st))
     = Some record.
Proof.
  intros Hget. unfold getPendingRequest, read, removePendingRequest in *.
  destruct (get_some now (buildPendingKey id) record st Hget)
    as (_ & e & He & Hval & Hexp).
  destruct (delete_removes_only_its_key now now (Js.toString id)
              (buildPendingKey id) e st (plain_key_not_pending id) He Hexp)
    as (H1 & _ & H3).
  rewrite <- Hval. split; assumption.
Qed.

(** X10: a terminal [updatePaymentStatus] that follows [markRequestCompleted]
    rebuilds the record under [<id>] from the pending copy: the record then
    has the new payment status, but its [requestStatus] and
    [requestCompletedAt] are those of the pending copy again, not the
    completion that [markRequestCompleted] had written. *)
Theorem payment_update_overwrites_request_completion
  t1 t2 id completedAt status details st e :
  map_get (buildPendingKey id) (storage st) = Some e ->
  expired t1 e = false ->
  expired t2 e = false ->
  size (cleanupExpired t1 st) < maxSize st ->
  status <> PaymentPending ->
  fst (read t1 (Js.toString id) (markRequestCompleted t1 id completedAt st))
  = Some (set_request (value e) RequestCompleted
            (Some (match completedAt with Some d => d | None => t1 end)))
  /\ fst (read t2 (Js.toString id)
            (updatePaymentStatus t2 id status details
               (markRequestCompleted t1 id completedAt st)))
     = Some (applyDetails status t2 details (value e))
  /\ requestStatus (applyDetails status t2 details (value e))
     = requestStatus (value e)
  /\ requestCompletedAt (applyDetails status t2 details (value e))
     = requestCompletedAt (value e).
Proof.
  intros He Hexp1 Hexp2 Hsize Hstatus.
  assert (Hterm : negb (PaymentStatus_eqb status PaymentPending) = true).
  { destruct status; try reflexivity. congruence. }
  assert (Hmark : markRequestCompleted t1 id completedAt st
                  = write t1 (Js.toString id)
                      (set_request (value e) RequestCompleted
                         (Some (match completedAt with
                                | Some d => d
                                | None => t1
                                end))) st).
  { unfold markRequestCompleted, read.
    rewrite (get_live t1 (buildPendingKey id) e st He Hexp1). reflexivity. }
  split.
  { rewrite Hmark. unfold read, write.
    rewrite get_set_live; [reflexivity|].
    right. rewrite Z.sub_diag. discriminate. }
  split.
  { assert (Hlive : map_get (buildPendingKey id)
                      (storage (markRequestCompleted t1 id completedAt st))
                    = Some e).
    { rewrite Hmark. unfold write.
      apply entry_survives_set;
        auto using plain_key_not_pending. }
    unfold updatePaymentStatus, read, write.
    rewrite (get_live t2 (buildPendingKey id) e _ Hlive Hexp2).
    rewrite Hterm.
    rewrite get_set_live; [reflexivity|].
    right. rewrite Z.sub_diag. discriminate. }
  destruct (applyDetails_requestStatus status t2 details (value e))
    as (H1 & H2 & _).
  split; assumption.
Qed.

End LedgerLifecycle.

Lemma storePendingRequest_then_getPendingRequest_witness :
  fst (PaymentAuditStorage.storePendingRequest 100 Scenario.record0
         Scenario.emptyLedger) = Ok tt
  /\ fst (PaymentAuditStorage.getPendingRequest 200 (Js.IdNum 7)
            Scenario.ledger1)
     = Some (PaymentAuditStorage.mkRecord (Some (Js.IdNum 7))
               "https://example.com/mcp" "tools/call"
               (Some "{name:add-numbers}") None None None None
               PaymentAuditStorage.RequestPending
               PaymentAuditStorage.PaymentPending 100 None None None None
               None).
Proof.
  apply (storePendingRequest_then_getPendingRequest 100 200 Scenario.record0
           (Js.IdNum 7) Scenario.emptyLedger).
  - reflexivity.
  - reflexivity.
  - vm_compute. discriminate.
Defined.



Lemma pending_request_expires_after_86400_ms_witness :
  fst (PaymentAuditStorage.getPendingRequest 86501 (Js.IdNum 7)
         Scenario.ledger1) = None.
Proof.
  apply (pending_request_expires_after_86400_ms 100 86501 Scenario.record0
           (Js.IdNum 7) Scenario.emptyLedger).
  - reflexivity.
  - reflexivity.
  - vm_compute. reflexivity.
Defined.

Lemma updates_of_unknown_request_write_nothing_witness :
  PaymentAuditStorage.markRequestCompleted 150 (Js.IdNum 8) None
    Scenario.ledger1 = Scenario.ledger1
  /\ PaymentAuditStorage.updatePaymentStatus 150 (Js.IdNum 8)
       PaymentAuditStorage.PaymentCompleted None Scenario.ledger1
     = Scenario.ledger1.
Proof.
  destruct (updates_of_unknown_request_write_nothing 150 (Js.IdNum 8) None
              PaymentAuditStorage.PaymentCompleted None Scenario.ledger1)
    as (H1 & H2 & _).
  - reflexivity.
  - split; [exact H1|exact H2].
Defined.

Lemma pending_payment_status_stays_in_pending_namespace_witness :
  fst (PaymentAuditStorage.getPendingRequest 150 (Js.IdNum 7)
         (PaymentAuditStorage.updatePaymentStatus 150 (Js.IdNum 7)
            PaymentAuditStorage.PaymentPending
            (Some (PaymentAuditStorage.mkDetails None None None (Some 150)))
            Scenario.ledger1))
  = Some (PaymentAuditStorage.mkRecord (Some (Js.IdNum 7))
            "https://example.com/mcp" "tools/call"
            (Some "{name:add-numbers}") None None None None
            PaymentAuditStorage.RequestPending
            PaymentAuditStorage.PaymentPending 100 None (Some 150) None None
            None)
  /\ InMemoryStorage.map_get "7"
       (InMemoryStorage.storage
          (PaymentAuditStorage.updatePaymentStatus 150 (Js.IdNum 7)
             PaymentAuditStorage.PaymentPending
             (Some (PaymentAuditStorage.mkDetails None None None (Some 150)))
             Scenario.ledger1))
     = None.
Proof.
  apply (pending_payment_status_stays_in_pending_namespace 150 (Js.IdNum 7)
           (Some (PaymentAuditStorage.mkDetails None None None (Some 150)))
           Scenario.ledger1
           (PaymentAuditStorage.mkRecord (Some (Js.IdNum 7))
              "https://example.com/mcp" "tools/call"
              (Some "{name:add-numbers}") None None None None
              PaymentAuditStorage.RequestPending
              PaymentAuditStorage.PaymentPending 100 None None None None
              None)).
  - reflexivity.
  - reflexivity.
Defined.

Lemma removePendingRequest_keeps_pending_entry_witness :
  fst (PaymentAuditStorage.read 150 "7"
         (PaymentAuditStorage.removePendingRequest 150 (Js.IdNum 7)
            (PaymentAuditStorage.markRequestCompleted 140 (Js.IdNum 7) None
               Scenario.ledger1))) = None
  /\ fst (PaymentAuditStorage.getPendingRequest 150 (Js.IdNum 7)
            (PaymentAuditStorage.removePendingRequest 150 (Js.IdNum 7)
               (PaymentAuditStorage.markRequestCompleted 140 (Js.IdNum 7) None
                  Scenario.ledger1)))
     = Some (PaymentAuditStorage.mkRecord (Some (Js.IdNum 7))
               "https://example.com/mcp" "tools/call"
               (Some "{name:add-numbers}") None None None None
               PaymentAuditStorage.RequestPending
               PaymentAuditStorage.PaymentPending 100 None None None None
               None).
Proof.
  apply (removePendingRequest_keeps_pending_entry 150 (Js.IdNum 7)
           (PaymentAuditStorage.markRequestCompleted 140 (Js.IdNum 7) None
              Scenario.ledger1)).
  reflexivity.
Defined.

Lemma payment_update_overwrites_request_completion_witness :
  PaymentAuditStorage.requestStatus
    (PaymentAuditStorage.applyDetails PaymentAuditStorage.PaymentCompleted 160
       (Some (PaymentAuditStorage.mkDetails (Some "0xabc") None None None))
       (PaymentAuditStorage.mkRecord (Some (Js.IdNum 7))
          "https://example.com/mcp" "tools/call"
          (Some "{name:add-numbers}") None None None None
          PaymentAuditStorage.RequestPending
          PaymentAuditStorage.PaymentPending 100 None None None None None))
  = PaymentAuditStorage.RequestPending
  /\ fst (PaymentAuditStorage.read 160 "7"
            (PaymentAuditStorage.updatePaymentStatus 160 (Js.IdNum 7)
               PaymentAuditStorage.PaymentCompleted
               (Some (PaymentAuditStorage.mkDetails (Some "0xabc") None None
                        None))
               (PaymentAuditStorage.markRequestCompleted 150 (Js.IdNum 7)
                  None Scenario.ledger1)))
     = Some (PaymentAuditStorage.mkRecord (Some (Js.IdNum 7))
               "https://example.com/mcp" "tools/call"
               (Some "{name:add-numbers}") None None None None
               PaymentAuditStorage.RequestPending
               PaymentAuditStorage.PaymentCompleted 100 None (Some 160) None
               (Some "0xabc") None).
Proof.
  destruct (payment_update_overwrites_request_completion 150 160 (Js.IdNum 7)
              None PaymentAuditStorage.PaymentCompleted
              (Some (PaymentAuditStorage.mkDetails (Some "0xabc") None None
                       None))
              Scenario.ledger1
              (InMemoryStorage.mkEntry
                 (PaymentAuditStorage.mkRecord (Some (Js.IdNum 7))
                    "https://example.com/mcp" "tools/call"
                    (Some "{name:add-numbers}") None None None None
                    PaymentAuditStorage.RequestPending
                    PaymentAuditStorage.PaymentPending 100 None None None
                    None None) 100 86400))
    as (_ & H2 & H3 & _).
  - reflexivity.
  - reflexivity.
  - reflexivity.
  - vm_compute. reflexivity.
  - discriminate.
  - split; [exact H3|exact H2].
Defined.



(* ================================================================= *)
(** * Properties of the handler registry *)

Section RegistryProperties.

Import HandlerRegistry Observe.

Lemma extract_fold_in inst ms acc h :
  In h (fold_left
          (fun handlers m =>
             match extractMethod inst m with
             | Some h0 => (handlers ++ [h0])%list
             | None => handlers
             end) ms acc)
  <-> In h acc \/ exists m, In m ms /\ extractMethod inst m = Some h.
Proof.
  revert acc. induction ms as [|m ms IH]; intros acc; simpl.
  - split; [auto|]. intros [H|(m & [] & _)]. exact H.
  - rewrite IH. destruct (extractMethod inst m) as [h0|] eqn:Hm.
    + rewrite in_app_iff. simpl. split.
      * intros [[H|[<-|[]]]|(m' & Hin & He)]; eauto 6.
      * intros [H|(m' & [<-|Hin] & He)]; eauto 6.
        rewrite Hm in He. injection He as <-. auto.
    + split.
      * intros [H|(m' & Hin & He)]; eauto 6.
      * intros [H|(m' & [<-|Hin] & He)]; eauto 6. congruence.
Qed.

(** The descriptors of an instance are exactly those of its annotated
    methods. *)
Lemma extractHandlersFromInstance_in c h :
  In h (extractHandlersFromInstance c)
  <-> exists m, In m (prototype c) /\ extractMethod (className c) m = Some h.
Proof.
  unfold extractHandlersFromInstance. rewrite extract_fold_in. simpl.
  split; [intros [[]|H]; exact H | auto].
Qed.

Lemma push_keeps s h h0 ty :
  In h (handlersOfType ty s) -> In h (handlersOfType ty (push s h0)).
Proof.
  unfold push. destruct (type h0), ty; simpl; auto;
    intros H; apply in_or_app; auto.
Qed.

Lemma push_adds s h : In h (handlersOfType (type h) (push s h)).
Proof.
  unfold push. destruct (type h); simpl; apply in_or_app; right; left;
    reflexivity.
Qed.

Lemma fold_push_in hs s h :
  In h hs \/ In h (handlersOfType (type h) s) ->
  In h (handlersOfType (type h) (fold_left push hs s)).
Proof.
  revert s. induction hs as [|h0 hs IH]; intros s; simpl.
  - intros [[]|H]; exact H.
  - intros [[<-|Hin]|H]; apply IH; auto using push_adds, push_keeps.
Qed.

Lemma createSessionHandlers_in classes c h :
  In c classes -> In h (extractHandlersFromInstance c) ->
  In h (handlersOfType (type h) (createSessionHandlers classes)).
Proof.
  unfold createSessionHandlers. generalize (mkSession [] [] [] []).
  induction classes as [|c0 classes IH]; intros s Hc Hh; [destruct Hc|].
  destruct Hc as [<-|Hin]; simpl.
  - clear IH.
    assert (H : In h (handlersOfType (type h)
                        (fold_left push (extractHandlersFromInstance c0) s)))
      by (apply fold_push_in; auto).
    revert H. generalize (fold_left push (extractHandlersFromInstance c0) s).
    induction classes as [|c1 classes IH]; intros s' H; simpl; [exact H|].
    apply IH. apply fold_push_in. auto.
  - apply IH; assumption.
Qed.

(** C9, as stated, fails: a tool whose [paymentOptions.amount] is 0 is
    accepted by the decorator and added to the session's tool list with its
    payment options; nothing is rejected. *)
Lemma zero_amount_is_registered :
  MCPTool Scenario.freeOptions "free" (Scenario.plainClass, [])
  = (Scenario.freeClass,
     [("FreeService.free",
       mkRegistered "FreeService" "free" (Some Scenario.freeOptions) None None)])
  /\ tools (createSessionHandlers [Scenario.freeClass])
     = [mkInfo "free-tool" Scenario.addNumbers tool
          (ToolOptions Scenario.freeOptions)
          (Some (PaymentOptions.mk Js.zero (Some "Free service")))
          "FreeService"]
  /\ Js.le Js.zero Js.zero = true.
Proof. repeat split; reflexivity. Qed.

(** C9, amended: registration performs no check on [paymentOptions.amount].
    Every function-valued method of a registered class, the constructor
    apart, yields a descriptor for the first annotation it carries in the
    order tool, prompt, resource, and the descriptor is added to the session
    list of that kind (a resource annotation with a non-empty template goes
    to the resource templates) with the annotation's payment options
    unchanged, whatever the amount. *)
Theorem registration_accepts_any_amount classes c m :
  In c classes ->
  In m (prototype c) ->
  methodName m <> "constructor" ->
  isFunction m = true ->
  (forall o,
     toolMetadata m = Some o ->
     In (mkInfo (MCPToolOptions.name o) (body m) tool (ToolOptions o)
           (MCPToolOptions.payment o) (className c))
        (tools (createSessionHandlers classes)))
  /\ (forall o,
        toolMetadata m = None ->
        promptMetadata m = Some o ->
        In (mkInfo (MCPPromptOptions.name o) (body m) prompt (PromptOptions o)
              (MCPPromptOptions.payment o) (className c))
           (prompts (createSessionHandlers classes)))
  /\ (forall o,
        toolMetadata m = None ->
        promptMetadata m = None ->
        resourceMetadata m = Some o ->
        if Js.truthy_opt (MCPResourceOptions.template o)
        then In (mkInfo (MCPResourceOptions.name o) (body m) resourceTemplate
                   (ResourceOptions o) (MCPResourceOptions.payment o)
                   (className c))
                (resourceTemplates (createSessionHandlers classes))
        else In (mkInfo (MCPResourceOptions.name o) (body m) resource
                   (ResourceOptions o) (MCPResourceOptions.payment o)
                   (className c))
                (resources (createSessionHandlers classes))).
Proof.
  intros Hc Hm Hname Hfun.
  apply String.eqb_neq in Hname.
  assert (Hreg : forall h,
            extractMethod (className c) m = Some h ->
            In h (handlersOfType (type h) (createSessionHandlers classes))).
  { intros h Hex. apply (createSessionHandlers_in classes c h Hc).
    apply extractHandlersFromInstance_in. exists m. auto. }
  split; [|split].
  - intros o Hmeta. apply (Hreg (mkInfo _ _ tool _ _ _)).
    unfold extractMethod. rewrite Hname, Hfun, Hmeta. reflexivity.
  - intros o Htool Hmeta. apply (Hreg (mkInfo _ _ prompt _ _ _)).
    unfold extractMethod. rewrite Hname, Hfun, Htool, Hmeta. reflexivity.
  - intros o Htool Hprompt Hmeta. unfold Js.truthy_opt.
    destruct (MCPResourceOptions.template o) as [tpl|] eqn:Htpl;
      [destruct (Js.truthy tpl) eqn:Htruthy|].
    + apply (Hreg (mkInfo _ _ resourceTemplate _ _ _)).
      unfold extractMethod.
      rewrite Hname, Hfun, Htool, Hprompt, Hmeta, Htpl, Htruthy. reflexivity.
    + apply (Hreg (mkInfo _ _ resource _ _ _)).
      unfold extractMethod.
      rewrite Hname, Hfun, Htool, Hprompt, Hmeta, Htpl, Htruthy. reflexivity.
    + apply (Hreg (mkInfo _ _ resource _ _ _)).
      unfold extractMethod.
      rewrite Hname, Hfun, Htool, Hprompt, Hmeta, Htpl. reflexivity.
Qed.

Lemma registration_accepts_any_amount_witness :
  In (mkInfo "free-tool" Scenario.addNumbers tool
        (ToolOptions Scenario.freeOptions)
        (Some (PaymentOptions.mk Js.zero (Some "Free service")))
        "FreeService")
     (tools (createSessionHandlers [Scenario.freeClass; Scenario.mixedClass]))
  /\ In (mkInfo "ask" Scenario.addNumbers prompt
           (PromptOptions Scenario.negativePrompt)
           (Some (PaymentOptions.mk (Js.Finite (-1 # 1)) None))
           "Mixed")
        (prompts (createSessionHandlers
                    [Scenario.freeClass; Scenario.mixedClass])).
Proof.
  split.
  - apply (proj1 (registration_accepts_any_amount
                    [Scenario.freeClass; Scenario.mixedClass]
                    Scenario.freeClass
                    (mkMethod "free" true Scenario.addNumbers
                       (Some Scenario.freeOptions) None None)
                    (or_introl eq_refl) (or_intror (or_introl eq_refl))
                    ltac:(discriminate) eq_refl)
             Scenario.freeOptions eq_refl).
  - apply (proj1 (proj2 (registration_accepts_any_amount
                           [Scenario.freeClass; Scenario.mixedClass]
                           Scenario.mixedClass
                           (mkMethod "ask" true Scenario.addNumbers
                              None (Some Scenario.negativePrompt) None)
                           (or_intror (or_introl eq_refl))
                           (or_intror (or_introl eq_refl))
                           ltac:(discriminate) eq_refl))
             Scenario.negativePrompt eq_refl eq_refl).
Defined.

(** A method that carries a tool and a prompt annotation is registered as a
    tool only. *)
Example doubly_annotated_method_is_a_tool :
  map name (tools (createSessionHandlers [Scenario.mixedClass])) = ["both"]
  /\ map name (prompts (createSessionHandlers [Scenario.mixedClass])) = ["ask"].
Proof. split; reflexivity. Qed.

(** ** Further properties of the registry *)

Lemma extractHandlersFromInstance_iff c h :
  In h (extractHandlersFromInstance c)
  <-> exists m, In m (prototype c) /\ extractMethod (className c) m = Some h.
Proof.
  unfold extractHandlersFromInstance. rewrite extract_fold_in.
  split; [intros [[]|H]; exact H|intros H; right; exact H].
Qed.

Lemma fold_push_type ty hs s :
  handlersOfType ty (fold_left push hs s)
  = (handlersOfType ty s
       ++ filter (fun h => View.HandlerType_eqb (type h) ty) hs)%list.
Proof.
  revert s. induction hs as [|h hs IH]; intros s; simpl.
  - rewrite app_nil_r. reflexivity.
  - rewrite IH. unfold push.
    destruct (type h), ty; simpl; rewrite <- ?app_assoc; reflexivity.
Qed.

Lemma fold_classes_type ty classes s :
  handlersOfType ty
    (fold_left
       (fun sessionHandlers handlerClass =>
          fold_left push (extractHandlersFromInstance handlerClass)
            sessionHandlers)
       classes s)
  = (handlersOfType ty s
       ++ filter (fun h => View.HandlerType_eqb (type h) ty)
            (View.allHandlers classes))%list.
Proof.
  revert s. induction classes as [|c classes IH]; intros s; simpl.
  - rewrite app_nil_r. reflexivity.
  - rewrite IH, fold_push_type, filter_app, app_assoc. reflexivity.
Qed.

(** X11: each of the four session lists is the sub-list of its type of all
    extracted descriptors, in class order and then method order: no
    descriptor is lost, duplicated or reordered, and every descriptor is in
    the list of its own type only. *)
Theorem session_lists_partition_descriptors classes :
  (forall ty,
     handlersOfType ty (createSessionHandlers classes)
     = filter (fun h => View.HandlerType_eqb (type h) ty)
         (View.allHandlers classes))
  /\ (length (tools (createSessionHandlers classes))
      + length (prompts (createSessionHandlers classes))
      + length (resources (createSessionHandlers classes))
      + length (resourceTemplates (createSessionHandlers classes))
      = length (View.allHandlers classes))%nat.
Proof.
  assert (H : forall ty,
     handlersOfType ty (createSessionHandlers classes)
     = filter (fun h => View.HandlerType_eqb (type h) ty)
         (View.allHandlers classes)).
  { intros ty. unfold createSessionHandlers. rewrite fold_classes_type.
    destruct ty; reflexivity. }
  split; [exact H|].
  pose proof (H tool) as Ht. pose proof (H prompt) as Hp.
  pose proof (H resource) as Hr. pose proof (H resourceTemplate) as Hrt.
  simpl in Ht, Hp, Hr, Hrt. rewrite Ht, Hp, Hr, Hrt.
  clear H Ht Hp Hr Hrt.
  induction (View.allHandlers classes) as [|h hs IH]; [reflexivity|].
  simpl. destruct (type h); simpl; lia.
Qed.

(** X12: every descriptor that [extractHandlersFromInstance] returns comes
    from a function-valued own property of the prototype other than the
    constructor, carries that method as handler, and takes its type from the
    first annotation present in the order tool, prompt, resource; a resource
    annotation with a non-empty template gives a resource template.  Name,
    options and payment options are those of that annotation. *)
Theorem extracted_descriptor_comes_from_annotation c h :
  In h (extractHandlersFromInstance c) ->
  exists m,
    In m (prototype c)
    /\ methodName m <> "constructor"
    /\ isFunction m = true
    /\ handler h = body m
    /\ instance h = className c
    /\ match type h with
       | tool =>
           exists o, toolMetadata m = Some o
             /\ options h = ToolOptions o
             /\ name h = MCPToolOptions.name o
             /\ paymentOptions h = MCPToolOptions.payment o
       | prompt =>
           toolMetadata m = None
           /\ exists o, promptMetadata m = Some o
                /\ options h = PromptOptions o
                /\ name h = MCPPromptOptions.name o
                /\ paymentOptions h = MCPPromptOptions.payment o
       | resource =>
           toolMetadata m = None /\ promptMetadata m = None
           /\ exists o, resourceMetadata m = Some o
                /\ Js.truthy_opt (MCPResourceOptions.template o) = false
                /\ options h = ResourceOptions o
                /\ name h = MCPResourceOptions.name o
                /\ paymentOptions h = MCPResourceOptions.payment o
       | resourceTemplate =>
           toolMetadata m = None /\ promptMetadata m = None
           /\ exists o, resourceMetadata m = Some o
                /\ Js.truthy_opt (MCPResourceOptions.template o) = true
                /\ options h = ResourceOptions o
                /\ name h = MCPResourceOptions.name o
                /\ paymentOptions h = MCPResourceOptions.payment o
       end.
Proof.
  intros Hin. apply extractHandlersFromInstance_iff in Hin.
  destruct Hin as (m & Hm & Hex). exists m. split; [exact Hm|].
  unfold extractMethod in Hex.
  destruct (String.eqb (methodName m) "constructor") eqn:Hc; [discriminate|].
  apply String.eqb_neq in Hc. split; [exact Hc|].
  destruct (isFunction m); [|discriminate]. split; [reflexivity|].
  simpl in Hex.
  destruct (toolMetadata m) as [t|].
  { injection Hex as <-. simpl. repeat split. eauto 6. }
  destruct (promptMetadata m) as [p|].
  { injection Hex as <-. simpl. repeat split. eauto 6. }
  destruct (resourceMetadata m) as [r|]; [|discriminate].
  unfold Js.truthy_opt.
  destruct (MCPResourceOptions.template r) as [tpl|] eqn:Htpl.
  - destruct (Js.truthy tpl) eqn:Htruthy; injection Hex as <-; simpl;
      repeat split; exists r; rewrite Htpl; simpl; rewrite ?Htruthy; auto 6.
  - injection Hex as <-. simpl. repeat split. exists r. rewrite Htpl. auto 6.
Qed.

Lemma extracted_descriptor_comes_from_annotation_witness :
  exists m,
    In m (prototype Scenario.freeClass)
    /\ methodName m <> "constructor"
    /\ isFunction m = true
    /\ Scenario.addNumbers = body m
    /\ "FreeService" = className Scenario.freeClass
    /\ exists o, toolMetadata m = Some o
         /\ ToolOptions Scenario.freeOptions = ToolOptions o
         /\ "free-tool" = MCPToolOptions.name o
         /\ Some (PaymentOptions.mk Js.zero (Some "Free service"))
            = MCPToolOptions.payment o.
Proof.
  apply (extracted_descriptor_comes_from_annotation Scenario.freeClass
           (mkInfo "free-tool" Scenario.addNumbers tool
              (ToolOptions Scenario.freeOptions)
              (Some (PaymentOptions.mk Js.zero (Some "Free service")))
              "FreeService")).
  vm_compute. left. reflexivity.
Defined.

Lemma registry_get_set_same key h g :
  registry_get key (registry_set key h g) = Some h.
Proof.
  induction g as [|[k h0] g IH]; simpl.
  - rewrite String.eqb_refl. reflexivity.
  - destruct (String.eqb k key) eqn:Hk; simpl; rewrite Hk;
      [reflexivity|exact IH].
Qed.

Lemma registry_get_set_other key k h g :
  k <> key ->
  registry_get k (registry_set key h g) = registry_get k g.
Proof.
  intros Hne. induction g as [|[k0 h0] g IH]; simpl.
  - destruct (String.eqb key k) eqn:Hk; [|reflexivity].
    apply String.eqb_eq in Hk. congruence.
  - destruct (String.eqb k0 key) eqn:Hk0; simpl.
    + apply String.eqb_eq in Hk0. subst k0.
      destruct (String.eqb key k) eqn:Hk; [|reflexivity].
      apply String.eqb_eq in Hk. congruence.
    + rewrite IH. reflexivity.
Qed.

Lemma length_registry_set key h g :
  length (registry_set key h g)
  = match registry_get key g with
    | Some _ => length g
    | None => S (length g)
    end.
Proof.
  induction g as [|[k h0] g IH]; simpl; [reflexivity|].
  destruct (String.eqb k key); simpl; [reflexivity|].
  rewrite IH. destruct (registry_get key g); reflexivity.
Qed.

Lemma registerHandler_get h g :
  registry_get (getHandlerKey (target h) (propertyKey h)) (registerHandler h g)
  = Some match registry_get (getHandlerKey (target h) (propertyKey h)) g with
         | Some existing => merge existing h
         | None => h
         end.
Proof.
  unfold registerHandler.
  destruct (registry_get (getHandlerKey (target h) (propertyKey h)) g);
    apply registry_get_set_same.
Qed.

(** X13: the global registry holds one entry per class and method: a
    registration under a key that is already present keeps the entry and
    overrides only the option kinds that the new registration carries, a
    registration under a new key adds one entry, and the entries of all
    other keys are unchanged. *)
Theorem registerHandler_merges_by_key h g :
  let key := getHandlerKey (target h) (propertyKey h) in
  let existing {A} (field : RegisteredHandler -> option A) :=
    match registry_get key g with
    | Some e => field e
    | None => None
    end in
  (exists r,
     registry_get key (registerHandler h g) = Some r
     /\ target r = target h
     /\ propertyKey r = propertyKey h
     /\ toolOptions r = first_some (toolOptions h) (existing toolOptions)
     /\ promptOptions r
        = first_some (promptOptions h) (existing promptOptions)
     /\ resourceOptions r
        = first_some (resourceOptions h) (existing resourceOptions))
  /\ (forall k, k <> key ->
        registry_get k (registerHandler h g) = registry_get k g)
  /\ fst (Registry.getRegistryStats (registerHandler h g))
     = match registry_get key g with
       | Some _ => fst (Registry.getRegistryStats g)
       | None => S (fst (Registry.getRegistryStats g))
       end.
Proof.
  intros key existing. unfold existing, registerHandler. fold key.
  destruct (registry_get key g) as [e|] eqn:Hget.
  - split; [|split].
    + exists (merge e h). rewrite registry_get_set_same.
      repeat split; reflexivity.
    + intros k Hk. apply registry_get_set_other. exact Hk.
    + simpl. rewrite length_registry_set, Hget. reflexivity.
  - split; [|split].
    + exists h. rewrite registry_get_set_same.
      repeat split; destruct h as [t k [?|] [?|] [?|]]; reflexivity.
    + intros k Hk. apply registry_get_set_other. exact Hk.
    + simpl. rewrite length_registry_set, Hget. reflexivity.
Qed.

Lemma registerHandler_merges_by_key_witness :
  registry_get "Calc.run"
    (registerHandler
       (mkRegistered "Calc" "add" (Some Scenario.addOptions) None None)
       [("Calc.run",
         mkRegistered "Calc" "run" (Some Scenario.freeOptions) None None)])
  = Some (mkRegistered "Calc" "run" (Some Scenario.freeOptions) None None).
Proof.
  apply (proj1 (proj2 (registerHandler_merges_by_key
                         (mkRegistered "Calc" "add"
                            (Some Scenario.addOptions) None None)
                         [("Calc.run",
                           mkRegistered "Calc" "run"
                             (Some Scenario.freeOptions) None None)]))
           "Calc.run").
  discriminate.
Defined.

Lemma findMethod_name key ms m :
  Registry.findMethod key ms = Some m -> methodName m = key.
Proof.
  induction ms as [|m0 ms IH]; simpl; [discriminate|].
  destruct (String.eqb (methodName m0) key) eqn:Hk.
  - intros [= <-]. apply String.eqb_eq. exact Hk.
  - exact IH.
Qed.

Lemma findMethod_in key ms m :
  Registry.findMethod key ms = Some m -> In m ms.
Proof.
  induction ms as [|m0 ms IH]; simpl; [discriminate|].
  destruct (String.eqb (methodName m0) key).
  - intros [= <-]. left. reflexivity.
  - intros H. right. apply IH. exact H.
Qed.

Lemma findMethod_defineToolMetadata key o c key' :
  Registry.findMethod key' (prototype (defineToolMetadata key o c))
  = match Registry.findMethod key' (prototype c) with
    | Some m =>
        Some (if String.eqb (methodName m) key
              then mkMethod (methodName m) (isFunction m) (body m) (Some o)
                     (promptMetadata m) (resourceMetadata m)
              else m)
    | None => None
    end.
Proof.
  unfold defineToolMetadata. simpl.
  induction (prototype c) as [|m ms IH]; simpl; [reflexivity|].
  destruct (String.eqb (methodName m) key) eqn:Hk; simpl;
    destruct (String.eqb (methodName m) key') eqn:Hk'; try rewrite Hk;
    try reflexivity; exact IH.
Qed.

(** X14: decorating a method with [@MCPTool(options)] and reading the
    annotation back: [getMCPToolOptions] returns the options,
    [isPaymentRequired] tells whether they hold a payment, the global
    registry has an entry for the class and method with these tool options,
    the annotations of the other methods are unchanged, and a session
    created from the class lists the method as a tool with these options. *)
Theorem decorated_method_is_a_tool c g o key m :
  Registry.findMethod key (prototype c) = Some m ->
  isFunction m = true ->
  key <> "constructor" ->
  let decorated := fst (MCPTool o key (c, g)) in
  Registry.getMCPToolOptions decorated key = Some o
  /\ Registry.getPaymentOptions decorated key = MCPToolOptions.payment o
  /\ Registry.isPaymentRequired decorated key
     = match MCPToolOptions.payment o with Some _ => true | None => false end
  /\ (exists r,
        registry_get (getHandlerKey (className c) key)
          (snd (MCPTool o key (c, g))) = Some r
        /\ toolOptions r = Some o)
  /\ (forall key' m',
        key' <> key ->
        Registry.findMethod key' (prototype c) = Some m' ->
        isFunction m' = true ->
        Registry.getMCPToolOptions decorated key' = toolMetadata m')
  /\ In (mkInfo (MCPToolOptions.name o) (body m) tool (ToolOptions o)
           (MCPToolOptions.payment o) (className c))
        (tools (createSessionHandlers [decorated])).
Proof.
  intros Hfind Hfun Hkey decorated. subst decorated.
  change (fst (MCPTool o key (c, g))) with (defineToolMetadata key o c).
  change (snd (MCPTool o key (c, g)))
    with (registerHandler
            (mkRegistered (className c) key (Some o) None None) g).
  pose proof (findMethod_name _ _ _ Hfind) as Hname.
  assert (Hget : Registry.getMCPToolOptions (defineToolMetadata key o c) key
                 = Some o).
  { unfold Registry.getMCPToolOptions.
    rewrite findMethod_defineToolMetadata, Hfind, Hname, String.eqb_refl.
    reflexivity. }
  split; [exact Hget|].
  split; [unfold Registry.getPaymentOptions; rewrite Hget; reflexivity|].
  split; [unfold Registry.isPaymentRequired, Registry.getPaymentOptions;
          rewrite Hget; reflexivity|].
  split.
  { pose proof (registerHandler_get
                  (mkRegistered (className c) key (Some o) None None) g)
      as Hr.
    simpl in Hr. rewrite Hr. eexists. split; [reflexivity|].
    destruct (registry_get (getHandlerKey (className c) key) g);
      reflexivity. }
  split.
  { intros key' m' Hne Hfind' _. unfold Registry.getMCPToolOptions.
    rewrite findMethod_defineToolMetadata, Hfind'.
    rewrite (findMethod_name _ _ _ Hfind').
    destruct (String.eqb key' key) eqn:Hk; [|reflexivity].
    apply String.eqb_eq in Hk. congruence. }
  apply (createSessionHandlers_in [defineToolMetadata key o c]
           (defineToolMetadata key o c)
           (mkInfo (MCPToolOptions.name o) (body m) tool (ToolOptions o)
              (MCPToolOptions.payment o) (className c)));
    [left; reflexivity|].
  apply extractHandlersFromInstance_iff.
  exists (mkMethod (methodName m) (isFunction m) (body m) (Some o)
            (promptMetadata m) (resourceMetadata m)).
  split.
  - unfold defineToolMetadata. simpl. apply in_map_iff. exists m.
    rewrite Hname, String.eqb_refl. split; [reflexivity|].
    exact (findMethod_in _ _ _ Hfind).
  - unfold extractMethod. simpl. rewrite Hname.
    apply String.eqb_neq in Hkey. rewrite Hkey, Hfun. reflexivity.
Qed.

Lemma decorated_method_is_a_tool_witness :
  Registry.getMCPToolOptions
    (fst (MCPTool Scenario.freeOptions "free" (Scenario.plainClass, [])))
    "free"
  = Some Scenario.freeOptions.
Proof.
  apply (proj1 (decorated_method_is_a_tool Scenario.plainClass []
                  Scenario.freeOptions "free"
                  (mkMethod "free" true Scenario.addNumbers None None None)
                  eq_refl eq_refl ltac:(discriminate))).
Defined.

End RegistryProperties.


(* ================================================================= *)
(** * Properties of the server side *)

Section ServerProperties.

Import Server Invocation Observe.

Ltac step_eff :=
  cbv beta iota delta [Eff.bind Eff.ret Eff.throw Eff.try_catch Eff.finally
    Eff.gets Eff.modify Eff.lift emit update_extra notify executePayment] in *.

Ltac frame_done :=
  simpl; rewrite <- ?app_assoc; eexists; (split; [reflexivity|]); simpl;
  repeat split; eauto; repeat constructor; simpl; eauto.

Lemma validatePayment_spec env name reqs s :
  exists l,
    trace (snd (validatePayment env name reqs s)) = (trace s ++ l)%list
    /\ Forall (fun ev => verify_event ev = true /\ carries (requestId (extra s)) ev) l
    /\ requestId (extra (snd (validatePayment env name reqs s))) = requestId (extra s)
    /\ match fst (validatePayment env name reqs s) with
       | Ok _ => exists p,
           paymentProof (extra (snd (validatePayment env name reqs s))) = Some p
           /\ paymentRequirements (extra (snd (validatePayment env name reqs s))) = Some reqs
       | Throw e =>
           Err.isPaymentError e = true
           /\ extra (snd (validatePayment env name reqs s)) = extra s
       end.
Proof.
  unfold validatePayment, sendPaymentRequiredRequest, validatePaymentProof.
  step_eff.
  destruct (sendRequest env _) as [resp|e] eqn:Hsend; simpl.
  - destruct (PaymentRequiredResponse.payment resp) as [p|]; simpl.
    + repeat (match goal with
              | |- context [if ?b then _ else _] => destruct b eqn:?; simpl
              | |- context [match facilitator_validatePayment ?a ?b ?c with _ => _ end] =>
                  destruct (facilitator_validatePayment a b c) eqn:?; simpl
              end);
      frame_done.
    + frame_done.
  - destruct (isMethodNotFoundError e); simpl; [frame_done|].
    destruct e; simpl; frame_done.
Qed.

Lemma settlePayment_spec env s :
  exists l,
    trace (snd (settlePayment env s)) = (trace s ++ EvSettlePayment :: l)%list
    /\ Forall (fun ev => settle_event ev = true /\ carries (requestId (extra s)) ev) l
    /\ (exists n, In (EvSendNotification n) l)
    /\ extra (snd (settlePayment env s)) = extra s.
Proof.
  unfold settlePayment. step_eff. simpl.
  destruct (paymentProof (extra s)) as [p|]; simpl;
    [destruct (paymentRequirements (extra s)) as [q|]; simpl|].
  - destruct (facilitator_executePayment env p q) as [res|e]; simpl.
    + destruct (PaymentResult.success res); simpl.
      * destruct (sendNotification env _) as [|e1]; simpl; [frame_done|].
        destruct (sendNotification env _) as [|e2]; simpl;
          [destruct (Err.isPaymentError e1)|]; frame_done.
      * destruct (sendNotification env _) as [|e2]; frame_done.
    + destruct (sendNotification env _) as [|e2]; simpl;
        [destruct (Err.isPaymentError e)|]; frame_done.
  - destruct (sendNotification env _) as [|e2]; frame_done.
  - destruct (sendNotification env _) as [|e2]; frame_done.
Qed.

(** The wrapper on an unprotected handler. *)
Lemma invoke_unprotected env hi cfg args c :
  HandlerRegistry.paymentOptions hi = None ->
  invoke env hi cfg args c =
  match HandlerRegistry.handler hi (callOf hi args) c with
  | (Ok res, c') =>
      (Ok res,
       stripPayment (mkState c' [EvHandlerCalled (callOf hi args) c;
                                 EvHandlerReturned c']))
  | (Throw e, c') =>
      (Throw (rethrow e),
       stripPayment (mkState c' [EvHandlerCalled (callOf hi args) c;
                                 EvHandlerThrew e]))
  end.
Proof.
  intros Hpo. unfold invoke, createWrappedHandler, callHandler.
  rewrite Hpo. step_eff. simpl.
  destruct (HandlerRegistry.handler hi (callOf hi args) c) as [[res|e] c'];
    reflexivity.
Qed.

(** The wrapper on a protected handler: verify, execute, settle. *)
Lemma invoke_protected env hi cfg args c po :
  HandlerRegistry.paymentOptions hi = Some po ->
  invoke env hi cfg args c =
  match assemblePaymentRequirements env po
          ("/tools/" ++ HandlerRegistry.name hi) cfg (baseUrl cfg) with
  | Throw e0 => (Throw (rethrow e0), stripPayment (mkState c []))
  | Ok reqs =>
      match validatePayment env (HandlerRegistry.name hi) reqs (mkState c []) with
      | (Throw e, s1) => (Throw (rethrow e), stripPayment s1)
      | (Ok _, s1) =>
          match HandlerRegistry.handler hi (callOf hi args) (extra s1) with
          | (Throw e, c') =>
              (Throw (rethrow e),
               stripPayment
                 (mkState c'
                    (trace s1 ++ [EvHandlerCalled (callOf hi args) (extra s1);
                                  EvHandlerThrew e])))
          | (Ok res, c') =>
              match settlePayment env
                      (mkState c'
                         (trace s1 ++ [EvHandlerCalled (callOf hi args) (extra s1);
                                       EvHandlerReturned c'])) with
              | (Ok _, s2) => (Ok res, stripPayment s2)
              | (Throw e, s2) => (Throw (rethrow e), stripPayment s2)
              end
          end
      end
  end.
Proof.
  intros Hpo. unfold invoke, createWrappedHandler, callHandler.
  rewrite Hpo. step_eff. simpl.
  destruct (assemblePaymentRequirements env po _ cfg _) as [reqs|e0];
    [|reflexivity].
  destruct (validatePayment env _ reqs _) as [[u|e] s1]; [|reflexivity].
  simpl.
  destruct (HandlerRegistry.handler hi (callOf hi args) (extra s1))
    as [[res|e] c'];
    simpl; rewrite <- ?app_assoc; simpl; [|reflexivity].
  destruct (settlePayment env _) as [[u'|e'] s2]; reflexivity.
Qed.

(** Shape of the trace of one invocation: verify events, then at most one
    handler call, then (only after a normal return) settlement events, which
    carry the request id of the context as the handler left it. *)
Lemma invoke_shape env hi cfg args c :
  paymentProof (extra (snd (invoke env hi cfg args c))) = None
  /\ paymentRequirements (extra (snd (invoke env hi cfg args c))) = None
  /\ exists lv,
       Forall (fun ev => verify_event ev = true /\ carries (requestId c) ev) lv
       /\ ((trace (snd (invoke env hi cfg args c)) = lv
            /\ exists e, fst (invoke env hi cfg args c) = Throw e)
           \/ (exists c1 e,
                 trace (snd (invoke env hi cfg args c))
                 = (lv ++ [EvHandlerCalled (callOf hi args) c1; EvHandlerThrew e])%list
                 /\ fst (HandlerRegistry.handler hi (callOf hi args) c1) = Throw e
                 /\ fst (invoke env hi cfg args c) = Throw (rethrow e)
                 /\ requestId c1 = requestId c
                 /\ (HandlerRegistry.paymentOptions hi <> None ->
                     paymentProof c1 <> None /\ paymentRequirements c1 <> None))
           \/ (exists c1 ls,
                 trace (snd (invoke env hi cfg args c))
                 = (lv ++ EvHandlerCalled (callOf hi args) c1
                       :: EvHandlerReturned
                            (snd (HandlerRegistry.handler hi (callOf hi args) c1))
                       :: ls)%list
                 /\ Forall (fun ev =>
                      settle_event ev = true
                      /\ carries (requestId
                                    (snd (HandlerRegistry.handler hi
                                            (callOf hi args) c1))) ev) ls
                 /\ requestId c1 = requestId c
                 /\ (HandlerRegistry.paymentOptions hi <> None ->
                     paymentProof c1 <> None /\ paymentRequirements c1 <> None)
                 /\ (HandlerRegistry.paymentOptions hi <> None ->
                     exists n, In (EvSendNotification n) ls)
                 /\ (HandlerRegistry.paymentOptions hi = None -> ls = []))).
Proof.
  destruct (HandlerRegistry.paymentOptions hi) as [po|] eqn:Hpo.
  - rewrite (invoke_protected env hi cfg args c po Hpo).
    destruct (assemblePaymentRequirements env po _ cfg _) as [reqs|e0].
    + destruct (validatePayment_spec env (HandlerRegistry.name hi) reqs
                  (mkState c [])) as (lv & Htr & Hlv & Hrid & Hres).
      destruct (validatePayment env _ reqs _) as [[u|e] s1]; simpl in *.
      * destruct Hres as (p & Hp & Hq).
        destruct (HandlerRegistry.handler hi (callOf hi args) (extra s1))
          as [[res|e] c'] eqn:Hh.
        -- match goal with
           | |- context [settlePayment env ?s] =>
               destruct (settlePayment_spec env s)
                 as (ls & Hts & Hls & Hnote & Hex);
               destruct (settlePayment env s) as [[u'|e'] s2]
           end; simpl in *;
             (split; [reflexivity|]); (split; [reflexivity|]);
             exists lv; (split; [assumption|]); right; right;
             exists (extra s1), (EvSettlePayment :: ls); rewrite Hh; simpl;
             (split; [rewrite Hts, Htr, <- !app_assoc; reflexivity|]);
             (split; [constructor; [simpl; auto|assumption]|]);
             (split; [assumption|]);
             (split; [intros _; rewrite Hp, Hq; split; discriminate|]);
             (split; [intros _; destruct Hnote as [n Hn]; exists n; right;
                      exact Hn|discriminate]).
        -- simpl. split; [reflexivity|]. split; [reflexivity|].
           exists lv; split; [assumption|]. right; left.
           exists (extra s1), e. rewrite Htr, Hh. simpl.
           repeat (split; [reflexivity || assumption|]).
           intros _; rewrite Hp, Hq; split; discriminate.
      * destruct Hres as (_ & Hex). simpl.
        split; [reflexivity|]. split; [reflexivity|].
        exists lv; split; [assumption|]. left. split; [assumption|]. eauto.
    + simpl. split; [reflexivity|]. split; [reflexivity|].
      exists []. split; [constructor|]. left. split; [reflexivity|]. eauto.
  - rewrite (invoke_unprotected env hi cfg args c Hpo).
    destruct (HandlerRegistry.handler hi (callOf hi args) c) as [[res|e] c']
      eqn:Hh; simpl;
      (split; [reflexivity|]); (split; [reflexivity|]);
      exists []; (split; [constructor|]).
    + right; right. exists c, []. rewrite Hh. simpl.
      split; [reflexivity|]. split; [constructor|]. split; [reflexivity|].
      split; [congruence|]. split; [congruence|intros _; reflexivity].
    + right; left. exists c, e. rewrite Hh. simpl.
      repeat (split; [reflexivity|]). congruence.
Qed.

Lemma verify_not_settle ev :
  verify_event ev = true -> settle_event ev = false.
Proof. destruct ev; simpl; congruence. Qed.

Lemma Forall_fst_in {A} (P Q : A -> Prop) (l : list A) (x : A) :
  Forall (fun a => P a /\ Q a) l -> In x l -> P x /\ Q x.
Proof. intros H Hin. rewrite Forall_forall in H. exact (H x Hin). Qed.

Lemma verify_prefix_quiet rid lv :
  Forall (fun ev => verify_event ev = true /\ carries rid ev) lv ->
  Forall (fun ev => settle_event ev = false) lv.
Proof.
  intros H. eapply Forall_impl; [|exact H].
  intros ev [Hv _]. now apply verify_not_settle.
Qed.

(** Where the events of a trace of the third shape sit. *)
Lemma returned_shape_in rid rid' lv call c1 c2 ls ev :
  Forall (fun ev => verify_event ev = true /\ carries rid ev) lv ->
  Forall (fun ev => settle_event ev = true /\ carries rid' ev) ls ->
  In ev (lv ++ EvHandlerCalled call c1 :: EvHandlerReturned c2 :: ls) ->
  (verify_event ev = true /\ In ev lv)
  \/ ev = EvHandlerCalled call c1
  \/ ev = EvHandlerReturned c2
  \/ (settle_event ev = true /\ carries rid' ev /\ In ev ls).
Proof.
  intros Hlv Hls Hin. apply in_app_or in Hin. destruct Hin as [Hin|Hin].
  - left. split; [|exact Hin]. exact (proj1 (Forall_fst_in _ _ _ _ Hlv Hin)).
  - destruct Hin as [<-|[<-|Hin]]; auto.
    right; right; right.
    destruct (Forall_fst_in _ _ _ _ Hls Hin). auto.
Qed.

Lemma threw_shape_in rid lv call c1 e ev :
  Forall (fun ev => verify_event ev = true /\ carries rid ev) lv ->
  In ev (lv ++ [EvHandlerCalled call c1; EvHandlerThrew e]) ->
  (verify_event ev = true /\ In ev lv)
  \/ ev = EvHandlerCalled call c1
  \/ ev = EvHandlerThrew e.
Proof.
  intros Hlv Hin. apply in_app_or in Hin. destruct Hin as [Hin|Hin].
  - left. split; [|exact Hin]. exact (proj1 (Forall_fst_in _ _ _ _ Hlv Hin)).
  - destruct Hin as [<-|[<-|[]]]; auto.
Qed.

(** C1: no settlement occurs unless the handler body returns normally.  In
    the trace of any invocation, every settlement event (the call of
    [settlePayment], the facilitator's [executePayment], an
    [x402/payment_result] notification) comes after the normal return of the
    handler body, and the handler did not throw; so when the handler body
    has not returned (verification failed, or the body threw), no settlement
    event occurs at all. *)
Theorem no_settlement_when_handler_throws env hi cfg args c :
  (forall ev,
     In ev (trace (snd (invoke env hi cfg args c))) ->
     settle_event ev = true ->
     exists c2 before after,
       trace (snd (invoke env hi cfg args c))
       = (before ++ EvHandlerReturned c2 :: after)%list
       /\ Forall (fun ev' => settle_event ev' = false) before
       /\ In ev after
       /\ forall e,
            ~ In (EvHandlerThrew e) (trace (snd (invoke env hi cfg args c))))
  /\ ((forall c2,
         ~ In (EvHandlerReturned c2) (trace (snd (invoke env hi cfg args c)))) ->
      ~ In EvSettlePayment (trace (snd (invoke env hi cfg args c)))
      /\ (forall p q,
            ~ In (EvExecutePayment p q) (trace (snd (invoke env hi cfg args c))))
      /\ (forall n,
            ~ In (EvSendNotification n)
                 (trace (snd (invoke env hi cfg args c)))))
  /\ (forall e,
        In (EvHandlerThrew e) (trace (snd (invoke env hi cfg args c))) ->
        ~ In EvSettlePayment (trace (snd (invoke env hi cfg args c)))
        /\ (forall p q,
              ~ In (EvExecutePayment p q)
                   (trace (snd (invoke env hi cfg args c))))
        /\ (forall n,
              ~ In (EvSendNotification n)
                   (trace (snd (invoke env hi cfg args c))))).
Proof.
  assert (Hmain : forall ev,
     In ev (trace (snd (invoke env hi cfg args c))) ->
     settle_event ev = true ->
     exists c2 before after,
       trace (snd (invoke env hi cfg args c))
       = (before ++ EvHandlerReturned c2 :: after)%list
       /\ Forall (fun ev' => settle_event ev' = false) before
       /\ In ev after
       /\ forall e,
            ~ In (EvHandlerThrew e) (trace (snd (invoke env hi cfg args c)))).
  { destruct (invoke_shape env hi cfg args c) as (_ & _ & lv & Hlv & Hshape).
    destruct Hshape
      as [[Htr _] | [(c1 & e0 & Htr & _) | (c1 & ls & Htr & Hls & _)]];
      rewrite Htr; intros ev Hin Hsettle.
    - destruct (Forall_fst_in _ _ _ _ Hlv Hin) as [Hv _].
      apply verify_not_settle in Hv. congruence.
    - destruct (threw_shape_in _ _ _ _ _ _ Hlv Hin) as [[Hv _]|[->| ->]];
        try discriminate.
      apply verify_not_settle in Hv. congruence.
    - destruct (returned_shape_in _ _ _ _ _ _ _ _ Hlv Hls Hin)
        as [[Hv _]|[->|[->|(_ & _ & Hin')]]]; try discriminate.
      + apply verify_not_settle in Hv. congruence.
      + eexists _, (lv ++ [EvHandlerCalled (callOf hi args) c1])%list, ls.
        split; [rewrite <- app_assoc; reflexivity|].
        split.
        * apply Forall_app. split;
            [exact (verify_prefix_quiet _ _ Hlv)|repeat constructor].
        * split; [exact Hin'|].
          intros e He.
          destruct (returned_shape_in _ _ _ _ _ _ _ _ Hlv Hls He)
            as [[Hv _]|[H|[H|(Hs & _)]]]; discriminate. }
  assert (Hnone : forall ev,
     (forall c2,
        ~ In (EvHandlerReturned c2) (trace (snd (invoke env hi cfg args c)))) ->
     In ev (trace (snd (invoke env hi cfg args c))) ->
     settle_event ev = true -> False).
  { intros ev Hno Hin Hsettle.
    destruct (Hmain ev Hin Hsettle) as (c2 & before & after & Htr & _).
    apply (Hno c2). rewrite Htr. apply in_or_app. right. left. reflexivity. }
  split; [exact Hmain|]. split.
  - intros Hno. repeat split; intros; intros Hin;
      exact (Hnone _ Hno Hin eq_refl).
  - intros e Hthrew. repeat split; intros; intros Hin;
      destruct (Hmain _ Hin eq_refl) as (_ & _ & _ & _ & _ & _ & Hnot);
      exact (Hnot e Hthrew).
Qed.

Lemma no_settlement_when_handler_throws_witness :
  (fst (invoke (Scenario.serverEnv Scenario.payingClient
                  (Scenario.mockExecute true))
          (Scenario.paidTool Scenario.boom) Scenario.config0
          Scenario.args0 Scenario.ctx0)
   = Throw (ErrorObj None "Handler execution failed: boom")
   /\ ~ In EvSettlePayment
          (trace (snd (invoke (Scenario.serverEnv Scenario.payingClient
                                 (Scenario.mockExecute true))
                         (Scenario.paidTool Scenario.boom) Scenario.config0
                         Scenario.args0 Scenario.ctx0))))
  /\ (forall n,
        ~ In (EvSendNotification n)
             (trace (snd (invoke (Scenario.serverEnv Scenario.unawareClient
                                    (Scenario.mockExecute true))
                            (Scenario.paidTool Scenario.addNumbers)
                            Scenario.config0 Scenario.args0 Scenario.ctx0)))).
Proof.
  split; [split; [reflexivity|]|].
  - apply (proj1 (proj2 (proj2 (no_settlement_when_handler_throws
                                  (Scenario.serverEnv Scenario.payingClient
                                     (Scenario.mockExecute true))
                                  (Scenario.paidTool Scenario.boom)
                                  Scenario.config0 Scenario.args0
                                  Scenario.ctx0))
                    (ErrorObj None "boom")
                    ltac:(vm_compute; auto 6))).
  - apply (proj2 (proj2 (proj1 (proj2 (no_settlement_when_handler_throws
                                  (Scenario.serverEnv Scenario.unawareClient
                                     (Scenario.mockExecute true))
                                  (Scenario.paidTool Scenario.addNumbers)
                                  Scenario.config0 Scenario.args0
                                  Scenario.ctx0))
                    ltac:(intros c2 Hin; vm_compute in Hin;
                          destruct Hin as [H|[]]; discriminate)))).
Defined.

(** C2, as stated, fails: in the paid happy path the handler body is called
    with a context that holds both [paymentProof] and
    [paymentRequirements]. *)
Lemma handler_observes_payment_fields :
  In (EvHandlerCalled (CallArgs Scenario.args0)
        (mkCtx (Js.IdNum 7) (Some Scenario.proof0)
           (Some Scenario.requirements0)))
     (trace (snd (invoke (Scenario.serverEnv Scenario.payingClient
                            (Scenario.mockExecute true))
                    (Scenario.paidTool Scenario.addNumbers) Scenario.config0
                    Scenario.args0 Scenario.ctx0))).
Proof. vm_compute. auto 6. Qed.

(** C2, amended: on every exit path the wrapper leaves the context without
    [paymentProof] and [paymentRequirements]; while the body of a protected
    handler runs, both fields are present on its context. *)
Theorem wrapper_strips_payment_fields env hi cfg args c :
  paymentProof (extra (snd (invoke env hi cfg args c))) = None
  /\ paymentRequirements (extra (snd (invoke env hi cfg args c))) = None
  /\ (forall call c',
        HandlerRegistry.paymentOptions hi <> None ->
        In (EvHandlerCalled call c') (trace (snd (invoke env hi cfg args c))) ->
        paymentProof c' <> None /\ paymentRequirements c' <> None).
Proof.
  destruct (invoke_shape env hi cfg args c) as (Hp & Hq & lv & Hlv & Hshape).
  split; [exact Hp|]. split; [exact Hq|].
  intros call c' Hprot Hin.
  destruct Hshape
    as [[Htr _] | [(c1 & e0 & Htr & _ & _ & _ & Hc)
                  | (c1 & ls & Htr & Hls & _ & Hc & _)]];
    rewrite Htr in Hin.
  - destruct (Forall_fst_in _ _ _ _ Hlv Hin) as [Hv _]. discriminate.
  - destruct (threw_shape_in _ _ _ _ _ _ Hlv Hin) as [[Hv _]|[H|H]];
      try discriminate.
    injection H as _ ->. auto.
  - destruct (returned_shape_in _ _ _ _ _ _ _ _ Hlv Hls Hin)
      as [[Hv _]|[H|[H|(Hs & _)]]]; try discriminate.
    injection H as _ ->. auto.
Qed.

Lemma wrapper_strips_payment_fields_witness :
  let r := invoke (Scenario.serverEnv Scenario.payingClient
                     (Scenario.mockExecute true))
             (Scenario.paidTool Scenario.addNumbers) Scenario.config0
             Scenario.args0 Scenario.ctx0 in
  paymentProof (extra (snd r)) = None
  /\ paymentRequirements (extra (snd r)) = None
  /\ paymentProof (mkCtx (Js.IdNum 7) (Some Scenario.proof0)
                     (Some Scenario.requirements0)) <> None.
Proof.
  destruct (wrapper_strips_payment_fields
              (Scenario.serverEnv Scenario.payingClient
                 (Scenario.mockExecute true))
              (Scenario.paidTool Scenario.addNumbers) Scenario.config0
              Scenario.args0 Scenario.ctx0) as (H1 & H2 & H3).
  split; [exact H1|]. split; [exact H2|].
  refine (proj1 (H3 (CallArgs Scenario.args0) _ _ _)).
  - simpl. discriminate.
  - vm_compute. auto 6.
Defined.

Lemma isMethodNotFoundError_intro e :
  Err.codeOf e = Some (NumCode (-32601))
  \/ (exists m, Err.messageField e = Some m
                /\ (Js.includes "Method not found" m = true
                    \/ Js.includes "method not found" m = true)) ->
  isMethodNotFoundError e = true.
Proof.
  unfold isMethodNotFoundError, Err.codeIs.
  intros [Hc | (m & Hm & [Hi | Hi])].
  - rewrite Hc. reflexivity.
  - rewrite Hm, Hi. apply orb_true_iff. left. apply orb_true_r.
  - rewrite Hm, Hi. apply orb_true_r.
Qed.

(** The error that the verify phase raises for a failed sub-RPC. *)
Lemma validatePayment_transport_error env name reqs s e :
  sendRequest env (buildPaymentRequest (requestId (extra s)) reqs) = Throw e ->
  validatePayment env name reqs s =
  (Throw
     (if isMethodNotFoundError e then
        PaymentError ERROR_CODES.PAYMENT_REQUIRED
          ("Payment required: "
             ++ (if Js.truthy (PaymentRequirements.description reqs)
                 then PaymentRequirements.description reqs
                 else "Payment is required for this operation"))
          (PaymentRequiredDetails (PaymentRequirements.maxAmountRequired reqs)
             (PaymentRequirements.asset reqs) (options_payTo env)
             (options_network env))
      else
        match e with
        | Nullish rendering =>
            PaymentError ERROR_CODES.PAYMENT_INVALID
              ("Payment validation failed: "
                 ++ Err.cannotRead rendering "code") NoDetails
        | _ =>
            PaymentError (Err.codeOr e ERROR_CODES.PAYMENT_INVALID)
              "Failed to send payment request" (CauseDetails e)
        end),
   mkState (extra s)
     (trace s ++ [EvSendRequest
                    (buildPaymentRequest (requestId (extra s)) reqs)])).
Proof.
  intros Hsend.
  unfold validatePayment, sendPaymentRequiredRequest. step_eff. simpl.
  rewrite Hsend. destruct (isMethodNotFoundError e); [reflexivity|].
  destruct e; reflexivity.
Qed.

(** C6: a sub-RPC failure with code -32601, or with a message that says
    method not found, makes the verify phase raise PAYMENT_REQUIRED (40200)
    with details amount, asset, paymentAddress and network. *)
Theorem method_not_found_raises_payment_required env name reqs s e :
  sendRequest env (buildPaymentRequest (requestId (extra s)) reqs) = Throw e ->
  (Err.codeOf e = Some (NumCode (-32601))
   \/ (exists m, Err.messageField e = Some m
                 /\ (Js.includes "Method not found" m = true
                     \/ Js.includes "method not found" m = true))) ->
  exists message,
    fst (validatePayment env name reqs s) =
    Throw (PaymentError 40200 message
             (PaymentRequiredDetails
                (PaymentRequirements.maxAmountRequired reqs)
                (PaymentRequirements.asset reqs)
                (options_payTo env) (options_network env)))
    /\ ERROR_CODES.PAYMENT_REQUIRED = 40200.
Proof.
  intros Hsend Hnf.
  rewrite (validatePayment_transport_error env name reqs s e Hsend).
  rewrite (isMethodNotFoundError_intro e Hnf). simpl.
  eexists. split; reflexivity.
Qed.

Lemma method_not_found_raises_payment_required_witness :
  exists message,
    fst (validatePayment
           (Scenario.serverEnv Scenario.unawareClient
              (Scenario.mockExecute true))
           "add-numbers" Scenario.requirements0 (mkState Scenario.ctx0 [])) =
    Throw (PaymentError 40200 message
             (PaymentRequiredDetails "1000" "0xUSDC" "0xPayee" "base-sepolia"))
    /\ ERROR_CODES.PAYMENT_REQUIRED = 40200.
Proof.
  apply (method_not_found_raises_payment_required
           (Scenario.serverEnv Scenario.unawareClient
              (Scenario.mockExecute true))
           "add-numbers" Scenario.requirements0 (mkState Scenario.ctx0 [])
           (ErrorObj (Some (NumCode (-32601)))
              "MCP error -32601: Method not found")).
  - reflexivity.
  - left. reflexivity.
Defined.

(** C7, as stated, fails: an error response that carries the guardrail code
    40210 makes the verify phase fail with code 40210, not 40201. *)
Lemma guardrail_code_is_passed_through :
  fst (validatePayment
         (Scenario.serverEnv Scenario.refusingClient
            (Scenario.mockExecute true))
         "add-numbers" Scenario.requirements0 (mkState Scenario.ctx0 [])) =
  Throw (PaymentError 40210 "Failed to send payment request"
           (CauseDetails
              (ErrorObj (Some (NumCode 40210))
                 "Payment exceeds max per-call limit: $0.001 > $0.0005")))
  /\ isMethodNotFoundError
       (ErrorObj (Some (NumCode 40210))
          "Payment exceeds max per-call limit: $0.001 > $0.0005") = false
  /\ 40210 <> ERROR_CODES.PAYMENT_INVALID.
Proof. split; [reflexivity|]. split; [reflexivity|discriminate]. Qed.

(** C7, amended: a sub-RPC failure that is not method-not-found makes the
    verify phase raise a PaymentError whose code is the [code] field of the
    transport error, whatever its type, whenever that field is truthy (a
    non-zero number such as 40210, a non-empty string such as ECONNRESET),
    with message "Failed to send payment request" and the error as details;
    the code is PAYMENT_INVALID (40201) when the error has no code or a falsy
    one, and when the rejection value is [null] or [undefined]. *)
Theorem other_transport_error_keeps_its_code env name reqs s e :
  sendRequest env (buildPaymentRequest (requestId (extra s)) reqs) = Throw e ->
  isMethodNotFoundError e = false ->
  fst (validatePayment env name reqs s) =
  Throw (match e with
         | Nullish rendering =>
             PaymentError 40201
               ("Payment validation failed: "
                  ++ Err.cannotRead rendering "code") NoDetails
         | _ =>
             PaymentError
               (match Err.codeOf e with
                | Some code => if Err.codeTruthy code then code
                               else NumCode 40201
                | None => NumCode 40201
                end)
               "Failed to send payment request" (CauseDetails e)
         end).
Proof.
  intros Hsend Hnf.
  rewrite (validatePayment_transport_error env name reqs s e Hsend).
  rewrite Hnf. destruct e; reflexivity.
Qed.

Lemma other_transport_error_keeps_its_code_witness :
  fst (validatePayment
         (Scenario.serverEnv Scenario.resetClient (Scenario.mockExecute true))
         "add-numbers" Scenario.requirements0 (mkState Scenario.ctx0 [])) =
  Throw (PaymentError (StrCode "ECONNRESET") "Failed to send payment request"
           (CauseDetails
              (ErrorObj (Some (StrCode "ECONNRESET")) "read ECONNRESET"))).
Proof.
  apply (other_transport_error_keeps_its_code
           (Scenario.serverEnv Scenario.resetClient
              (Scenario.mockExecute true))
           "add-numbers" Scenario.requirements0 (mkState Scenario.ctx0 [])
           (ErrorObj (Some (StrCode "ECONNRESET")) "read ECONNRESET")).
  - reflexivity.
  - reflexivity.
Defined.

(** A transport error recognised by its message alone; a string code is
    never the method-not-found code. *)
Example method_not_found_by_message :
  isMethodNotFoundError (Thrown None (Some "Error: method not found") "[object Object]")
  = true
  /\ isMethodNotFoundError
       (ErrorObj (Some (NumCode (-32000))) "Connection closed") = false
  /\ isMethodNotFoundError
       (ErrorObj (Some (StrCode "-32601")) "Connection closed") = false.
Proof. repeat split; reflexivity. Qed.

(** [settlePayment] on a context that holds proof and requirements, when the
    session delivers notifications without throwing. *)
Lemma settlePayment_outcome env s p q :
  (forall n, sendNotification env n = Ok tt) ->
  paymentProof (extra s) = Some p ->
  paymentRequirements (extra s) = Some q ->
  settlePayment env s =
  match facilitator_executePayment env p q with
  | Ok res =>
      if PaymentResult.success res then
        (Ok tt,
         mkState (extra s)
           (trace s ++
            [EvSettlePayment; EvExecutePayment p q;
             EvSendNotification
               (PaymentResultNotification.mk "x402/payment_result" true
                  (PaymentResult.transaction res) (PaymentResult.network res)
                  (requestId (extra s)) (PaymentResult.payer res) None)]))
      else
        (Throw (executionFailed (Js.render (PaymentResult.errorReason res))),
         mkState (extra s)
           (trace s ++
            [EvSettlePayment; EvExecutePayment p q;
             EvSendNotification
               (failureNotice env (requestId (extra s))
                  ("Payment settlement failed: "
                     ++ Js.render (PaymentResult.errorReason res)))]))
  | Throw e =>
      (Throw (if Err.isPaymentError e then e
              else executionFailed (Err.messageOf e)),
       mkState (extra s)
         (trace s ++
          [EvSettlePayment; EvExecutePayment p q;
           EvSendNotification
             (failureNotice env (requestId (extra s)) (Err.messageOf e))]))
  end.
Proof.
  intros Hn Hp Hq. unfold settlePayment. step_eff. simpl.
  rewrite Hp, Hq. simpl.
  destruct (facilitator_executePayment env p q) as [res|e]; simpl.
  - destruct (PaymentResult.success res); simpl; rewrite Hn; simpl;
      rewrite <- ?app_assoc; reflexivity.
  - rewrite Hn. simpl. rewrite <- ?app_assoc.
    destruct (Err.isPaymentError e); reflexivity.
Qed.

(** [settlePayment] on a context from which the proof or the requirements
    are gone: nothing is executed, the failure is notified and raised. *)
Lemma settlePayment_without_proof env s :
  (forall n, sendNotification env n = Ok tt) ->
  paymentProof (extra s) = None \/ paymentRequirements (extra s) = None ->
  settlePayment env s =
  (Throw proofMissing,
   mkState (extra s)
     (trace s ++
      [EvSettlePayment;
       EvSendNotification
         (failureNotice env (requestId (extra s))
            "Payment proof or requirements not found in context")])).
Proof.
  intros Hn Hgone. unfold settlePayment. step_eff. simpl.
  destruct (paymentProof (extra s)) as [p|];
    [destruct (paymentRequirements (extra s)) as [q|];
     [destruct Hgone; discriminate|]|];
    simpl; rewrite Hn; simpl; rewrite <- ?app_assoc; reflexivity.
Qed.

Lemma notifications_app l1 l2 :
  notifications (l1 ++ l2) = (notifications l1 ++ notifications l2)%list.
Proof.
  induction l1 as [|ev l1 IH]; [reflexivity|].
  destruct ev; simpl; rewrite IH; reflexivity.
Qed.

Lemma notifications_verify rid lv :
  Forall (fun ev => verify_event ev = true /\ carries rid ev) lv ->
  notifications lv = [].
Proof.
  induction 1 as [|ev l [Hv _] _ IH]; [reflexivity|].
  destruct ev; simpl in *; try discriminate; exact IH.
Qed.

Lemma in_notifications n tr :
  In (EvSendNotification n) tr <-> In n (notifications tr).
Proof.
  induction tr as [|ev tr IH]; [simpl; tauto|].
  destruct ev; simpl; rewrite <- IH;
    try (split; [intros [H|H]; [discriminate|exact H] | auto]).
  split; intros [H|H]; auto; left; congruence.
Qed.

(** The context that the handler left behind, when it returned. *)
Lemma returned_context env hi cfg args c c2 :
  In (EvHandlerReturned c2) (trace (snd (invoke env hi cfg args c))) ->
  exists c1,
    c2 = snd (HandlerRegistry.handler hi (callOf hi args) c1)
    /\ requestId c1 = requestId c
    /\ (HandlerRegistry.paymentOptions hi <> None ->
        paymentProof c1 <> None /\ paymentRequirements c1 <> None).
Proof.
  destruct (invoke_shape env hi cfg args c) as (_ & _ & lv & Hlv & Hshape).
  destruct Hshape
    as [[Htr _] | [(c1 & e0 & Htr & _) | (c1 & ls & Htr & Hls & Hrid & Hc & _)]];
    rewrite Htr; intros Hin.
  - destruct (Forall_fst_in _ _ _ _ Hlv Hin) as [Hv _]. discriminate.
  - destruct (threw_shape_in _ _ _ _ _ _ Hlv Hin) as [[Hv _]|[H|H]];
      discriminate.
  - destruct (returned_shape_in _ _ _ _ _ _ _ _ Hlv Hls Hin)
      as [[Hv _]|[H|[H|(Hs & _)]]]; try discriminate.
    injection H as ->. exists c1. auto.
Qed.

(** One invocation under reliable notification delivery: either nothing is
    notified or executed, or the handler returned and the single notification
    and the outcome are those of [settlePayment] on the context that the
    handler left. *)
Lemma invoke_settlement env hi cfg args c :
  (forall n, sendNotification env n = Ok tt) ->
  (notifications (trace (snd (invoke env hi cfg args c))) = []
   /\ forall p q,
        ~ In (EvExecutePayment p q) (trace (snd (invoke env hi cfg args c))))
  \/ exists c2,
       In (EvHandlerReturned c2) (trace (snd (invoke env hi cfg args c)))
       /\ match paymentProof c2, paymentRequirements c2 with
          | Some p, Some q =>
              (forall p' q',
                 In (EvExecutePayment p' q')
                    (trace (snd (invoke env hi cfg args c)))
                 -> p' = p /\ q' = q)
              /\ match facilitator_executePayment env p q with
                 | Ok res =>
                     if PaymentResult.success res then
                       (exists result,
                          fst (invoke env hi cfg args c) = Ok result)
                       /\ notifications
                            (trace (snd (invoke env hi cfg args c))) =
                          [PaymentResultNotification.mk "x402/payment_result"
                             true (PaymentResult.transaction res)
                             (PaymentResult.network res) (requestId c2)
                             (PaymentResult.payer res) None]
                     else
                       fst (invoke env hi cfg args c) =
                       Throw (executionFailed
                                (Js.render (PaymentResult.errorReason res)))
                       /\ notifications
                            (trace (snd (invoke env hi cfg args c))) =
                          [failureNotice env (requestId c2)
                             ("Payment settlement failed: "
                                ++ Js.render (PaymentResult.errorReason res))]
                 | Throw e =>
                     fst (invoke env hi cfg args c) =
                     Throw (if Err.isPaymentError e then e
                            else executionFailed (Err.messageOf e))
                     /\ notifications
                          (trace (snd (invoke env hi cfg args c))) =
                        [failureNotice env (requestId c2) (Err.messageOf e)]
                 end
          | _, _ =>
              (forall p q,
                 ~ In (EvExecutePayment p q)
                      (trace (snd (invoke env hi cfg args c))))
              /\ fst (invoke env hi cfg args c) = Throw proofMissing
              /\ notifications (trace (snd (invoke env hi cfg args c))) =
                 [failureNotice env (requestId c2)
                    "Payment proof or requirements not found in context"]
          end.
Proof.
  intros Hn.
  assert (Hquiet : forall lv l,
            Forall (fun ev => verify_event ev = true
                              /\ carries (requestId c) ev) lv ->
            (forall ev, In ev l -> settle_event ev = false) ->
            notifications (lv ++ l) = []
            /\ forall p q, ~ In (EvExecutePayment p q) (lv ++ l)).
  { intros lv l Hlv Hl. split.
    - rewrite notifications_app, (notifications_verify _ _ Hlv). simpl.
      destruct (notifications l) as [|n ns] eqn:Hns; [reflexivity|].
      assert (Hin : In n (notifications l)) by (rewrite Hns; left; reflexivity).
      apply in_notifications in Hin. apply Hl in Hin. discriminate.
    - intros p q Hin. apply in_app_or in Hin. destruct Hin as [Hin|Hin].
      + destruct (Forall_fst_in _ _ _ _ Hlv Hin) as [Hv _]. discriminate.
      + apply Hl in Hin. discriminate. }
  destruct (HandlerRegistry.paymentOptions hi) as [po|] eqn:Hpo.
  - rewrite (invoke_protected env hi cfg args c po Hpo).
    destruct (assemblePaymentRequirements env po _ cfg _) as [reqs|e0].
    + destruct (validatePayment_spec env (HandlerRegistry.name hi) reqs
                  (mkState c [])) as (lv & Htr & Hlv & Hrid & Hres).
      destruct (validatePayment env _ reqs _) as [[u|e] s1]; simpl in *.
      * clear Hres.
        destruct (HandlerRegistry.handler hi (callOf hi args) (extra s1))
          as [[res|e] c2].
        -- right. exists c2.
           assert (Hnote : forall tail,
                     notifications
                       ((lv ++ [EvHandlerCalled (callOf hi args) (extra s1);
                                EvHandlerReturned c2]) ++ EvSettlePayment :: tail)
                     = notifications tail).
           { intros tail. rewrite !notifications_app.
             rewrite (notifications_verify _ _ Hlv). reflexivity. }
           assert (Hexec : forall tail p' q',
                     In (EvExecutePayment p' q')
                        ((lv ++ [EvHandlerCalled (callOf hi args) (extra s1);
                                 EvHandlerReturned c2]) ++
                         EvSettlePayment :: tail) ->
                     In (EvExecutePayment p' q') tail).
           { intros tail p' q' Hin. rewrite <- app_assoc in Hin.
             apply in_app_or in Hin. destruct Hin as [Hin|Hin].
             - destruct (Forall_fst_in _ _ _ _ Hlv Hin) as [Hv _]. discriminate.
             - simpl in Hin.
               destruct Hin as [H|[H|[H|Hin]]]; try discriminate. exact Hin. }
           assert (Hret : forall tail,
                     In (EvHandlerReturned c2)
                        ((lv ++ [EvHandlerCalled (callOf hi args) (extra s1);
                                 EvHandlerReturned c2]) ++ tail)).
           { intros tail. apply in_or_app. left. apply in_or_app. right.
             right. left. reflexivity. }
           destruct (paymentProof c2) as [p|] eqn:Hp;
             [destruct (paymentRequirements c2) as [q|] eqn:Hq|].
           ++ rewrite (settlePayment_outcome env
                         (mkState c2
                            (trace s1 ++
                             [EvHandlerCalled (callOf hi args) (extra s1);
                              EvHandlerReturned c2])) p q Hn Hp Hq).
              simpl. rewrite Htr.
              destruct (facilitator_executePayment env p q) as [pr|e];
                [destruct (PaymentResult.success pr)|]; simpl;
                (split; [apply Hret|]);
                (split; [intros p' q' Hin; apply Hexec in Hin;
                         destruct Hin as [H|[H|[]]]; try discriminate;
                         injection H as <- <-; auto|]);
                (split; [|apply Hnote]); eauto.
              destruct (Err.isPaymentError e) eqn:He; [|reflexivity].
              unfold rethrow. rewrite He. reflexivity.
           ++ rewrite (settlePayment_without_proof env
                         (mkState c2
                            (trace s1 ++
                             [EvHandlerCalled (callOf hi args) (extra s1);
                              EvHandlerReturned c2])) Hn (or_intror Hq)).
              simpl. rewrite Htr.
              split; [apply Hret|].
              split; [intros p' q' Hin; apply Hexec in Hin;
                      destruct Hin as [H|[]]; discriminate|].
              split; [reflexivity|apply Hnote].
           ++ rewrite (settlePayment_without_proof env
                         (mkState c2
                            (trace s1 ++
                             [EvHandlerCalled (callOf hi args) (extra s1);
                              EvHandlerReturned c2])) Hn (or_introl Hp)).
              simpl. rewrite Htr.
              split; [apply Hret|].
              split; [intros p' q' Hin; apply Hexec in Hin;
                      destruct Hin as [H|[]]; discriminate|].
              split; [reflexivity|apply Hnote].
        -- left. simpl. rewrite Htr. apply Hquiet; [assumption|].
           intros ev [<-|[<-|[]]]; reflexivity.
      * left. simpl. rewrite Htr, <- (app_nil_r lv).
        apply Hquiet; [assumption|]. intros ev [].
    + left. simpl. split; [reflexivity|]. intros p q [].
  - left. rewrite (invoke_unprotected env hi cfg args c Hpo).
    destruct (HandlerRegistry.handler hi (callOf hi args) c) as [[res|e] c2];
      simpl; (split; [reflexivity|]); intros p q [H|[H|[]]]; discriminate.
Qed.

(** C4, as stated, fails: when the facilitator rejects the settlement by
    throwing a PaymentError of its own (here REPLAY_DETECTED), a notification
    with success=false is sent and the invocation fails with that error's
    code, 40203, not 40204.  Likewise, when the handler body has removed the
    proof from the context, the failure notification is sent and the
    invocation fails with PAYMENT_INVALID (40201). *)
Lemma failure_notification_with_other_code :
  (fst (invoke (Scenario.serverEnv Scenario.payingClient
                  Scenario.replayExecute)
          (Scenario.paidTool Scenario.addNumbers) Scenario.config0
          Scenario.args0 Scenario.ctx0) =
   Throw (PaymentError 40203 "Replay detected" NoDetails)
   /\ notifications
        (trace (snd (invoke (Scenario.serverEnv Scenario.payingClient
                               Scenario.replayExecute)
                       (Scenario.paidTool Scenario.addNumbers)
                       Scenario.config0 Scenario.args0 Scenario.ctx0))) =
      [PaymentResultNotification.mk "x402/payment_result" false None
         "base-sepolia" (Js.IdNum 7) None (Some "Replay detected")]
   /\ 40203 <> ERROR_CODES.PAYMENT_EXECUTION_FAILED)
  /\ (fst (invoke (Scenario.serverEnv Scenario.payingClient
                     (Scenario.mockExecute true))
             (Scenario.paidTool Scenario.forgetful) Scenario.config0
             Scenario.args0 Scenario.ctx0) =
      Throw (PaymentError 40201
               "Payment proof or requirements not found in context" NoDetails)
      /\ notifications
           (trace (snd (invoke (Scenario.serverEnv Scenario.payingClient
                                  (Scenario.mockExecute true))
                          (Scenario.paidTool Scenario.forgetful)
                          Scenario.config0 Scenario.args0 Scenario.ctx0))) =
         [PaymentResultNotification.mk "x402/payment_result" false None
            "base-sepolia" (Js.IdNum 7) None
            (Some "Payment proof or requirements not found in context")]
      /\ 40201 <> ERROR_CODES.PAYMENT_EXECUTION_FAILED).
Proof.
  repeat split; try reflexivity; discriminate.
Qed.

(** C4, amended: when the session delivers notifications, a notification
    with success=false is the only notification of its invocation, is sent
    only when the handler body has returned, carries [extra.requestId] as the
    handler left it (the invocation's requestId whenever the body does not
    assign it), and the invocation fails with a PaymentError: with code
    PAYMENT_EXECUTION_FAILED (40204), or with the PaymentError that the
    facilitator itself threw, or with PAYMENT_INVALID (40201) when the
    handler body left the context without [paymentProof] or
    [paymentRequirements] (which cannot happen when the body does not assign
    them).  Conversely, when [executePayment] is called and returns
    success=false or throws, exactly one notification is sent, it has
    success=false and that requestId, and the invocation raises
    PAYMENT_EXECUTION_FAILED (or the PaymentError thrown by the
    facilitator). *)
Theorem failed_settlement_notifies_and_raises env hi cfg args c :
  (forall n, sendNotification env n = Ok tt) ->
  (forall n,
     In (EvSendNotification n) (trace (snd (invoke env hi cfg args c))) ->
     PaymentResultNotification.success n = false ->
     notifications (trace (snd (invoke env hi cfg args c))) = [n]
     /\ exists c2,
          In (EvHandlerReturned c2) (trace (snd (invoke env hi cfg args c)))
          /\ PaymentResultNotification.requestId n = requestId c2
          /\ exists code message details,
               fst (invoke env hi cfg args c)
               = Throw (PaymentError code message details)
               /\ (code = NumCode 40204
                   \/ (exists p q,
                         facilitator_executePayment env p q
                         = Throw (PaymentError code message details))
                   \/ (code = NumCode 40201
                       /\ (paymentProof c2 = None
                           \/ paymentRequirements c2 = None))))
  /\ (forall p q,
        In (EvExecutePayment p q) (trace (snd (invoke env hi cfg args c))) ->
        exists c2,
          In (EvHandlerReturned c2) (trace (snd (invoke env hi cfg args c)))
          /\ paymentProof c2 = Some p
          /\ paymentRequirements c2 = Some q
          /\ (forall res,
                facilitator_executePayment env p q = Ok res ->
                PaymentResult.success res = false ->
                fst (invoke env hi cfg args c)
                = Throw (PaymentError 40204
                           ("Payment settlement failed: "
                              ++ Js.render (PaymentResult.errorReason res))
                           NoDetails)
                /\ notifications (trace (snd (invoke env hi cfg args c)))
                   = [failureNotice env (requestId c2)
                        ("Payment settlement failed: "
                           ++ Js.render (PaymentResult.errorReason res))])
          /\ (forall e,
                facilitator_executePayment env p q = Throw e ->
                fst (invoke env hi cfg args c)
                = Throw (if Err.isPaymentError e then e
                         else PaymentError 40204
                                ("Payment settlement failed: "
                                   ++ Err.messageOf e) NoDetails)
                /\ notifications (trace (snd (invoke env hi cfg args c)))
                   = [failureNotice env (requestId c2) (Err.messageOf e)]))
  /\ (forall c2,
        In (EvHandlerReturned c2) (trace (snd (invoke env hi cfg args c))) ->
        (keepsRequestId (HandlerRegistry.handler hi) ->
         requestId c2 = requestId c)
        /\ (keepsPayment (HandlerRegistry.handler hi) ->
            HandlerRegistry.paymentOptions hi <> None ->
            paymentProof c2 <> None /\ paymentRequirements c2 <> None)).
Proof.
  intros Hn. split; [|split].
  - intros n Hin Hfalse. apply in_notifications in Hin.
    destruct (invoke_settlement env hi cfg args c Hn)
      as [[Hnone _] | (c2 & Hret & Hout)].
    { rewrite Hnone in Hin. destruct Hin. }
    destruct (paymentProof c2) as [p|] eqn:Hp;
      [destruct (paymentRequirements c2) as [q|] eqn:Hq|].
    + destruct Hout as [_ Hout].
      destruct (facilitator_executePayment env p q) as [res|e] eqn:Hexec.
      * destruct (PaymentResult.success res).
        -- destruct Hout as [_ Hnote]. rewrite Hnote in Hin.
           destruct Hin as [<-|[]]. discriminate.
        -- destruct Hout as [Hres Hnote]. rewrite Hnote in Hin |- *.
           destruct Hin as [<-|[]]. split; [reflexivity|].
           exists c2. split; [exact Hret|]. split; [reflexivity|].
           do 3 eexists. split; [exact Hres|]. left; reflexivity.
      * destruct Hout as [Hres Hnote]. rewrite Hnote in Hin |- *.
        destruct Hin as [<-|[]]. split; [reflexivity|].
        exists c2. split; [exact Hret|]. split; [reflexivity|].
        destruct e as [code message details| | |]; simpl in Hres;
          do 3 eexists; (split; [exact Hres|]);
          try (left; reflexivity).
        right. left. exists p, q. exact Hexec.
    + destruct Hout as (_ & Hres & Hnote). rewrite Hnote in Hin |- *.
      destruct Hin as [<-|[]]. split; [reflexivity|].
      exists c2. split; [exact Hret|]. split; [reflexivity|].
      do 3 eexists. split; [exact Hres|]. right. right. auto.
    + destruct Hout as (_ & Hres & Hnote). rewrite Hnote in Hin |- *.
      destruct Hin as [<-|[]]. split; [reflexivity|].
      exists c2. split; [exact Hret|]. split; [reflexivity|].
      do 3 eexists. split; [exact Hres|]. right. right. auto.
  - intros p' q' Hin.
    destruct (invoke_settlement env hi cfg args c Hn)
      as [[_ Hnoexec] | (c2 & Hret & Hout)].
    { destruct (Hnoexec p' q' Hin). }
    destruct (paymentProof c2) as [p|] eqn:Hp;
      [destruct (paymentRequirements c2) as [q|] eqn:Hq|];
      [|destruct Hout as (Hnoexec & _); destruct (Hnoexec p' q' Hin)
       |destruct Hout as (Hnoexec & _); destruct (Hnoexec p' q' Hin)].
    destruct Hout as [Huniq Hout].
    destruct (Huniq p' q' Hin) as [-> ->].
    exists c2. split; [exact Hret|]. split; [exact Hp|]. split; [exact Hq|].
    split.
    + intros res Hexec Hfalse. rewrite Hexec, Hfalse in Hout. exact Hout.
    + intros e Hexec. rewrite Hexec in Hout. exact Hout.
  - intros c2 Hret.
    destruct (returned_context env hi cfg args c c2 Hret)
      as (c1 & -> & Hrid & Hc).
    split.
    + intros Hkeep. rewrite Hkeep. exact Hrid.
    + intros Hkeep Hprot.
      destruct (Hkeep (callOf hi args) c1) as [-> ->]. exact (Hc Hprot).
Qed.

Lemma failed_settlement_notifies_and_raises_witness :
  fst (invoke (Scenario.serverEnv Scenario.payingClient
                 (Scenario.mockExecute false))
         (Scenario.paidTool Scenario.addNumbers) Scenario.config0
         Scenario.args0 Scenario.ctx0)
  = Throw (PaymentError 40204
             "Payment settlement failed: unexpected_settle_error" NoDetails)
  /\ exists rid,
       notifications
         (trace (snd (invoke (Scenario.serverEnv Scenario.payingClient
                                (Scenario.mockExecute false))
                        (Scenario.paidTool Scenario.addNumbers)
                        Scenario.config0 Scenario.args0 Scenario.ctx0)))
       = [PaymentResultNotification.mk "x402/payment_result" false None
            "base-sepolia" rid None
            (Some "Payment settlement failed: unexpected_settle_error")]
       /\ rid = Js.IdNum 7.
Proof.
  destruct (failed_settlement_notifies_and_raises
              (Scenario.serverEnv Scenario.payingClient
                 (Scenario.mockExecute false))
              (Scenario.paidTool Scenario.addNumbers) Scenario.config0
              Scenario.args0 Scenario.ctx0 (fun _ => eq_refl))
    as (_ & Hexec & Hkeep).
  destruct (Hexec Scenario.proof0 Scenario.requirements0)
    as (c2 & Hret & _ & _ & Hres & _).
  - vm_compute. auto 8.
  - destruct (Hres _ eq_refl eq_refl) as [Hfail Hnote].
    split; [exact Hfail|]. exists (requestId c2). split; [exact Hnote|].
    apply (proj1 (Hkeep c2 Hret)). intros call c0. reflexivity.
Defined.
(** ** Further properties of the verify phase and the wrapper *)

(** The verify phase on a response that fails a structural check. *)
Lemma validatePayment_defect env name reqs s resp err :
  sendRequest env (buildPaymentRequest (requestId (extra s)) reqs) = Ok resp ->
  View.proofDefect resp reqs = Some err ->
  validatePayment env name reqs s
  = (Throw err,
     mkState (extra s)
       (trace s ++ [EvSendRequest
                      (buildPaymentRequest (requestId (extra s)) reqs)])).
Proof.
  intros Hsend Hdefect.
  unfold validatePayment, sendPaymentRequiredRequest, validatePaymentProof.
  step_eff. simpl. rewrite Hsend. simpl.
  unfold View.proofDefect in Hdefect.
  destruct (PaymentRequiredResponse.payment resp) as [payment|]; simpl.
  - destruct (negb (Js.truthy_opt (PaymentPayload.signature payment)));
      [injection Hdefect as <-; reflexivity|].
    destruct (negb (PaymentPayload.x402Version payment =? 1));
      [injection Hdefect as <-; reflexivity|].
    destruct (negb (String.eqb (PaymentPayload.scheme payment) "exact"));
      [injection Hdefect as <-; reflexivity|].
    destruct (negb (String.eqb (PaymentPayload.network payment)
                      (PaymentRequirements.network reqs)));
      [injection Hdefect as <-; reflexivity|discriminate].
  - injection Hdefect as <-. reflexivity.
Qed.

(** The verify phase on a response that passes the structural checks. *)
Lemma validatePayment_checked env name reqs s resp payment :
  sendRequest env (buildPaymentRequest (requestId (extra s)) reqs) = Ok resp ->
  View.wellFormedProof resp reqs = Some payment ->
  validatePayment env name reqs s
  = match facilitator_validatePayment env payment reqs with
    | Ok v =>
        if isValid v then
          (Ok tt,
           mkState (mkCtx (requestId (extra s)) (Some payment) (Some reqs))
             (trace s ++
              [EvSendRequest (buildPaymentRequest (requestId (extra s)) reqs);
               EvFacilitatorValidate payment reqs]))
        else
          (Throw (PaymentError ERROR_CODES.PAYMENT_INVALID
                    (Js.or_else (invalidReason v)
                       "Payment proof validation failed") NoDetails),
           mkState (extra s)
             (trace s ++
              [EvSendRequest (buildPaymentRequest (requestId (extra s)) reqs);
               EvFacilitatorValidate payment reqs]))
    | Throw e =>
        (Throw (if Err.isPaymentError e then e
                else PaymentError ERROR_CODES.PAYMENT_INVALID
                       ("Payment validation failed: " ++ Err.messageOf e)
                       NoDetails),
         mkState (extra s)
           (trace s ++
            [EvSendRequest (buildPaymentRequest (requestId (extra s)) reqs);
             EvFacilitatorValidate payment reqs]))
    end.
Proof.
  intros Hsend Hwf.
  unfold validatePayment, sendPaymentRequiredRequest, validatePaymentProof.
  step_eff. simpl. rewrite Hsend. simpl.
  unfold View.wellFormedProof in Hwf.
  destruct (PaymentRequiredResponse.payment resp) as [p0|]; [|discriminate].
  destruct (Js.truthy_opt (PaymentPayload.signature p0)); [|discriminate].
  destruct (PaymentPayload.x402Version p0 =? 1); [|discriminate].
  destruct (String.eqb (PaymentPayload.scheme p0) "exact"); [|discriminate].
  destruct (String.eqb (PaymentPayload.network p0)
              (PaymentRequirements.network reqs)); [|discriminate].
  simpl in Hwf. injection Hwf as ->. simpl.
  destruct (facilitator_validatePayment env payment reqs) as [v|e]; simpl.
  - destruct (isValid v); simpl; rewrite <- ?app_assoc; reflexivity.
  - rewrite <- ?app_assoc. destruct (Err.isPaymentError e); reflexivity.
Qed.

(** A response either passes the structural checks or has a defect. *)
Lemma proof_checked_or_defective resp reqs :
  (exists payment, View.wellFormedProof resp reqs = Some payment
                   /\ View.proofDefect resp reqs = None)
  \/ (exists err, View.proofDefect resp reqs = Some err
                  /\ View.wellFormedProof resp reqs = None).
Proof.
  unfold View.wellFormedProof, View.proofDefect.
  destruct (PaymentRequiredResponse.payment resp) as [p|]; [|right; eauto].
  destruct (Js.truthy_opt (PaymentPayload.signature p)); simpl;
    [|right; eauto].
  destruct (PaymentPayload.x402Version p =? 1); simpl; [|right; eauto].
  destruct (String.eqb (PaymentPayload.scheme p) "exact"); simpl;
    [|right; eauto].
  destruct (String.eqb (PaymentPayload.network p)
              (PaymentRequirements.network reqs)); simpl; [left|right]; eauto.
Qed.

(** X15: the structural checks on the returned proof, in order: a missing
    payment or signature gives PAYMENT_INVALID (40201), then a version other
    than 1 gives INVALID_REQUEST (-32600), then a scheme other than "exact"
    and then a network other than the requirement's give PAYMENT_INVALID.  In
    each case the facilitator is not consulted and the context is left
    unchanged. *)
Theorem malformed_proof_is_rejected_before_facilitator env name reqs s resp payment :
  sendRequest env (buildPaymentRequest (requestId (extra s)) reqs) = Ok resp ->
  PaymentRequiredResponse.payment resp = Some payment ->
  let rejected code message :=
    validatePayment env name reqs s
    = (Throw (PaymentError code message NoDetails),
       mkState (extra s)
         (trace s ++ [EvSendRequest
                        (buildPaymentRequest (requestId (extra s)) reqs)])) in
  (Js.truthy_opt (PaymentPayload.signature payment) = false ->
   rejected 40201 "Invalid payment proof: missing signature")
  /\ (Js.truthy_opt (PaymentPayload.signature payment) = true ->
      PaymentPayload.x402Version payment <> 1 ->
      rejected (-32600) "Invalid x402 version")
  /\ (Js.truthy_opt (PaymentPayload.signature payment) = true ->
      PaymentPayload.x402Version payment = 1 ->
      PaymentPayload.scheme payment <> "exact" ->
      rejected 40201 "Invalid payment scheme")
  /\ (Js.truthy_opt (PaymentPayload.signature payment) = true ->
      PaymentPayload.x402Version payment = 1 ->
      PaymentPayload.scheme payment = "exact" ->
      PaymentPayload.network payment <> PaymentRequirements.network reqs ->
      rejected 40201 "Invalid payment proof: network mismatch").
Proof.
  intros Hsend Hpay rejected. unfold rejected.
  repeat split; intros;
    apply (validatePayment_defect env name reqs s resp _ Hsend);
    unfold View.proofDefect; rewrite Hpay.
  - rewrite H. reflexivity.
  - rewrite H. apply Z.eqb_neq in H0. rewrite H0. reflexivity.
  - rewrite H, H0. apply String.eqb_neq in H1. rewrite H1. reflexivity.
  - rewrite H, H0, H1. apply String.eqb_neq in H2. rewrite H2. reflexivity.
Qed.

Lemma malformed_proof_is_rejected_before_facilitator_witness :
  validatePayment
    (Scenario.serverEnv
       (fun req =>
          Ok (PaymentRequiredResponse.mk (PaymentRequiredRequest.id req)
                (Some (PaymentPayload.mk 2 "exact" "base-sepolia"
                         (Some "0xsig") "authorization"))))
       (Scenario.mockExecute true))
    "add-numbers" Scenario.requirements0 (mkState Scenario.ctx0 [])
  = (Throw (PaymentError (-32600) "Invalid x402 version" NoDetails),
     mkState Scenario.ctx0
       [EvSendRequest
          (buildPaymentRequest (Js.IdNum 7) Scenario.requirements0)]).
Proof.
  destruct (malformed_proof_is_rejected_before_facilitator
              (Scenario.serverEnv
                 (fun req =>
                    Ok (PaymentRequiredResponse.mk
                          (PaymentRequiredRequest.id req)
                          (Some (PaymentPayload.mk 2 "exact" "base-sepolia"
                                   (Some "0xsig") "authorization"))))
                 (Scenario.mockExecute true))
              "add-numbers" Scenario.requirements0 (mkState Scenario.ctx0 [])
              (PaymentRequiredResponse.mk (Js.IdNum 7)
                 (Some (PaymentPayload.mk 2 "exact" "base-sepolia"
                          (Some "0xsig") "authorization")))
              (PaymentPayload.mk 2 "exact" "base-sepolia" (Some "0xsig")
                 "authorization") eq_refl eq_refl) as (_ & H & _).
  apply H; [reflexivity|discriminate].
Defined.

(** X16: the verify phase returns normally exactly when the response holds a
    payment with a non-empty signature, version 1, scheme "exact" and the
    requirement's network, and the facilitator answers isValid; it then has
    stored that payment and the requirements on the context. *)
Theorem verification_succeeds_iff env name reqs s resp :
  sendRequest env (buildPaymentRequest (requestId (extra s)) reqs) = Ok resp ->
  (fst (validatePayment env name reqs s) = Ok tt
   <-> exists payment v,
         View.wellFormedProof resp reqs = Some payment
         /\ facilitator_validatePayment env payment reqs = Ok v
         /\ isValid v = true)
  /\ (forall payment,
        View.wellFormedProof resp reqs = Some payment ->
        fst (validatePayment env name reqs s) = Ok tt ->
        extra (snd (validatePayment env name reqs s))
        = mkCtx (requestId (extra s)) (Some payment) (Some reqs)).
Proof.
  intros Hsend.
  destruct (proof_checked_or_defective resp reqs)
    as [(payment & Hwf & _) | (err & Hdef & Hwf)].
  - rewrite (validatePayment_checked env name reqs s resp payment Hsend Hwf).
    split.
    + split.
      * intros Hok. exists payment.
        destruct (facilitator_validatePayment env payment reqs) as [v|e];
          [|discriminate].
        exists v. destruct (isValid v); [auto|discriminate].
      * intros (p' & v & Hwf' & Hfac & Hvalid).
        rewrite Hwf in Hwf'. injection Hwf' as <-.
        rewrite Hfac, Hvalid. reflexivity.
    + intros p' Hwf' Hok. rewrite Hwf in Hwf'. injection Hwf' as <-.
      destruct (facilitator_validatePayment env payment reqs) as [v|e];
        [|discriminate].
      destruct (isValid v); [reflexivity|discriminate].
  - rewrite (validatePayment_defect env name reqs s resp err Hsend Hdef).
    split.
    + split; [discriminate|].
      intros (p' & v & Hwf' & _). congruence.
    + intros p' Hwf'. congruence.
Qed.

Lemma verification_succeeds_iff_witness :
  fst (validatePayment
         (Scenario.serverEnv Scenario.payingClient (Scenario.mockExecute true))
         "add-numbers" Scenario.requirements0 (mkState Scenario.ctx0 []))
  = Ok tt.
Proof.
  apply (proj1 (verification_succeeds_iff
                  (Scenario.serverEnv Scenario.payingClient
                     (Scenario.mockExecute true))
                  "add-numbers" Scenario.requirements0
                  (mkState Scenario.ctx0 [])
                  (PaymentRequiredResponse.mk (Js.IdNum 7)
                     (Some Scenario.proof0)) eq_refl)).
  exists Scenario.proof0, (mkValidation true None (Some "0x1234")).
  repeat split.
Defined.

(** X17: when the facilitator refuses a well-formed proof, the verify phase
    raises PAYMENT_INVALID (40201) with the facilitator's reason (or a
    default text); when the facilitator throws, a PaymentError is passed on
    as it is and anything else becomes PAYMENT_INVALID "Payment validation
    failed: ...".  The context is left without proof in both cases. *)
Theorem facilitator_refusal_fails_verification env name reqs s resp payment :
  sendRequest env (buildPaymentRequest (requestId (extra s)) reqs) = Ok resp ->
  View.wellFormedProof resp reqs = Some payment ->
  (forall v,
     facilitator_validatePayment env payment reqs = Ok v ->
     isValid v = false ->
     fst (validatePayment env name reqs s)
     = Throw (PaymentError 40201
                (Js.or_else (invalidReason v) "Payment proof validation failed")
                NoDetails)
     /\ extra (snd (validatePayment env name reqs s)) = extra s)
  /\ (forall e,
        facilitator_validatePayment env payment reqs = Throw e ->
        fst (validatePayment env name reqs s)
        = Throw (if Err.isPaymentError e then e
                 else PaymentError 40201
                        ("Payment validation failed: " ++ Err.messageOf e)
                        NoDetails)
        /\ extra (snd (validatePayment env name reqs s)) = extra s).
Proof.
  intros Hsend Hwf.
  rewrite (validatePayment_checked env name reqs s resp payment Hsend Hwf).
  split.
  - intros v Hfac Hinvalid. rewrite Hfac, Hinvalid. split; reflexivity.
  - intros e Hfac. rewrite Hfac. split; reflexivity.
Qed.

Lemma facilitator_refusal_fails_verification_witness :
  fst (validatePayment
         (mkEnv Scenario.payingClient (fun _ => Ok tt)
            (MockFacilitatorService.validatePayment
               (MockFacilitatorService.mk false true "mock-tx-hash"))
            (MockFacilitatorService.executePayment
               (MockFacilitatorService.mk false true "mock-tx-hash"))
            (fun _ _ => Ok (PriceOk "1000" "0xUSDC" None))
            (fun path base => Ok (base ++ path)) (fun _ => "0.001")
            "0xPayee" "base-sepolia")
         "add-numbers" Scenario.requirements0 (mkState Scenario.ctx0 []))
  = Throw (PaymentError 40201 "Mock validation failed" NoDetails).
Proof.
  apply (proj1 (proj1 (facilitator_refusal_fails_verification
                  (mkEnv Scenario.payingClient (fun _ => Ok tt)
                     (MockFacilitatorService.validatePayment
                        (MockFacilitatorService.mk false true "mock-tx-hash"))
                     (MockFacilitatorService.executePayment
                        (MockFacilitatorService.mk false true "mock-tx-hash"))
                     (fun _ _ => Ok (PriceOk "1000" "0xUSDC" None))
                     (fun path base => Ok (base ++ path)) (fun _ => "0.001")
                     "0xPayee" "base-sepolia")
                  "add-numbers" Scenario.requirements0
                  (mkState Scenario.ctx0 [])
                  (PaymentRequiredResponse.mk (Js.IdNum 7)
                     (Some Scenario.proof0))
                  Scenario.proof0 eq_refl eq_refl)
           (mkValidation false (Some "Mock validation failed") None)
           eq_refl eq_refl)).
Defined.

(** A protected invocation whose verify phase goes through. *)
Lemma invoke_verified env hi cfg args c po reqs resp payment v :
  HandlerRegistry.paymentOptions hi = Some po ->
  assemblePaymentRequirements env po ("/tools/" ++ HandlerRegistry.name hi)
    cfg (baseUrl cfg) = Ok reqs ->
  sendRequest env (buildPaymentRequest (requestId c) reqs) = Ok resp ->
  View.wellFormedProof resp reqs = Some payment ->
  facilitator_validatePayment env payment reqs = Ok v ->
  isValid v = true ->
  invoke env hi cfg args c
  = match HandlerRegistry.handler hi (callOf hi args)
            (mkCtx (requestId c) (Some payment) (Some reqs)) with
    | (Throw e, c2) =>
        (Throw (rethrow e),
         mkState (mkCtx (requestId c2) None None)
           [EvSendRequest (buildPaymentRequest (requestId c) reqs);
            EvFacilitatorValidate payment reqs;
            EvHandlerCalled (callOf hi args)
              (mkCtx (requestId c) (Some payment) (Some reqs));
            EvHandlerThrew e])
    | (Ok res, c2) =>
        match settlePayment env
                (mkState c2
                   [EvSendRequest (buildPaymentRequest (requestId c) reqs);
                    EvFacilitatorValidate payment reqs;
                    EvHandlerCalled (callOf hi args)
                      (mkCtx (requestId c) (Some payment) (Some reqs));
                    EvHandlerReturned c2]) with
        | (Ok _, s2) => (Ok res, stripPayment s2)
        | (Throw e, s2) => (Throw (rethrow e), stripPayment s2)
        end
    end.
Proof.
  intros Hpo Hasm Hsend Hwf Hfac Hvalid.
  rewrite (invoke_protected env hi cfg args c po Hpo). rewrite Hasm.
  rewrite (validatePayment_checked env (HandlerRegistry.name hi) reqs
             (mkState c []) resp payment Hsend Hwf).
  rewrite Hfac, Hvalid. simpl.
  destruct (HandlerRegistry.handler hi (callOf hi args)
              (mkCtx (requestId c) (Some payment) (Some reqs)))
    as [[res|e] c2]; reflexivity.
Qed.

(** A protected invocation either passes the verify phase, or fails before
    the handler with verify events only. *)
Lemma protected_dichotomy env hi cfg args c po :
  HandlerRegistry.paymentOptions hi = Some po ->
  (exists reqs resp payment v,
     assemblePaymentRequirements env po ("/tools/" ++ HandlerRegistry.name hi)
       cfg (baseUrl cfg) = Ok reqs
     /\ sendRequest env (buildPaymentRequest (requestId c) reqs) = Ok resp
     /\ View.wellFormedProof resp reqs = Some payment
     /\ facilitator_validatePayment env payment reqs = Ok v
     /\ isValid v = true)
  \/ ((forall ev, In ev (trace (snd (invoke env hi cfg args c))) ->
                  verify_event ev = true)
      /\ exists e, fst (invoke env hi cfg args c) = Throw e).
Proof.
  intros Hpo.
  destruct (assemblePaymentRequirements env po
              ("/tools/" ++ HandlerRegistry.name hi) cfg (baseUrl cfg))
    as [reqs|e0] eqn:Hasm.
  2:{ right. rewrite (invoke_protected env hi cfg args c po Hpo), Hasm.
      simpl. split; [intros ev []|eauto]. }
  destruct (sendRequest env (buildPaymentRequest (requestId c) reqs))
    as [resp|e] eqn:Hsend.
  2:{ right. rewrite (invoke_protected env hi cfg args c po Hpo), Hasm.
      rewrite (validatePayment_transport_error env _ reqs (mkState c []) e
                 Hsend).
      simpl. split; [|eauto]. intros ev [<-|[]]. reflexivity. }
  destruct (proof_checked_or_defective resp reqs)
    as [(payment & Hwf & _) | (err & Hdef & _)].
  2:{ right. rewrite (invoke_protected env hi cfg args c po Hpo), Hasm.
      rewrite (validatePayment_defect env _ reqs (mkState c []) resp err
                 Hsend Hdef).
      simpl. split; [|eauto]. intros ev [<-|[]]. reflexivity. }
  destruct (facilitator_validatePayment env payment reqs) as [v|e] eqn:Hfac.
  - destruct (isValid v) eqn:Hvalid.
    + left. exists reqs, resp, payment, v. auto.
    + right. rewrite (invoke_protected env hi cfg args c po Hpo), Hasm.
      rewrite (validatePayment_checked env _ reqs (mkState c []) resp payment
                 Hsend Hwf).
      rewrite Hfac, Hvalid. simpl. split; [|eauto].
      intros ev [<-|[<-|[]]]; reflexivity.
  - right. rewrite (invoke_protected env hi cfg args c po Hpo), Hasm.
    rewrite (validatePayment_checked env _ reqs (mkState c []) resp payment
               Hsend Hwf).
    rewrite Hfac. simpl. split; [|eauto].
    intros ev [<-|[<-|[]]]; reflexivity.
Qed.

(** X18: the body of a protected handler runs only after verification: when
    it is called, the challenge was answered with a well-formed proof that
    the facilitator accepted, the only events before the call are the
    challenge and the facilitator's validation, and the handler's context
    holds that proof and the requirements under the invocation's request
    id. *)
Theorem protected_handler_runs_only_after_verification
  env hi cfg args c po call c' :
  HandlerRegistry.paymentOptions hi = Some po ->
  In (EvHandlerCalled call c') (trace (snd (invoke env hi cfg args c))) ->
  exists reqs resp payment v,
    assemblePaymentRequirements env po ("/tools/" ++ HandlerRegistry.name hi)
      cfg (baseUrl cfg) = Ok reqs
    /\ sendRequest env (buildPaymentRequest (requestId c) reqs) = Ok resp
    /\ View.wellFormedProof resp reqs = Some payment
    /\ facilitator_validatePayment env payment reqs = Ok v
    /\ isValid v = true
    /\ c' = mkCtx (requestId c) (Some payment) (Some reqs)
    /\ View.beforeHandler (trace (snd (invoke env hi cfg args c)))
       = [EvSendRequest (buildPaymentRequest (requestId c) reqs);
          EvFacilitatorValidate payment reqs].
Proof.
  intros Hpo Hin.
  destruct (protected_dichotomy env hi cfg args c po Hpo)
    as [(reqs & resp & payment & v & Hasm & Hsend & Hwf & Hfac & Hvalid)
       | (Hverify & _)].
  2:{ specialize (Hverify _ Hin). discriminate. }
  exists reqs, resp, payment, v. repeat (split; [assumption|]).
  rewrite (invoke_verified env hi cfg args c po reqs resp payment v
             Hpo Hasm Hsend Hwf Hfac Hvalid) in Hin |- *.
  destruct (HandlerRegistry.handler hi (callOf hi args)
              (mkCtx (requestId c) (Some payment) (Some reqs)))
    as [[res|e] c2].
  - match goal with
    | _ : context [settlePayment env ?s] |- _ =>
        destruct (settlePayment_spec env s) as (ls & Hts & Hls & _);
        destruct (settlePayment env s) as [[u|e] s2]
    end; simpl in *; rewrite Hts in Hin |- *; simpl in *;
      (split; [|reflexivity]);
      destruct Hin as [H|[H|[H|[H|[H|Hin]]]]]; try discriminate;
      try (injection H as _ <-; reflexivity);
      destruct (Forall_fst_in _ _ _ _ Hls Hin) as [Hs _]; discriminate.
  - simpl in *. split; [|reflexivity].
    destruct Hin as [H|[H|[H|[H|[]]]]]; try discriminate.
    injection H as _ <-. reflexivity.
Qed.

Lemma protected_handler_runs_only_after_verification_witness :
  View.beforeHandler
    (trace (snd (invoke (Scenario.serverEnv Scenario.payingClient
                           (Scenario.mockExecute true))
                   (Scenario.paidTool Scenario.addNumbers) Scenario.config0
                   Scenario.args0 Scenario.ctx0)))
  = [EvSendRequest (buildPaymentRequest (Js.IdNum 7) Scenario.requirements0);
     EvFacilitatorValidate Scenario.proof0 Scenario.requirements0].
Proof.
  destruct (protected_handler_runs_only_after_verification
              (Scenario.serverEnv Scenario.payingClient
                 (Scenario.mockExecute true))
              (Scenario.paidTool Scenario.addNumbers) Scenario.config0
              Scenario.args0 Scenario.ctx0
              (PaymentOptions.mk (Js.Finite (1 # 1000))
                 (Some "Add two numbers"))
              (CallArgs Scenario.args0)
              (mkCtx (Js.IdNum 7) (Some Scenario.proof0)
                 (Some Scenario.requirements0)))
    as (reqs & resp & payment & v & Hasm & _ & _ & _ & _ & Hc & Hbefore).
  - reflexivity.
  - vm_compute. auto 6.
  - injection Hc as <- <-. exact Hbefore.
Defined.

(** Settlement with proof and requirements on the context: one execution,
    then notifications only. *)
Lemma settlePayment_with_proof env s p q :
  paymentProof (extra s) = Some p ->
  paymentRequirements (extra s) = Some q ->
  exists l,
    trace (snd (settlePayment env s))
    = (trace s ++ EvSettlePayment :: EvExecutePayment p q :: l)%list
    /\ Forall (fun ev => exists n, ev = EvSendNotification n) l.
Proof.
  intros Hp Hq. unfold settlePayment. step_eff. simpl.
  rewrite Hp, Hq. simpl.
  destruct (facilitator_executePayment env p q) as [res|e]; simpl.
  - destruct (PaymentResult.success res); simpl.
    + destruct (sendNotification env _) as [|e1]; simpl.
      * rewrite <- ?app_assoc. eexists. split; [reflexivity|].
        repeat constructor; eauto.
      * destruct (sendNotification env _) as [|e2]; simpl;
          [destruct (Err.isPaymentError e1)|]; simpl; rewrite <- ?app_assoc;
          (eexists; split; [reflexivity|]); repeat constructor; eauto.
    + destruct (sendNotification env _) as [|e2]; simpl; rewrite <- ?app_assoc;
        (eexists; split; [reflexivity|]); repeat constructor; eauto.
  - destruct (sendNotification env _) as [|e2]; simpl;
      [destruct (Err.isPaymentError e)|]; simpl; rewrite <- ?app_assoc;
      (eexists; split; [reflexivity|]); repeat constructor; eauto.
Qed.

(** Settlement on a context without proof or requirements: notifications
    only. *)
Lemma settlePayment_proof_gone env s :
  paymentProof (extra s) = None \/ paymentRequirements (extra s) = None ->
  exists l,
    trace (snd (settlePayment env s)) = (trace s ++ EvSettlePayment :: l)%list
    /\ Forall (fun ev => exists n, ev = EvSendNotification n) l.
Proof.
  intros Hgone. unfold settlePayment. step_eff. simpl.
  destruct (paymentProof (extra s)) as [p|];
    [destruct (paymentRequirements (extra s)) as [q|];
     [destruct Hgone; discriminate|]|];
    simpl; destruct (sendNotification env _) as [|e2]; simpl;
    rewrite <- ?app_assoc; (eexists; split; [reflexivity|]);
    repeat constructor; eauto.
Qed.

Lemma executions_notifications l :
  Forall (fun ev => exists n, ev = EvSendNotification n) l ->
  View.executions l = 0%nat.
Proof.
  unfold View.executions.
  induction 1 as [|ev l [n ->] _ IH]; simpl; [reflexivity|exact IH].
Qed.

Lemma executions_verify_only tr :
  (forall ev, In ev tr -> verify_event ev = true) ->
  View.executions tr = 0%nat.
Proof.
  unfold View.executions. induction tr as [|ev tr IH]; intros H;
    [reflexivity|].
  simpl. pose proof (H ev (or_introl eq_refl)) as Hev.
  destruct ev; try discriminate; simpl; apply IH; intros ev' Hin;
    apply H; right; exact Hin.
Qed.

Lemma not_in_notifications l p q :
  Forall (fun ev => exists n, ev = EvSendNotification n) l ->
  ~ In (EvExecutePayment p q) l.
Proof.
  intros Hl Hin. rewrite Forall_forall in Hl.
  destruct (Hl _ Hin) as [n Hn]. discriminate.
Qed.

(** X19: a payment is executed at most once per invocation, right after the
    handler body returned and [settlePayment] was called, and what is handed
    to [executePayment] are the proof and the requirements found on the
    context as the body left it; when the body does not assign these fields,
    they are the ones that the facilitator validated before the body ran. *)
Theorem payment_is_executed_at_most_once env hi cfg args c :
  (View.executions (trace (snd (invoke env hi cfg args c))) <= 1)%nat
  /\ forall p q,
       In (EvExecutePayment p q) (trace (snd (invoke env hi cfg args c))) ->
       exists before c2 after,
         trace (snd (invoke env hi cfg args c))
         = (before ++ EvHandlerReturned c2 :: EvSettlePayment
              :: EvExecutePayment p q :: after)%list
         /\ paymentProof c2 = Some p
         /\ paymentRequirements c2 = Some q
         /\ View.executions before = 0%nat
         /\ View.executions after = 0%nat
         /\ (keepsPayment (HandlerRegistry.handler hi) ->
             In (EvFacilitatorValidate p q) before).
Proof.
  destruct (HandlerRegistry.paymentOptions hi) as [po|] eqn:Hpo.
  2:{ rewrite (invoke_unprotected env hi cfg args c Hpo).
      destruct (HandlerRegistry.handler hi (callOf hi args) c)
        as [[res|e] c2]; simpl;
        (split; [unfold View.executions; simpl; lia|]);
        intros p q [H|[H|[]]]; discriminate. }
  destruct (protected_dichotomy env hi cfg args c po Hpo)
    as [(reqs & resp & payment & v & Hasm & Hsend & Hwf & Hfac & Hvalid)
       | (Hverify & _)].
  2:{ split.
      - rewrite (executions_verify_only _ Hverify). lia.
      - intros p q Hin. specialize (Hverify _ Hin). discriminate. }
  rewrite (invoke_verified env hi cfg args c po reqs resp payment v
             Hpo Hasm Hsend Hwf Hfac Hvalid).
  destruct (HandlerRegistry.handler hi (callOf hi args)
              (mkCtx (requestId c) (Some payment) (Some reqs)))
    as [[res|e] c2] eqn:Hh.
  2:{ simpl. split; [unfold View.executions; simpl; lia|].
      intros p q [H|[H|[H|[H|[]]]]]; discriminate. }
  destruct (paymentProof c2) as [p0|] eqn:Hp;
    [destruct (paymentRequirements c2) as [q0|] eqn:Hq|].
  - match goal with
    | |- context [settlePayment env ?s] =>
        destruct (settlePayment_with_proof env s p0 q0 Hp Hq)
          as (l & Hts & Hl);
        destruct (settlePayment env s) as [[u|e] s2]
    end; simpl in Hts |- *; rewrite Hts;
      pose proof (executions_notifications l Hl) as Hzero;
      (split;
       [unfold View.executions in *; simpl; rewrite Hzero; lia|]);
      intros p q [H|[H|[H|[H|[H|[H|Hin]]]]]]; try discriminate;
      try (exfalso; exact (not_in_notifications l p q Hl Hin));
      injection H as <- <-;
      exists [EvSendRequest (buildPaymentRequest (requestId c) reqs);
              EvFacilitatorValidate payment reqs;
              EvHandlerCalled (callOf hi args)
                (mkCtx (requestId c) (Some payment) (Some reqs))], c2, l;
      (split; [reflexivity|]); (split; [exact Hp|]); (split; [exact Hq|]);
      (split; [reflexivity|]); (split; [exact Hzero|]);
      intros Hkeep;
      destruct (Hkeep (callOf hi args)
                  (mkCtx (requestId c) (Some payment) (Some reqs)))
        as [Hkp Hkq];
      rewrite Hh in Hkp, Hkq; simpl in Hkp, Hkq;
      rewrite Hp in Hkp; rewrite Hq in Hkq;
      injection Hkp as ->; injection Hkq as ->;
      right; left; reflexivity.
  - match goal with
    | |- context [settlePayment env ?s] =>
        destruct (settlePayment_proof_gone env s (or_intror Hq))
          as (l & Hts & Hl);
        destruct (settlePayment env s) as [[u|e] s2]
    end; simpl in Hts |- *; rewrite Hts;
      pose proof (executions_notifications l Hl) as Hzero;
      (split;
       [unfold View.executions in *; simpl; rewrite Hzero; lia|]);
      intros p q [H|[H|[H|[H|[H|Hin]]]]]; try discriminate;
      exfalso; exact (not_in_notifications l p q Hl Hin).
  - match goal with
    | |- context [settlePayment env ?s] =>
        destruct (settlePayment_proof_gone env s (or_introl Hp))
          as (l & Hts & Hl);
        destruct (settlePayment env s) as [[u|e] s2]
    end; simpl in Hts |- *; rewrite Hts;
      pose proof (executions_notifications l Hl) as Hzero;
      (split;
       [unfold View.executions in *; simpl; rewrite Hzero; lia|]);
      intros p q [H|[H|[H|[H|[H|Hin]]]]]; try discriminate;
      exfalso; exact (not_in_notifications l p q Hl Hin).
Qed.

Lemma payment_is_executed_at_most_once_witness :
  exists before c2 after,
    trace (snd (invoke (Scenario.serverEnv Scenario.payingClient
                          (Scenario.mockExecute true))
                  (Scenario.paidTool Scenario.addNumbers) Scenario.config0
                  Scenario.args0 Scenario.ctx0))
    = (before ++ EvHandlerReturned c2 :: EvSettlePayment
         :: EvExecutePayment Scenario.proof0 Scenario.requirements0
         :: after)%list
    /\ paymentProof c2 = Some Scenario.proof0
    /\ paymentRequirements c2 = Some Scenario.requirements0
    /\ View.executions before = 0%nat
    /\ View.executions after = 0%nat
    /\ In (EvFacilitatorValidate Scenario.proof0 Scenario.requirements0)
          before.
Proof.
  destruct (proj2 (payment_is_executed_at_most_once
                     (Scenario.serverEnv Scenario.payingClient
                        (Scenario.mockExecute true))
                     (Scenario.paidTool Scenario.addNumbers) Scenario.config0
                     Scenario.args0 Scenario.ctx0)
              Scenario.proof0 Scenario.requirements0)
    as (before & c2 & after & Htr & Hp & Hq & Hb & Ha & Hkeep).
  - vm_compute. auto 8.
  - exists before, c2, after. repeat (split; [assumption|]).
    apply Hkeep. intros call c0. split; reflexivity.
Defined.

(** X20: error mapping of the wrapper: when the handler body throws, the
    invocation fails with that error if it is a PaymentError, and otherwise
    with a plain error "Handler execution failed: " followed by its
    message. *)
Theorem handler_failure_is_wrapped env hi cfg args c e :
  In (EvHandlerThrew e) (trace (snd (invoke env hi cfg args c))) ->
  fst (invoke env hi cfg args c)
  = Throw (if Err.isPaymentError e then e
           else ErrorObj None
                  ("Handler execution failed: " ++ Err.messageOf e)).
Proof.
  intros Hin.
  destruct (invoke_shape env hi cfg args c) as (_ & _ & lv & Hlv & Hshape).
  destruct Hshape
    as [[Htr _] | [(c1 & e0 & Htr & _ & Hres & _)
                  | (c1 & ls & Htr & Hls & _)]];
    rewrite Htr in Hin.
  - destruct (Forall_fst_in _ _ _ _ Hlv Hin) as [Hv _]. discriminate.
  - destruct (threw_shape_in _ _ _ _ _ _ Hlv Hin) as [[Hv _]|[H|H]];
      try discriminate.
    injection H as ->. exact Hres.
  - destruct (returned_shape_in _ _ _ _ _ _ _ _ Hlv Hls Hin)
      as [[Hv _]|[H|[H|(Hs & _)]]]; discriminate.
Qed.

Lemma handler_failure_is_wrapped_witness :
  fst (invoke (Scenario.serverEnv Scenario.payingClient
                 (Scenario.mockExecute true))
         (Scenario.paidTool Scenario.boom) Scenario.config0 Scenario.args0
         Scenario.ctx0)
  = Throw (ErrorObj None "Handler execution failed: boom").
Proof.
  apply (handler_failure_is_wrapped
           (Scenario.serverEnv Scenario.payingClient
              (Scenario.mockExecute true))
           (Scenario.paidTool Scenario.boom) Scenario.config0 Scenario.args0
           Scenario.ctx0 (ErrorObj None "boom")).
  vm_compute. auto 6.
Defined.

(** X21: when the payment was executed but the success notification cannot
    be delivered, settlement still fails: the orchestrator sends a second
    notification with success=false and the delivery error's message, and
    raises that error (a PaymentError as it is, anything else as
    PAYMENT_EXECUTION_FAILED 40204), or the error of the second notification
    when that one fails too. *)
Theorem undelivered_success_notice_fails_settlement env s p q res e1 :
  paymentProof (extra s) = Some p ->
  paymentRequirements (extra s) = Some q ->
  facilitator_executePayment env p q = Ok res ->
  PaymentResult.success res = true ->
  sendNotification env
    (PaymentResultNotification.mk "x402/payment_result" true
       (PaymentResult.transaction res) (PaymentResult.network res)
       (requestId (extra s)) (PaymentResult.payer res) None) = Throw e1 ->
  settlePayment env s
  = (Throw
       match sendNotification env
               (failureNotice env (requestId (extra s)) (Err.messageOf e1))
       with
       | Ok _ => if Err.isPaymentError e1 then e1
                 else executionFailed (Err.messageOf e1)
       | Throw e2 => e2
       end,
     mkState (extra s)
       (trace s ++
        [EvSettlePayment; EvExecutePayment p q;
         EvSendNotification
           (PaymentResultNotification.mk "x402/payment_result" true
              (PaymentResult.transaction res) (PaymentResult.network res)
              (requestId (extra s)) (PaymentResult.payer res) None);
         EvSendNotification
           (failureNotice env (requestId (extra s)) (Err.messageOf e1))])).
Proof.
  intros Hp Hq Hexec Hsuccess Hnotify.
  unfold settlePayment. step_eff. simpl.
  rewrite Hp, Hq. simpl. rewrite Hexec. simpl. rewrite Hsuccess. simpl.
  rewrite Hnotify. clear Hnotify. simpl. unfold failureNotice.
  destruct (sendNotification env _) as [|e2]; simpl;
    [destruct (Err.isPaymentError e1)|]; simpl; rewrite <- ?app_assoc;
    reflexivity.
Qed.

Lemma undelivered_success_notice_fails_settlement_witness :
  fst (settlePayment
         (mkEnv Scenario.payingClient
            (fun n => if PaymentResultNotification.success n
                      then Throw (ErrorObj None "Not connected")
                      else Ok tt)
            Scenario.mockValidate (Scenario.mockExecute true)
            (fun _ _ => Ok (PriceOk "1000" "0xUSDC" None))
            (fun path base => Ok (base ++ path)) (fun _ => "0.001")
            "0xPayee" "base-sepolia")
         (mkState (mkCtx (Js.IdNum 7) (Some Scenario.proof0)
                     (Some Scenario.requirements0)) []))
  = Throw (PaymentError 40204 "Payment settlement failed: Not connected"
             NoDetails).
Proof.
  rewrite (undelivered_success_notice_fails_settlement
             (mkEnv Scenario.payingClient
                (fun n => if PaymentResultNotification.success n
                          then Throw (ErrorObj None "Not connected")
                          else Ok tt)
                Scenario.mockValidate (Scenario.mockExecute true)
                (fun _ _ => Ok (PriceOk "1000" "0xUSDC" None))
                (fun path base => Ok (base ++ path)) (fun _ => "0.001")
                "0xPayee" "base-sepolia")
             (mkState (mkCtx (Js.IdNum 7) (Some Scenario.proof0)
                         (Some Scenario.requirements0)) [])
             Scenario.proof0 Scenario.requirements0
             (PaymentResult.mk true (Some "0xabc") "base-sepolia"
                (Some "0x1234") None)
             (ErrorObj None "Not connected")
             eq_refl eq_refl eq_refl eq_refl eq_refl).
  reflexivity.
Defined.

(** X22: a facilitator built on [BaseFacilitatorService] never throws from
    [validatePayment]: an error thrown by [performValidation], a
    PaymentError included, comes back as an invalid result whose reason is
    the error's message.  The verify phase therefore fails with
    PAYMENT_INVALID (40201) and that message, whatever code the thrown error
    carried. *)
Theorem base_facilitator_masks_validation_errors
  env performValidation name reqs s resp payment e :
  facilitator_validatePayment env
  = BaseFacilitatorService.validatePayment performValidation ->
  sendRequest env (buildPaymentRequest (requestId (extra s)) reqs) = Ok resp ->
  View.wellFormedProof resp reqs = Some payment ->
  performValidation payment reqs = Throw e ->
  BaseFacilitatorService.validatePayment performValidation payment reqs
  = Ok (mkValidation false (Some (BaseFacilitatorService.reasonOf e)) None)
  /\ fst (validatePayment env name reqs s)
     = Throw (PaymentError 40201
                (if Js.truthy (BaseFacilitatorService.reasonOf e)
                 then BaseFacilitatorService.reasonOf e
                 else "Payment proof validation failed")
                NoDetails).
Proof.
  intros Hfac Hsend Hwf Hthrow.
  assert (Hbase :
    BaseFacilitatorService.validatePayment performValidation payment reqs
    = Ok (mkValidation false (Some (BaseFacilitatorService.reasonOf e)) None)).
  { unfold BaseFacilitatorService.validatePayment. rewrite Hthrow.
    reflexivity. }
  split; [exact Hbase|].
  rewrite (validatePayment_checked env name reqs s resp payment Hsend Hwf).
  rewrite Hfac, Hbase. reflexivity.
Qed.

Lemma base_facilitator_masks_validation_errors_witness :
  fst (validatePayment
         (mkEnv Scenario.payingClient (fun _ => Ok tt)
            (BaseFacilitatorService.validatePayment
               (fun _ _ => Throw (PaymentError 40203 "Replay detected"
                                    NoDetails)))
            (Scenario.mockExecute true)
            (fun _ _ => Ok (PriceOk "1000" "0xUSDC" None))
            (fun path base => Ok (base ++ path)) (fun _ => "0.001")
            "0xPayee" "base-sepolia")
         "add-numbers" Scenario.requirements0 (mkState Scenario.ctx0 []))
  = Throw (PaymentError 40201 "Replay detected" NoDetails).
Proof.
  apply (proj2 (base_facilitator_masks_validation_errors
                  (mkEnv Scenario.payingClient (fun _ => Ok tt)
                     (BaseFacilitatorService.validatePayment
                        (fun _ _ => Throw (PaymentError 40203
                                             "Replay detected" NoDetails)))
                     (Scenario.mockExecute true)
                     (fun _ _ => Ok (PriceOk "1000" "0xUSDC" None))
                     (fun path base => Ok (base ++ path)) (fun _ => "0.001")
                     "0xPayee" "base-sepolia")
                  (fun _ _ => Throw (PaymentError 40203 "Replay detected"
                                       NoDetails))
                  "add-numbers" Scenario.requirements0
                  (mkState Scenario.ctx0 [])
                  (PaymentRequiredResponse.mk (Js.IdNum 7)
                     (Some Scenario.proof0))
                  Scenario.proof0
                  (PaymentError 40203 "Replay detected" NoDetails)
                  eq_refl eq_refl eq_refl eq_refl)).
Defined.

End ServerProperties.


(* ================================================================= *)
(** * Properties of the client side *)

Section ClientProperties.

Import X402MCPClient Observe.

Ltac step_client :=
  cbv beta iota delta [Eff.bind Eff.ret Eff.throw Eff.try_catch Eff.finally
    Eff.gets Eff.modify Eff.lift emit set_auditStorage
    ledger_getPendingRequest ledger_updatePaymentStatus] in *.

#[local] Arguments GuardrailsService.enforce : simpl never.

Ltac client_frame :=
  simpl; rewrite <- ?app_assoc; eexists; (split; [reflexivity|]); simpl;
  repeat split; auto; repeat constructor.

Lemma gt_irrefl (x : Js.number) : Js.gt x x = false.
Proof.
  destruct x as [| |q|]; simpl; try reflexivity.
  apply negb_false_iff. apply Qle_bool_iff. apply Qle_refl.
Qed.

Lemma validateParams_state request st :
  snd (validateParams request st) = st.
Proof.
  unfold validateParams.
  destruct (PaymentRequiredRequest.params request) as [p|]; [|reflexivity].
  repeat match goal with
         | |- context [if ?b then _ else _] => destruct b
         end; reflexivity.
Qed.

Lemma validateParams_valid request p rid st :
  structurallyValid request p rid ->
  validateParams request st = (Ok p, st).
Proof.
  intros (Hp & H1 & H2 & H3 & H4 & H5 & _).
  unfold validateParams. rewrite Hp, H1, H2, H3, H4, H5. reflexivity.
Qed.

Lemma validateParams_ok request p st st' :
  validateParams request st = (Ok p, st') ->
  PaymentRequiredRequest.params request = Some p.
Proof.
  unfold validateParams.
  destruct (PaymentRequiredRequest.params request) as [p0|];
    [|discriminate].
  repeat match goal with
         | |- context [if ?b then _ else _] => destruct b
         end; unfold Eff.throw, Eff.ret; congruence.
Qed.

(** The correlation step touches the ledger only. *)
Lemma correlate_spec now rid st :
  exists l,
    trace (snd (correlate now rid st)) = (trace st ++ l)%list
    /\ Forall (fun ev => ledger_event ev = true) l
    /\ guardrailsService (snd (correlate now rid st)) = guardrailsService st.
Proof.
  unfold correlate. step_client.
  destruct (auditStorage st) as [a|]; simpl.
  - destruct (PaymentAuditStorage.getPendingRequest now rid a) as [[r|] a'];
      simpl; rewrite <- ?app_assoc; eexists;
      (split; [reflexivity|]); split; auto; repeat constructor.
  - exists []. rewrite app_nil_r. repeat split. constructor.
Qed.

(** The guardrails step and the signing step never touch the ledger. *)
Lemma guard_spec env p st :
  exists l,
    trace (snd (guard env p st)) = (trace st ++ l)%list
    /\ Forall (fun ev => ledger_event ev = false /\ signing_event ev = false) l
    /\ auditStorage (snd (guard env p st)) = auditStorage st
    /\ guardrailsService (snd (guard env p st)) = guardrailsService st.
Proof.
  unfold guard. step_client.
  destruct (guardrailsService st) as [g|] eqn:Hg; simpl.
  - destruct (processPriceToAtomicAmount env _ _) as [err|d]; simpl;
      [client_frame|].
    destruct (atomicToUsd env _ d) as [amount|e]; simpl; [|client_frame].
    client_frame.
  - exists []. rewrite app_nil_r. repeat split; auto.
Qed.

Lemma signAndRespond_spec env request p st :
  exists l,
    trace (snd (signAndRespond env request p st)) = (trace st ++ l)%list
    /\ Forall (fun ev => ledger_event ev = false) l
    /\ auditStorage (snd (signAndRespond env request p st)) = auditStorage st
    /\ match fst (signAndRespond env request p st) with
       | Ok resp =>
           PaymentRequiredResponse.id resp = PaymentRequiredRequest.id request
       | Throw _ => True
       end.
Proof.
  unfold signAndRespond. step_client. simpl.
  destruct (createAccount env) as [account|e]; simpl; [|client_frame].
  destruct (createPayment env account _ p) as [payload|e]; client_frame.
Qed.

(** The response to a challenge answers the challenge's JSON-RPC id. *)
Lemma handlePaymentRequired_response_id env now request st :
  match fst (handlePaymentRequired env now request st) with
  | Ok resp => PaymentRequiredResponse.id resp = PaymentRequiredRequest.id request
  | Throw _ => True
  end.
Proof.
  unfold handlePaymentRequired. unfold Eff.bind at 1.
  destruct (validateParams request st) as [[p|e] s1]; [|exact I].
  destruct (PaymentRequiredParams.requestId p) as [rid|]; [|exact I].
  destruct (Js.RequestId_truthy rid); [|exact I]. simpl.
  unfold Eff.bind at 1.
  destruct (correlate now rid s1) as [[u|e] s2]; [|exact I].
  unfold Eff.bind at 1.
  destruct (guard env p s2) as [[u'|e] s3]; [|exact I].
  pose proof (signAndRespond_spec env request p s3) as (l & _ & _ & _ & H).
  exact H.
Qed.

Lemma Forall_in_false {A} (f g : A -> bool) (l : list A) (x : A) :
  Forall (fun a => f a = false /\ g a = false) l -> In x l ->
  f x = false /\ g x = false.
Proof. intros H Hin. rewrite Forall_forall in H. exact (H x Hin). Qed.

(** Without a ledger the responder goes from the basic checks straight to
    guardrails and signing. *)
Lemma handlePaymentRequired_without_ledger env now request p rid g :
  structurallyValid request p rid ->
  handlePaymentRequired env now request (mkState g None []) =
  Eff.bind (guard env p) (fun _ => signAndRespond env request p)
    (mkState g None []).
Proof.
  intros Hvalid.
  pose proof Hvalid as (_ & _ & _ & _ & _ & _ & Hrid & Htruthy).
  unfold handlePaymentRequired. unfold Eff.bind at 1.
  rewrite (validateParams_valid request p rid _ Hvalid).
  rewrite Hrid, Htruthy. simpl. reflexivity.
Qed.

(** With guardrails configured, the responder either signs nothing, or the
    call of the guardrails engine, which accepted amount and recipient, comes
    directly before the wallet is asked for the account. *)
Lemma guarded_signing_shape env now request g ledger :
  (forall ev,
     In ev (trace (snd (handlePaymentRequired env now request
                          (mkState (Some g) ledger [])))) ->
     signing_event ev = false)
  \/ exists p amount before after,
       PaymentRequiredRequest.params request = Some p
       /\ trace (snd (handlePaymentRequired env now request
                        (mkState (Some g) ledger [])))
          = (before ++ EvEnforce amount (PaymentRequiredParams.payTo p)
                    :: EvCreateAccount :: after)%list
       /\ Forall (fun e => signing_event e = false) before
       /\ GuardrailsService.enforce (numToString env) g amount
            (PaymentRequiredParams.payTo p) = Ok tt.
Proof.
  unfold handlePaymentRequired, Eff.bind.
  pose proof (validateParams_state request (mkState (Some g) ledger [])) as Hst.
  destruct (validateParams request (mkState (Some g) ledger []))
    as [[p|e] s0] eqn:Hv; simpl in Hst; subst s0;
    [|left; intros ev []].
  apply validateParams_ok in Hv.
  destruct (PaymentRequiredParams.requestId p) as [rid|];
    [|left; intros ev []].
  destruct (Js.RequestId_truthy rid); [|left; intros ev []].
  simpl.
  destruct (correlate_spec now rid (mkState (Some g) ledger []))
    as (l & Htr & Hl & Hg).
  assert (Hquiet : forall ev, In ev l -> signing_event ev = false).
  { intros ev Hin. rewrite Forall_forall in Hl. specialize (Hl ev Hin).
    destruct ev; simpl in *; congruence. }
  destruct (correlate now rid (mkState (Some g) ledger [])) as [[u|e] s1];
    simpl in *.
  2:{ left. rewrite Htr. exact Hquiet. }
  unfold guard. step_client. rewrite Hg. simpl.
  destruct (processPriceToAtomicAmount env _ _) as [err|d]; simpl.
  { left. rewrite Htr. intros ev Hin. apply in_app_or in Hin.
    destruct Hin as [Hin|[<-|[]]]; [exact (Hquiet ev Hin)|reflexivity]. }
  destruct (atomicToUsd env _ d) as [amount|e]; simpl.
  2:{ left. rewrite Htr. intros ev Hin. apply in_app_or in Hin.
      destruct Hin as [Hin|[<-|[]]]; [exact (Hquiet ev Hin)|reflexivity]. }
  destruct (GuardrailsService.enforce (numToString env) g amount
              (PaymentRequiredParams.payTo p)) as [[]|err] eqn:Henf; simpl.
  2:{ left. rewrite Htr. intros ev Hin. rewrite <- app_assoc in Hin.
      apply in_app_or in Hin.
      destruct Hin as [Hin|[<-|[<-|[]]]]; try reflexivity.
      exact (Hquiet ev Hin). }
  right. exists p, amount.
  exists (l ++ [EvProcessPrice (PaymentRequiredParams.maxAmountRequired p)
                  (PaymentRequiredParams.network p)])%list.
  unfold signAndRespond. step_client. simpl. rewrite Htr.
  assert (Hbefore : Forall (fun e => signing_event e = false)
                      (l ++ [EvProcessPrice
                               (PaymentRequiredParams.maxAmountRequired p)
                               (PaymentRequiredParams.network p)])).
  { apply Forall_app. split; [apply Forall_forall; exact Hquiet|].
    constructor; [reflexivity|constructor]. }
  destruct (createAccount env) as [account|e]; simpl;
    [destruct (createPayment env account _ p) as [payload|e]; simpl|];
    eexists; (split; [exact Hv|]);
    (split; [rewrite <- !app_assoc; simpl; reflexivity|]);
    (split; [exact Hbefore|exact Henf]).
Qed.

(** C10: a client constructed without [auditStorage] performs no ledger
    lookup in [handlePaymentRequired]: for a structurally valid challenge
    that carries a requestId it runs exactly the guardrails step (a no-op
    when no guardrails are configured) followed by signing, so the unknown
    payment error is never raised, no ledger call appears in the trace and
    the client still has no ledger afterwards.  The guardrails are not
    skipped with the ledger: when they are configured, nothing is signed
    unless the guardrails engine was called and accepted the amount and the
    recipient. *)
Theorem no_ledger_lookup_without_audit_storage env now request p rid g :
  structurallyValid request p rid ->
  handlePaymentRequired env now request (mkState g None []) =
  Eff.bind (guard env p) (fun _ => signAndRespond env request p)
    (mkState g None [])
  /\ (g = None ->
      handlePaymentRequired env now request (mkState g None []) =
      signAndRespond env request p (mkState None None []))
  /\ (forall ev,
        In ev (trace (snd (handlePaymentRequired env now request
                             (mkState g None [])))) ->
        ledger_event ev = false)
  /\ auditStorage (snd (handlePaymentRequired env now request
                          (mkState g None []))) = None
  /\ (forall g0 ev,
        g = Some g0 ->
        In ev (trace (snd (handlePaymentRequired env now request
                             (mkState g None [])))) ->
        signing_event ev = true ->
        exists amount,
          In (EvEnforce amount (PaymentRequiredParams.payTo p))
             (trace (snd (handlePaymentRequired env now request
                            (mkState g None []))))
          /\ GuardrailsService.enforce (numToString env) g0 amount
               (PaymentRequiredParams.payTo p) = Ok tt).
Proof.
  intros Hvalid.
  assert (Hguarded : forall g0 ev,
            g = Some g0 ->
            In ev (trace (snd (handlePaymentRequired env now request
                                 (mkState g None [])))) ->
            signing_event ev = true ->
            exists amount,
              In (EvEnforce amount (PaymentRequiredParams.payTo p))
                 (trace (snd (handlePaymentRequired env now request
                                (mkState g None []))))
              /\ GuardrailsService.enforce (numToString env) g0 amount
                   (PaymentRequiredParams.payTo p) = Ok tt).
  { intros g0 ev -> Hin Hsign.
    destruct (guarded_signing_shape env now request g0 None)
      as [Hnone | (p' & amount & before & after & Hp' & Htr & _ & Henf)].
    { rewrite (Hnone ev Hin) in Hsign. discriminate. }
    destruct Hvalid as (Hp & _). rewrite Hp in Hp'. injection Hp' as <-.
    exists amount. split; [|exact Henf].
    rewrite Htr. apply in_or_app. right. left. reflexivity. }
  cut (handlePaymentRequired env now request (mkState g None []) =
       Eff.bind (guard env p) (fun _ => signAndRespond env request p)
         (mkState g None [])
       /\ (g = None ->
           handlePaymentRequired env now request (mkState g None []) =
           signAndRespond env request p (mkState None None []))
       /\ (forall ev,
             In ev (trace (snd (handlePaymentRequired env now request
                                  (mkState g None [])))) ->
             ledger_event ev = false)
       /\ auditStorage (snd (handlePaymentRequired env now request
                               (mkState g None []))) = None).
  { intros (H1 & H2 & H3 & H4). auto. }
  clear Hguarded.
  rewrite (handlePaymentRequired_without_ledger env now request p rid g Hvalid).
  split; [reflexivity|]. split.
  { intros ->. reflexivity. }
  unfold Eff.bind.
  destruct (guard_spec env p (mkState g None [])) as (l1 & Ht1 & Hl1 & Ha1 & _).
  destruct (guard env p (mkState g None [])) as [[u|e] s1]; simpl in *.
  - destruct (signAndRespond_spec env request p s1) as (l2 & Ht2 & Hl2 & Ha2 & _).
    split.
    + intros ev Hin. rewrite Ht2, Ht1 in Hin.
      apply in_app_or in Hin. destruct Hin as [Hin|Hin].
      * exact (proj1 (Forall_in_false _ _ _ _ Hl1 Hin)).
      * rewrite Forall_forall in Hl2. exact (Hl2 ev Hin).
    + rewrite Ha2. exact Ha1.
  - split; [|exact Ha1].
    intros ev Hin. rewrite Ht1 in Hin.
    exact (proj1 (Forall_in_false _ _ _ _ Hl1 Hin)).
Qed.

Lemma no_ledger_lookup_without_audit_storage_witness :
  handlePaymentRequired Scenario.clientEnv 200 (Scenario.challenge "1000")
    (mkState None None []) =
  (Ok (PaymentRequiredResponse.mk (Js.IdNum 7)
         (Some Scenario.proof0)),
   mkState None None
     [EvCreateAccount;
      EvCreatePayment "0xAccount" (Scenario.params0 "1000")])
  /\ exists amount,
       In (EvEnforce amount "0xPayee")
          (trace (snd (handlePaymentRequired Scenario.clientEnv 200
                         (Scenario.challenge "1000")
                         (mkState (Some (Scenario.cap (1 # 100))) None []))))
       /\ GuardrailsService.enforce (numToString Scenario.clientEnv)
            (Scenario.cap (1 # 100)) amount "0xPayee" = Ok tt.
Proof.
  split.
  - destruct (no_ledger_lookup_without_audit_storage Scenario.clientEnv 200
                (Scenario.challenge "1000") (Scenario.params0 "1000")
                (Js.IdNum 7) None) as (_ & H & _).
    + repeat split.
    + rewrite (H eq_refl). reflexivity.
  - destruct (no_ledger_lookup_without_audit_storage Scenario.clientEnv 200
                (Scenario.challenge "1000") (Scenario.params0 "1000")
                (Js.IdNum 7) (Some (Scenario.cap (1 # 100))))
      as (_ & _ & _ & _ & H).
    + repeat split.
    + apply (H (Scenario.cap (1 # 100)) EvCreateAccount eq_refl).
      * vm_compute. auto 6.
      * reflexivity.
Defined.

(** The guardrails step when the converted amount exceeds the cap. *)
Lemma guard_violation env p st g X d amount :
  guardrailsService st = Some g ->
  GuardrailsService.maxPaymentPerCall g = Some X ->
  processPriceToAtomicAmount env (PaymentRequiredParams.maxAmountRequired p)
    (PaymentRequiredParams.network p) = PriceAsset d ->
  atomicToUsd env (PaymentRequiredParams.maxAmountRequired p) d = Ok amount ->
  Js.gt amount X = true ->
  guard env p st =
  (Throw (capViolation (numToString env) amount X),
   mkState (guardrailsService st) (auditStorage st)
     (trace st ++
      [EvProcessPrice (PaymentRequiredParams.maxAmountRequired p)
         (PaymentRequiredParams.network p);
       EvEnforce amount (PaymentRequiredParams.payTo p)])).
Proof.
  intros Hg HX Hprice Husd Hgt.
  unfold guard. step_client. rewrite Hg. simpl. rewrite Hprice. simpl.
  rewrite Husd. simpl.
  unfold GuardrailsService.enforce, GuardrailsService.enforcePerCallLimit.
  rewrite HX, Hgt. rewrite <- app_assoc. simpl. rewrite ?Hg. reflexivity.
Qed.

(** C8: with [maxPaymentPerCall] set to X, an amount equal to X passes the
    per-call cap (only the allowlist can still refuse it), an amount greater
    than X raises GUARDRAIL_VIOLATION (40210) with details amount and
    maxPaymentPerCall, and a challenge whose converted amount is greater than
    X is answered with an error without any call that obtains the signing
    account or signs a payload; once the guardrails are reached that error is
    the cap violation. *)
Theorem per_call_cap_is_inclusive_and_precedes_signing
  env now g X amount payTo request p d ledger :
  GuardrailsService.maxPaymentPerCall g = Some X ->
  PaymentRequiredRequest.params request = Some p ->
  processPriceToAtomicAmount env (PaymentRequiredParams.maxAmountRequired p)
    (PaymentRequiredParams.network p) = PriceAsset d ->
  atomicToUsd env (PaymentRequiredParams.maxAmountRequired p) d = Ok amount ->
  Js.gt amount X = true ->
  (GuardrailsService.enforcePerCallLimit (numToString env) g X = Ok tt
   /\ GuardrailsService.enforce (numToString env) g X payTo
      = GuardrailsService.enforceWhitelist g payTo)
  /\ GuardrailsService.enforce (numToString env) g amount payTo
     = Throw (PaymentError 40210
                ("Payment exceeds max per-call limit: $"
                   ++ numToString env amount ++ " > $" ++ numToString env X)
                (CapDetails amount X))
  /\ (forall ev,
        In ev (trace (snd (handlePaymentRequired env now request
                             (mkState (Some g) ledger [])))) ->
        signing_event ev = false)
  /\ (exists e,
        fst (handlePaymentRequired env now request
               (mkState (Some g) ledger [])) = Throw e)
  /\ (In (EvEnforce amount (PaymentRequiredParams.payTo p))
         (trace (snd (handlePaymentRequired env now request
                        (mkState (Some g) ledger [])))) ->
      fst (handlePaymentRequired env now request
             (mkState (Some g) ledger []))
      = Throw (capViolation (numToString env) amount X)).
Proof.
  intros HX Hp Hprice Husd Hgt.
  split.
  { unfold GuardrailsService.enforce, GuardrailsService.enforcePerCallLimit.
    rewrite HX, gt_irrefl. split; reflexivity. }
  split.
  { unfold GuardrailsService.enforce, GuardrailsService.enforcePerCallLimit.
    rewrite HX, Hgt. reflexivity. }
  unfold handlePaymentRequired, Eff.bind.
  pose proof (validateParams_state request (mkState (Some g) ledger [])) as Hst.
  destruct (validateParams request (mkState (Some g) ledger []))
    as [[p0|e] s0] eqn:Hv; simpl in Hst; subst s0.
  2:{ simpl. split; [intros ev []|]. split; [eauto|]. intros []. }
  apply validateParams_ok in Hv. rewrite Hp in Hv. injection Hv as <-.
  destruct (PaymentRequiredParams.requestId p) as [rid|].
  2:{ unfold Eff.throw. simpl. split; [intros ev []|]. split; [eauto|].
      intros []. }
  destruct (Js.RequestId_truthy rid).
  2:{ unfold Eff.throw. simpl. split; [intros ev []|]. split; [eauto|].
      intros []. }
  simpl.
  destruct (correlate_spec now rid (mkState (Some g) ledger []))
    as (l & Htr & Hl & Hg).
  destruct (correlate now rid (mkState (Some g) ledger [])) as [[u|e] s1];
    simpl in *.
  - rewrite (guard_violation env p s1 g X d amount Hg HX Hprice Husd Hgt).
    simpl. rewrite Htr. split.
    + intros ev Hin. apply in_app_or in Hin. destruct Hin as [Hin|Hin].
      * rewrite Forall_forall in Hl. specialize (Hl ev Hin).
        destruct ev; simpl in *; congruence.
      * destruct Hin as [<-|[<-|[]]]; reflexivity.
    + split; [eauto|]. reflexivity.
  - rewrite Htr. split.
    + intros ev Hin. rewrite Forall_forall in Hl. specialize (Hl ev Hin).
      destruct ev; simpl in *; congruence.
    + split; [eauto|]. intros Hin.
      rewrite Forall_forall in Hl. specialize (Hl _ Hin). discriminate.
Qed.

Lemma per_call_cap_is_inclusive_and_precedes_signing_witness :
  GuardrailsService.enforcePerCallLimit (numToString Scenario.clientEnv)
    (Scenario.cap (5 # 10000)) (Js.Finite (5 # 10000)) = Ok tt
  /\ fst (handlePaymentRequired Scenario.clientEnv 200
            (Scenario.challenge "1000")
            (mkState (Some (Scenario.cap (5 # 10000)))
               (Some Scenario.ledger1) []))
     = Throw (capViolation (numToString Scenario.clientEnv)
                (Js.Finite (1 # 1000)) (Js.Finite (5 # 10000)))
  /\ forall ev,
       In ev (trace (snd (handlePaymentRequired Scenario.clientEnv 200
                            (Scenario.challenge "1000")
                            (mkState (Some (Scenario.cap (5 # 10000)))
                               (Some Scenario.ledger1) [])))) ->
       signing_event ev = false.
Proof.
  destruct (per_call_cap_is_inclusive_and_precedes_signing
              Scenario.clientEnv 200 (Scenario.cap (5 # 10000))
              (Js.Finite (5 # 10000)) (Js.Finite (1 # 1000)) "0xPayee"
              (Scenario.challenge "1000") (Scenario.params0 "1000") 6
              (Some Scenario.ledger1))
    as ((H1 & _) & _ & H3 & _ & H5); try reflexivity.
  split; [exact H1|]. split; [|exact H3].
  apply H5. vm_compute. auto 6.
Defined.
(** ** Further properties of the responder *)

(** X23: with a ledger, a structurally valid challenge whose request id has
    no live pending record is refused with PAYMENT_INVALID (40201) "unknown
    payment"; after the lookup nothing else happens: no guardrails, no
    account, no signature. *)
Theorem challenge_for_unknown_request_is_refused env now request p rid g a :
  structurallyValid request p rid ->
  fst (PaymentAuditStorage.getPendingRequest now rid a) = None ->
  handlePaymentRequired env now request (mkState g (Some a) [])
  = (Throw (PaymentError 40201
              ("Payment request for unknown payment: " ++ Js.toString rid)
              NoDetails),
     mkState g (Some (snd (PaymentAuditStorage.getPendingRequest now rid a)))
       [EvGetPendingRequest rid]).
Proof.
  intros Hvalid Hnone.
  pose proof Hvalid as (_ & _ & _ & _ & _ & _ & Hrid & Htruthy).
  unfold handlePaymentRequired. unfold Eff.bind at 1.
  rewrite (validateParams_valid request p rid _ Hvalid).
  rewrite Hrid, Htruthy. simpl negb. cbv iota.
  unfold correlate. step_client. simpl.
  destruct (PaymentAuditStorage.getPendingRequest now rid a) as [[r|] a'];
    [discriminate|].
  reflexivity.
Qed.

Lemma challenge_for_unknown_request_is_refused_witness :
  handlePaymentRequired Scenario.clientEnv 200 (Scenario.challenge "1000")
    (mkState None (Some Scenario.emptyLedger) [])
  = (Throw (PaymentError 40201 "Payment request for unknown payment: 7"
              NoDetails),
     mkState None (Some Scenario.emptyLedger)
       [EvGetPendingRequest (Js.IdNum 7)]).
Proof.
  apply (challenge_for_unknown_request_is_refused Scenario.clientEnv 200
           (Scenario.challenge "1000") (Scenario.params0 "1000") (Js.IdNum 7)
           None Scenario.emptyLedger).
  - repeat split.
  - reflexivity.
Defined.

(** X24: a challenge that misses its params, [payTo], [maxAmountRequired] or
    [network], or whose scheme is not "exact" or whose version is not 1, is
    rejected with a plain [Error] (no payment error code) before anything is
    touched: the client state, ledger and trace are unchanged. *)
Theorem malformed_challenge_is_rejected_untouched env now request st :
  match PaymentRequiredRequest.params request with
  | None => True
  | Some p =>
      Js.truthy (PaymentRequiredParams.payTo p) = false
      \/ Js.truthy (PaymentRequiredParams.maxAmountRequired p) = false
      \/ Js.truthy (PaymentRequiredParams.network p) = false
      \/ PaymentRequiredParams.scheme p <> "exact"
      \/ PaymentRequiredParams.x402Version p <> 1
  end ->
  exists message,
    handlePaymentRequired env now request st
    = (Throw (ErrorObj None message), st).
Proof.
  intros Hbad. unfold handlePaymentRequired, validateParams.
  unfold Eff.bind at 1.
  destruct (PaymentRequiredRequest.params request) as [p|];
    [|eexists; reflexivity].
  destruct (Js.truthy (PaymentRequiredParams.payTo p)) eqn:H1;
    [|eexists; reflexivity].
  destruct (Js.truthy (PaymentRequiredParams.maxAmountRequired p)) eqn:H2;
    [|eexists; reflexivity].
  destruct (Js.truthy (PaymentRequiredParams.network p)) eqn:H3;
    [|eexists; reflexivity].
  simpl.
  destruct (String.eqb (PaymentRequiredParams.scheme p) "exact") eqn:H4;
    [|eexists; reflexivity].
  simpl.
  destruct (PaymentRequiredParams.x402Version p =? 1) eqn:H5;
    [|eexists; reflexivity].
  exfalso. apply String.eqb_eq in H4. apply Z.eqb_eq in H5.
  destruct Hbad as [H|[H|[H|[H|H]]]]; congruence.
Qed.

Lemma malformed_challenge_is_rejected_untouched_witness :
  exists message,
    handlePaymentRequired Scenario.clientEnv 200
      (PaymentRequiredRequest.mk (Js.IdNum 7) "x402/payment_required"
         (Some (PaymentRequiredParams.mk "upto" "base-sepolia" "1000" "" ""
                  "" "0xPayee" 60 "0xUSDC" None None 1 (Some (Js.IdNum 7)))))
      (mkState None (Some Scenario.ledger1) [])
    = (Throw (ErrorObj None message),
       mkState None (Some Scenario.ledger1) []).
Proof.
  apply (malformed_challenge_is_rejected_untouched Scenario.clientEnv 200
           (PaymentRequiredRequest.mk (Js.IdNum 7) "x402/payment_required"
              (Some (PaymentRequiredParams.mk "upto" "base-sepolia" "1000" ""
                       "" "" "0xPayee" 60 "0xUSDC" None None 1
                       (Some (Js.IdNum 7)))))
           (mkState None (Some Scenario.ledger1) [])).
  simpl. right. right. right. left. discriminate.
Defined.





(** The guardrails step when the engine refuses. *)
Lemma guard_refusal env p st g d amount err :
  guardrailsService st = Some g ->
  processPriceToAtomicAmount env (PaymentRequiredParams.maxAmountRequired p)
    (PaymentRequiredParams.network p) = PriceAsset d ->
  atomicToUsd env (PaymentRequiredParams.maxAmountRequired p) d = Ok amount ->
  GuardrailsService.enforce (numToString env) g amount
    (PaymentRequiredParams.payTo p) = Throw err ->
  guard env p st =
  (Throw err,
   mkState (guardrailsService st) (auditStorage st)
     (trace st ++
      [EvProcessPrice (PaymentRequiredParams.maxAmountRequired p)
         (PaymentRequiredParams.network p);
       EvEnforce amount (PaymentRequiredParams.payTo p)])).
Proof.
  intros Hg Hprice Husd Henf.
  unfold guard. step_client. rewrite Hg. simpl. rewrite Hprice. simpl.
  rewrite Husd. simpl. rewrite Henf. rewrite <- app_assoc. simpl.
  rewrite ?Hg. reflexivity.
Qed.

(** A challenge whose amount and recipient the guardrails engine refuses is
    answered with an error and nothing is signed; once the engine has been
    called, the error is the engine's. *)
Lemma refused_challenge_is_not_signed env now g amount request p d ledger err :
  PaymentRequiredRequest.params request = Some p ->
  processPriceToAtomicAmount env (PaymentRequiredParams.maxAmountRequired p)
    (PaymentRequiredParams.network p) = PriceAsset d ->
  atomicToUsd env (PaymentRequiredParams.maxAmountRequired p) d = Ok amount ->
  GuardrailsService.enforce (numToString env) g amount
    (PaymentRequiredParams.payTo p) = Throw err ->
  (forall ev,
     In ev (trace (snd (handlePaymentRequired env now request
                          (mkState (Some g) ledger [])))) ->
     signing_event ev = false)
  /\ (exists e,
        fst (handlePaymentRequired env now request
               (mkState (Some g) ledger [])) = Throw e)
  /\ (In (EvEnforce amount (PaymentRequiredParams.payTo p))
         (trace (snd (handlePaymentRequired env now request
                        (mkState (Some g) ledger [])))) ->
      fst (handlePaymentRequired env now request
             (mkState (Some g) ledger [])) = Throw err).
Proof.
  intros Hp Hprice Husd Henf.
  unfold handlePaymentRequired, Eff.bind.
  pose proof (validateParams_state request (mkState (Some g) ledger [])) as Hst.
  destruct (validateParams request (mkState (Some g) ledger []))
    as [[p0|e] s0] eqn:Hv; simpl in Hst; subst s0.
  2:{ simpl. split; [intros ev []|]. split; [eauto|]. intros []. }
  apply validateParams_ok in Hv. rewrite Hp in Hv. injection Hv as <-.
  destruct (PaymentRequiredParams.requestId p) as [rid|].
  2:{ unfold Eff.throw. simpl. split; [intros ev []|]. split; [eauto|].
      intros []. }
  destruct (Js.RequestId_truthy rid).
  2:{ unfold Eff.throw. simpl. split; [intros ev []|]. split; [eauto|].
      intros []. }
  simpl.
  destruct (correlate_spec now rid (mkState (Some g) ledger []))
    as (l & Htr & Hl & Hg).
  destruct (correlate now rid (mkState (Some g) ledger [])) as [[u|e] s1];
    simpl in *.
  - rewrite (guard_refusal env p s1 g d amount err Hg Hprice Husd Henf).
    simpl. rewrite Htr. split.
    + intros ev Hin. apply in_app_or in Hin. destruct Hin as [Hin|Hin].
      * rewrite Forall_forall in Hl. specialize (Hl ev Hin).
        destruct ev; simpl in *; congruence.
      * destruct Hin as [<-|[<-|[]]]; reflexivity.
    + split; [eauto|]. reflexivity.
  - rewrite Htr. split.
    + intros ev Hin. rewrite Forall_forall in Hl. specialize (Hl ev Hin).
      destruct ev; simpl in *; congruence.
    + split; [eauto|]. intros Hin.
      rewrite Forall_forall in Hl. specialize (Hl _ Hin). discriminate.
Qed.

(** X25: with [whitelistedServers] configured, a challenge whose [payTo] is
    not in the list, and whose amount the per-call cap allows, is answered
    with WHITELIST_VIOLATION (40211) carrying payTo and the list; no signing
    account is obtained and nothing is signed. *)
Theorem recipient_outside_allowlist_is_refused_before_signing
  env now g wl amount request p d ledger :
  GuardrailsService.whitelistedServers g = Some wl ->
  GuardrailsService.array_includes wl (PaymentRequiredParams.payTo p) = false ->
  match GuardrailsService.maxPaymentPerCall g with
  | Some cap => Js.gt amount cap = false
  | None => True
  end ->
  PaymentRequiredRequest.params request = Some p ->
  processPriceToAtomicAmount env (PaymentRequiredParams.maxAmountRequired p)
    (PaymentRequiredParams.network p) = PriceAsset d ->
  atomicToUsd env (PaymentRequiredParams.maxAmountRequired p) d = Ok amount ->
  (forall ev,
     In ev (trace (snd (handlePaymentRequired env now request
                          (mkState (Some g) ledger [])))) ->
     signing_event ev = false)
  /\ (exists e,
        fst (handlePaymentRequired env now request
               (mkState (Some g) ledger [])) = Throw e)
  /\ (In (EvEnforce amount (PaymentRequiredParams.payTo p))
         (trace (snd (handlePaymentRequired env now request
                        (mkState (Some g) ledger [])))) ->
      fst (handlePaymentRequired env now request
             (mkState (Some g) ledger []))
      = Throw (PaymentError 40211
                 ("Payment recipient " ++ PaymentRequiredParams.payTo p
                    ++ " is not whitelisted")
                 (WhitelistDetails (PaymentRequiredParams.payTo p) wl))).
Proof.
  intros Hwl Hout Hcap Hp Hprice Husd.
  apply (refused_challenge_is_not_signed env now g amount request p d ledger);
    try assumption.
  unfold GuardrailsService.enforce, GuardrailsService.enforcePerCallLimit,
    GuardrailsService.enforceWhitelist.
  rewrite Hwl, Hout.
  destruct (GuardrailsService.maxPaymentPerCall g) as [cap|];
    [rewrite Hcap|]; reflexivity.
Qed.

Lemma recipient_outside_allowlist_is_refused_before_signing_witness :
  fst (handlePaymentRequired Scenario.clientEnv 200 (Scenario.challenge "1000")
         (mkState (Some (GuardrailsService.mk (Some (Js.Finite (1 # 100)))
                           (Some ["0xFriend"])))
            (Some Scenario.ledger1) []))
  = Throw (PaymentError 40211 "Payment recipient 0xPayee is not whitelisted"
             (WhitelistDetails "0xPayee" ["0xFriend"])).
Proof.
  apply (proj2 (proj2
           (recipient_outside_allowlist_is_refused_before_signing
              Scenario.clientEnv 200
              (GuardrailsService.mk (Some (Js.Finite (1 # 100)))
                 (Some ["0xFriend"]))
              ["0xFriend"] (Js.Finite (1 # 1000)) (Scenario.challenge "1000")
              (Scenario.params0 "1000") 6 (Some Scenario.ledger1)
              eq_refl eq_refl eq_refl eq_refl eq_refl eq_refl))).
  vm_compute. auto 6.
Defined.

(** X26: signing never happens before the guardrails have been evaluated:
    when guardrails are configured, a trace that contains a signing step has
    the call of the guardrails engine immediately before the wallet is asked
    for the account, nothing is signed earlier, and the engine accepted the
    amount and the recipient. *)
Theorem signing_only_after_guardrails_pass env now request g ledger ev :
  In ev (trace (snd (handlePaymentRequired env now request
                       (mkState (Some g) ledger [])))) ->
  signing_event ev = true ->
  exists p amount before after,
    PaymentRequiredRequest.params request = Some p
    /\ trace (snd (handlePaymentRequired env now request
                     (mkState (Some g) ledger [])))
       = (before ++ EvEnforce amount (PaymentRequiredParams.payTo p)
                 :: EvCreateAccount :: after)%list
    /\ Forall (fun e => signing_event e = false) before
    /\ GuardrailsService.enforce (numToString env) g amount
         (PaymentRequiredParams.payTo p) = Ok tt.
Proof.
  intros Hin Hsign.
  destruct (guarded_signing_shape env now request g ledger)
    as [Hnone | Hshape].
  - rewrite (Hnone ev Hin) in Hsign. discriminate.
  - exact Hshape.
Qed.

Lemma signing_only_after_guardrails_pass_witness :
  exists p amount before after,
    PaymentRequiredRequest.params (Scenario.challenge "1000") = Some p
    /\ trace (snd (handlePaymentRequired Scenario.clientEnv 200
                     (Scenario.challenge "1000")
                     (mkState (Some (Scenario.cap (1 # 100)))
                        (Some Scenario.ledger1) [])))
       = (before ++ EvEnforce amount (PaymentRequiredParams.payTo p)
                 :: EvCreateAccount :: after)%list
    /\ Forall (fun e => signing_event e = false) before
    /\ GuardrailsService.enforce (numToString Scenario.clientEnv)
         (Scenario.cap (1 # 100)) amount (PaymentRequiredParams.payTo p)
       = Ok tt.
Proof.
  apply (signing_only_after_guardrails_pass Scenario.clientEnv 200
           (Scenario.challenge "1000") (Scenario.cap (1 # 100))
           (Some Scenario.ledger1) EvCreateAccount).
  - vm_compute. auto 8.
  - reflexivity.
Defined.

(** X27: a settlement notification for a request with a live pending record
    makes the client call [updatePaymentStatus] with completed (success) or
    failed, with the notification's transaction, payer and error reason; the
    record can then be read under [<id>]. *)
Theorem settlement_notification_updates_ledger now n a record g tr :
  Js.RequestId_truthy (PaymentResultNotification.requestId n) = true ->
  fst (PaymentAuditStorage.getPendingRequest now
         (PaymentResultNotification.requestId n) a) = Some record ->
  PaymentAuditStorage.requestId record
  = Some (PaymentResultNotification.requestId n) ->
  let status := if PaymentResultNotification.success n
                then PaymentAuditStorage.PaymentCompleted
                else PaymentAuditStorage.PaymentFailed in
  let details := Some (PaymentAuditStorage.mkDetails
                         (PaymentResultNotification.transaction n)
                         (PaymentResultNotification.payer n)
                         (PaymentResultNotification.errorReason n)
                         (Some now)) in
  handleNotification now n (mkState g (Some a) tr)
  = (Ok tt,
     mkState g
       (Some (PaymentAuditStorage.updatePaymentStatus now
                (PaymentResultNotification.requestId n) status details a))
       (tr ++ [EvGetPendingRequest (PaymentResultNotification.requestId n);
               EvUpdatePaymentStatus (PaymentResultNotification.requestId n)
                 status]))
  /\ fst (PaymentAuditStorage.read now
            (Js.toString (PaymentResultNotification.requestId n))
            (PaymentAuditStorage.updatePaymentStatus now
               (PaymentResultNotification.requestId n) status details a))
     = Some (PaymentAuditStorage.applyDetails status now details record).
Proof.
  intros Htruthy Hget Hrid status details.
  unfold PaymentAuditStorage.getPendingRequest, PaymentAuditStorage.read in Hget.
  destruct (get_some now _ record a Hget) as (Hread & _).
  split.
  - unfold handleNotification. step_client. simpl. rewrite Htruthy.
    unfold PaymentAuditStorage.getPendingRequest, PaymentAuditStorage.read.
    rewrite Hread. simpl. rewrite Hrid. simpl. rewrite <- app_assoc.
    reflexivity.
  - unfold PaymentAuditStorage.updatePaymentStatus, PaymentAuditStorage.read,
      PaymentAuditStorage.write.
    rewrite Hread.
    assert (Hterm : negb (PaymentAuditStorage.PaymentStatus_eqb status
                            PaymentAuditStorage.PaymentPending) = true).
    { unfold status. destruct (PaymentResultNotification.success n);
        reflexivity. }
    rewrite Hterm. apply get_after_set. reflexivity.
Qed.

Lemma settlement_notification_updates_ledger_witness :
  fst (PaymentAuditStorage.read 300 "7"
         (PaymentAuditStorage.updatePaymentStatus 300 (Js.IdNum 7)
            PaymentAuditStorage.PaymentFailed
            (Some (PaymentAuditStorage.mkDetails None None
                     (Some "insufficient_funds") (Some 300)))
            Scenario.ledger1))
  = Some (PaymentAuditStorage.mkRecord (Some (Js.IdNum 7))
            "https://example.com/mcp" "tools/call"
            (Some "{name:add-numbers}") None None None None
            PaymentAuditStorage.RequestPending
            PaymentAuditStorage.PaymentFailed 100 None (Some 300)
            (Some "insufficient_funds") None None).
Proof.
  apply (proj2 (settlement_notification_updates_ledger 300
                  (PaymentResultNotification.mk "x402/payment_result" false
                     None "base-sepolia" (Js.IdNum 7) None
                     (Some "insufficient_funds"))
                  Scenario.ledger1
                  (PaymentAuditStorage.mkRecord (Some (Js.IdNum 7))
                     "https://example.com/mcp" "tools/call"
                     (Some "{name:add-numbers}") None None None None
                     PaymentAuditStorage.RequestPending
                     PaymentAuditStorage.PaymentPending 100 None None None
                     None None)
                  None [] eq_refl eq_refl eq_refl)).
Defined.

(** X28: a settlement notification is ignored without error when the client
    has no ledger, when its request id is falsy, or when the ledger has no
    live pending record for it; in the last case the lookup is the only
    ledger access. *)
Theorem unmatched_notification_is_ignored now n g tr :
  handleNotification now n (mkState g None tr) = (Ok tt, mkState g None tr)
  /\ (forall a,
        Js.RequestId_truthy (PaymentResultNotification.requestId n) = false ->
        handleNotification now n (mkState g (Some a) tr)
        = (Ok tt, mkState g (Some a) tr))
  /\ (forall a,
        Js.RequestId_truthy (PaymentResultNotification.requestId n) = true ->
        fst (PaymentAuditStorage.getPendingRequest now
               (PaymentResultNotification.requestId n) a) = None ->
        handleNotification now n (mkState g (Some a) tr)
        = (Ok tt,
           mkState g
             (Some (snd (PaymentAuditStorage.getPendingRequest now
                           (PaymentResultNotification.requestId n) a)))
             (tr ++ [EvGetPendingRequest
                       (PaymentResultNotification.requestId n)]))).
Proof.
  split; [reflexivity|]. split.
  - intros a Hfalsy. unfold handleNotification. step_client. simpl.
    rewrite Hfalsy. reflexivity.
  - intros a Htruthy Hnone. unfold handleNotification. step_client. simpl.
    rewrite Htruthy.
    destruct (PaymentAuditStorage.getPendingRequest now
                (PaymentResultNotification.requestId n) a) as [[r|] a'];
      [discriminate|reflexivity].
Qed.

Lemma unmatched_notification_is_ignored_witness :
  handleNotification 300
    (PaymentResultNotification.mk "x402/payment_result" true (Some "0xabc")
       "base-sepolia" (Js.IdNum 8) None None)
    (mkState None (Some Scenario.ledger1) [])
  = (Ok tt,
     mkState None (Some Scenario.ledger1) [EvGetPendingRequest (Js.IdNum 8)]).
Proof.
  apply (proj2 (proj2 (unmatched_notification_is_ignored
                         300
                         (PaymentResultNotification.mk "x402/payment_result"
                            true (Some "0xabc") "base-sepolia" (Js.IdNum 8)
                            None None)
                         None [])) Scenario.ledger1 eq_refl eq_refl).
Defined.
End ClientProperties.

(* ================================================================= *)
(** * The send interceptor *)

Section ConnectProperties.

Import X402MCPClient X402MCPClientConnect.

#[local] Arguments InMemoryStorage.set : simpl never.
#[local] Arguments PaymentAuditStorage.write : simpl never.
#[local] Arguments PaymentAuditStorage.markRequestCompleted : simpl never.

Ltac step_connect :=
  cbv beta iota delta [Eff.bind Eff.ret Eff.throw Eff.try_catch Eff.finally
    Eff.gets Eff.modify Eff.lift set_auditStorage trackRequest
    markRequestCompleted markIfIdentified] in *.

(** X29: every outgoing request with a truthy id and a method is recorded:
    after the send installed by [connect] has settled, successfully or not,
    the ledger holds under [<id>] the request's server, method and params
    with [requestStatus] completed (never failed) and the completion time;
    the caller gets the outcome of the underlying send. *)
Theorem intercepted_send_records_request
  originalSend serverUrl sentAt settledAt message rid m g a tr :
  id message = Some rid ->
  Js.RequestId_truthy rid = true ->
  method message = Some m ->
  Js.truthy m = true ->
  settledAt - sentAt <= 86400 ->
  fst (send originalSend serverUrl sentAt settledAt message
         (mkState g (Some a) tr))
  = originalSend message
  /\ View.ledgerEntry
       (snd (send originalSend serverUrl sentAt settledAt message
               (mkState g (Some a) tr)))
       (Js.toString rid)
     = Some (PaymentAuditStorage.mkRecord (Some rid) serverUrl m
               (params message) None None None None
               PaymentAuditStorage.RequestCompleted
               PaymentAuditStorage.PaymentPending sentAt (Some settledAt)
               None None None None).
Proof.
  intros Hid Htruthy Hm Hmt Hlive.
  change (send originalSend serverUrl sentAt settledAt message
            (mkState g (Some a) tr))
    with (interceptedSend originalSend serverUrl sentAt settledAt message
            (mkState g (Some a) tr)).
  unfold interceptedSend. rewrite Hid, Hm, Htruthy, Hmt. simpl andb.
  cbv iota. step_connect. rewrite Hid, Htruthy. simpl.
  unfold PaymentAuditStorage.storePendingRequest. simpl. rewrite Htruthy.
  simpl.
  set (pending := PaymentAuditStorage.mkRecord (Some rid) serverUrl m
                    (params message) None None None None
                    PaymentAuditStorage.RequestPending
                    PaymentAuditStorage.PaymentPending sentAt None None None
                    None None).
  set (a1 := PaymentAuditStorage.write sentAt
               (PaymentAuditStorage.buildPendingKey rid) pending a).
  assert (Hread : PaymentAuditStorage.read settledAt
                    (PaymentAuditStorage.buildPendingKey rid) a1
                  = (Some pending, a1)).
  { unfold PaymentAuditStorage.read, a1, PaymentAuditStorage.write.
    apply get_set_live. right. exact Hlive. }
  assert (Hmark : PaymentAuditStorage.markRequestCompleted settledAt rid None a1
                  = PaymentAuditStorage.write settledAt (Js.toString rid)
                      (PaymentAuditStorage.set_request pending
                         PaymentAuditStorage.RequestCompleted (Some settledAt))
                      a1).
  { unfold PaymentAuditStorage.markRequestCompleted. rewrite Hread.
    reflexivity. }
  destruct (originalSend message) as [[]|e]; simpl; rewrite Hmark;
    (split; [reflexivity|]);
    unfold View.ledgerEntry; simpl;
    unfold PaymentAuditStorage.write;
    rewrite ?stored_entry, ?map_get_set_same; reflexivity.
Qed.

Lemma intercepted_send_records_request_witness :
  View.ledgerEntry
    (snd (send (fun _ => Throw (ErrorObj None "fetch failed"))
            "https://example.com/mcp" 100 140
            (mkMessage (Some (Js.IdNum 7)) (Some "tools/call")
               (Some "{name:add-numbers}"))
            (mkState None (Some Scenario.emptyLedger) [])))
    "7"
  = Some (PaymentAuditStorage.mkRecord (Some (Js.IdNum 7))
            "https://example.com/mcp" "tools/call"
            (Some "{name:add-numbers}") None None None None
            PaymentAuditStorage.RequestCompleted
            PaymentAuditStorage.PaymentPending 100 (Some 140) None None None
            None).
Proof.
  apply (proj2 (intercepted_send_records_request
                  (fun _ => Throw (ErrorObj None "fetch failed"))
                  "https://example.com/mcp" 100 140
                  (mkMessage (Some (Js.IdNum 7)) (Some "tools/call")
                     (Some "{name:add-numbers}"))
                  (Js.IdNum 7) "tools/call" None Scenario.emptyLedger []
                  eq_refl eq_refl eq_refl eq_refl
                  ltac:(vm_compute; discriminate))).
Defined.





End ConnectProperties.


(* ================================================================= *)
(** * The request id across both halves, and the end-to-end scenarios *)

Section RoundTrip.

Import Server Invocation Observe.

(** The verify phase starts with the challenge and sends no other. *)
Lemma validatePayment_challenge env name reqs s :
  exists l,
    trace (snd (validatePayment env name reqs s))
    = (trace s ++ EvSendRequest
                    (buildPaymentRequest (requestId (extra s)) reqs) :: l)%list
    /\ Forall (fun ev => exists p q, ev = EvFacilitatorValidate p q) l.
Proof.
  unfold validatePayment, sendPaymentRequiredRequest, validatePaymentProof.
  cbv beta iota delta [Eff.bind Eff.ret Eff.throw Eff.try_catch Eff.finally
    Eff.gets Eff.modify Eff.lift emit update_extra].
  destruct (sendRequest env _) as [resp|e] eqn:Hsend; simpl.
  - destruct (PaymentRequiredResponse.payment resp) as [p|]; simpl.
    + repeat (match goal with
              | |- context [if ?b then _ else _] => destruct b eqn:?; simpl
              | |- context [match facilitator_validatePayment ?a ?b ?c with _ => _ end] =>
                  destruct (facilitator_validatePayment a b c) eqn:?; simpl
              end);
        rewrite <- ?app_assoc; simpl; eexists; (split; [reflexivity|]);
        repeat constructor; eauto.
    + eexists; split; [reflexivity|constructor].
  - destruct (isMethodNotFoundError e); simpl;
      [eexists; split; [reflexivity|constructor]|].
    destruct e; simpl; eexists; (split; [reflexivity|constructor]).
Qed.

(** A protected invocation whose requirements assemble sends exactly one
    challenge, as its first act. *)
Lemma invoke_challenge env hi cfg args c po reqs :
  HandlerRegistry.paymentOptions hi = Some po ->
  assemblePaymentRequirements env po ("/tools/" ++ HandlerRegistry.name hi)
    cfg (baseUrl cfg) = Ok reqs ->
  exists rest,
    trace (snd (invoke env hi cfg args c))
    = EvSendRequest (buildPaymentRequest (requestId c) reqs) :: rest
    /\ forall req, ~ In (EvSendRequest req) rest.
Proof.
  intros Hpo Hasm.
  rewrite (invoke_protected env hi cfg args c po Hpo), Hasm.
  destruct (validatePayment_challenge env (HandlerRegistry.name hi) reqs
              (mkState c [])) as (l & Htr & Hl).
  assert (Hquiet : forall req tail,
            (forall ev, In ev tail -> verify_event ev = false) ->
            ~ In (EvSendRequest req) (l ++ tail)).
  { intros req tail Htail Hin. apply in_app_or in Hin.
    destruct Hin as [Hin|Hin].
    - rewrite Forall_forall in Hl. destruct (Hl _ Hin) as (p & q & H).
      discriminate.
    - apply Htail in Hin. discriminate. }
  destruct (validatePayment env _ reqs _) as [[u|e] s1]; simpl in Htr |- *.
  - destruct (HandlerRegistry.handler hi (callOf hi args) (extra s1))
      as [[res|e] c2].
    + match goal with
      | |- context [settlePayment env ?s] =>
          destruct (settlePayment_spec env s) as (ls & Hts & Hls & _);
          destruct (settlePayment env s) as [[u'|e'] s2]
      end; simpl in Hts |- *; rewrite Hts, Htr; simpl;
        rewrite <- ?app_assoc; simpl;
        (eexists; split; [reflexivity|]);
        intros req; apply Hquiet;
        intros ev [<-|[<-|[<-|Hin]]]; try reflexivity;
        destruct (Forall_fst_in _ _ _ _ Hls Hin) as [Hs _];
        destruct ev; simpl in *; congruence.
    + simpl. rewrite Htr. simpl. rewrite <- ?app_assoc. simpl.
      eexists; split; [reflexivity|].
      intros req; apply Hquiet. intros ev [<-|[<-|[]]]; reflexivity.
  - rewrite Htr. simpl. eexists; split; [reflexivity|].
    intros req. rewrite <- (app_nil_r l). apply Hquiet. intros ev [].
Qed.

(** Notifications are sent exactly when the handler body of a protected
    invocation returned, under the request id of the context it left. *)
Lemma invoke_notifications env hi cfg args c :
  (forall n,
     In (EvSendNotification n) (trace (snd (invoke env hi cfg args c))) ->
     exists c2,
       In (EvHandlerReturned c2) (trace (snd (invoke env hi cfg args c)))
       /\ PaymentResultNotification.requestId n = requestId c2)
  /\ (HandlerRegistry.paymentOptions hi <> None ->
      forall c2,
        In (EvHandlerReturned c2) (trace (snd (invoke env hi cfg args c))) ->
        exists n,
          In (EvSendNotification n) (trace (snd (invoke env hi cfg args c)))).
Proof.
  destruct (invoke_shape env hi cfg args c) as (_ & _ & lv & Hlv & Hshape).
  destruct Hshape
    as [[Htr _] | [(c1 & e0 & Htr & _)
                  | (c1 & ls & Htr & Hls & _ & _ & Hnote & _)]];
    rewrite Htr; split.
  - intros n Hin.
    destruct (Forall_fst_in _ _ _ _ Hlv Hin) as [Hv _]. discriminate.
  - intros _ c2 Hin.
    destruct (Forall_fst_in _ _ _ _ Hlv Hin) as [Hv _]. discriminate.
  - intros n Hin.
    destruct (threw_shape_in _ _ _ _ _ _ Hlv Hin) as [[Hv _]|[H|H]];
      discriminate.
  - intros _ c2 Hin.
    destruct (threw_shape_in _ _ _ _ _ _ Hlv Hin) as [[Hv _]|[H|H]];
      discriminate.
  - intros n Hin.
    destruct (returned_shape_in _ _ _ _ _ _ _ _ Hlv Hls Hin)
      as [[Hv _]|[H|[H|(_ & Hcarry & _)]]]; try discriminate.
    eexists. split; [|exact Hcarry].
    apply in_or_app. right. right. left. reflexivity.
  - intros Hprot c2 _. destruct (Hnote Hprot) as [n Hn]. exists n.
    apply in_or_app. right. right. right. exact Hn.
Qed.

(** C5, as stated, fails: the notification carries [extra.requestId] as it
    is when the handler body has returned.  A body that assigns the field
    makes the notification leave under another id than the challenge. *)
Lemma handler_relabels_notification :
  invoke (Scenario.serverEnv Scenario.payingClient (Scenario.mockExecute true))
    (Scenario.paidTool Scenario.relabelling) Scenario.config0 Scenario.args0
    Scenario.ctx0
  = (Ok "Result: 30",
     mkState (mkCtx (Js.IdNum 99) None None)
       [EvSendRequest (buildPaymentRequest (Js.IdNum 7) Scenario.requirements0);
        EvFacilitatorValidate Scenario.proof0 Scenario.requirements0;
        EvHandlerCalled (CallArgs Scenario.args0)
          (mkCtx (Js.IdNum 7) (Some Scenario.proof0)
             (Some Scenario.requirements0));
        EvHandlerReturned
          (mkCtx (Js.IdNum 99) (Some Scenario.proof0)
             (Some Scenario.requirements0));
        EvSettlePayment;
        EvExecutePayment Scenario.proof0 Scenario.requirements0;
        EvSendNotification
          (PaymentResultNotification.mk "x402/payment_result" true
             (Some "0xabc") "base-sepolia" (Js.IdNum 99) (Some "0x1234")
             None)])
  /\ Js.IdNum 99 <> requestId Scenario.ctx0.
Proof. split; [reflexivity|discriminate]. Qed.

(** C5, amended: a protected invocation whose requirements assemble sends
    exactly one challenge, first, with the id of the originating RPC as its
    JSON-RPC id and as params.requestId; the client's response answers under
    that id; whenever the handler body returns, a settlement notification is
    sent, and every notification carries [extra.requestId] as the body left
    it, which is the originating id whenever the body does not assign it. *)
Theorem requestId_round_trip env hi cfg args c po reqs cenv now st :
  HandlerRegistry.paymentOptions hi = Some po ->
  assemblePaymentRequirements env po ("/tools/" ++ HandlerRegistry.name hi)
    cfg (baseUrl cfg) = Ok reqs ->
  (exists rest,
     trace (snd (invoke env hi cfg args c))
     = EvSendRequest (buildPaymentRequest (requestId c) reqs) :: rest
     /\ forall req, ~ In (EvSendRequest req) rest)
  /\ PaymentRequiredRequest.id (buildPaymentRequest (requestId c) reqs)
     = requestId c
  /\ (exists p,
        PaymentRequiredRequest.params (buildPaymentRequest (requestId c) reqs)
        = Some p
        /\ PaymentRequiredParams.requestId p = Some (requestId c))
  /\ (forall resp,
        fst (X402MCPClient.handlePaymentRequired cenv now
               (buildPaymentRequest (requestId c) reqs) st) = Ok resp ->
        PaymentRequiredResponse.id resp = requestId c)
  /\ (forall c2,
        In (EvHandlerReturned c2) (trace (snd (invoke env hi cfg args c))) ->
        exists n,
          In (EvSendNotification n) (trace (snd (invoke env hi cfg args c))))
  /\ (forall n,
        In (EvSendNotification n) (trace (snd (invoke env hi cfg args c))) ->
        exists c2,
          In (EvHandlerReturned c2) (trace (snd (invoke env hi cfg args c)))
          /\ PaymentResultNotification.requestId n = requestId c2)
  /\ (keepsRequestId (HandlerRegistry.handler hi) ->
      forall n,
        In (EvSendNotification n) (trace (snd (invoke env hi cfg args c))) ->
        PaymentResultNotification.requestId n = requestId c).
Proof.
  intros Hpo Hasm.
  destruct (invoke_notifications env hi cfg args c) as [Hfrom Hto].
  split; [exact (invoke_challenge env hi cfg args c po reqs Hpo Hasm)|].
  split; [reflexivity|].
  split; [eexists; split; reflexivity|].
  split.
  { intros resp Hresp.
    pose proof (handlePaymentRequired_response_id cenv now
                  (buildPaymentRequest (requestId c) reqs) st) as Hid.
    rewrite Hresp in Hid. exact Hid. }
  split; [apply Hto; congruence|].
  split; [exact Hfrom|].
  intros Hkeep n Hin. destruct (Hfrom n Hin) as (c2 & Hret & ->).
  destruct (returned_context env hi cfg args c c2 Hret) as (c1 & -> & Hrid & _).
  rewrite Hkeep. exact Hrid.
Qed.

Lemma requestId_round_trip_witness :
  (exists rest,
     trace (snd (invoke (Scenario.serverEnv Scenario.payingClient
                           (Scenario.mockExecute true))
                   (Scenario.paidTool Scenario.addNumbers) Scenario.config0
                   Scenario.args0 Scenario.ctx0))
     = EvSendRequest (buildPaymentRequest (Js.IdNum 7) Scenario.requirements0)
         :: rest
     /\ forall req, ~ In (EvSendRequest req) rest)
  /\ (exists n,
        In (EvSendNotification n)
           (trace (snd (invoke (Scenario.serverEnv Scenario.payingClient
                                  (Scenario.mockExecute true))
                          (Scenario.paidTool Scenario.addNumbers)
                          Scenario.config0 Scenario.args0 Scenario.ctx0))))
  /\ (forall n,
        In (EvSendNotification n)
           (trace (snd (invoke (Scenario.serverEnv Scenario.payingClient
                                  (Scenario.mockExecute true))
                          (Scenario.paidTool Scenario.addNumbers)
                          Scenario.config0 Scenario.args0 Scenario.ctx0))) ->
        PaymentResultNotification.requestId n = Js.IdNum 7).
Proof.
  destruct (requestId_round_trip
              (Scenario.serverEnv Scenario.payingClient
                 (Scenario.mockExecute true))
              (Scenario.paidTool Scenario.addNumbers) Scenario.config0
              Scenario.args0 Scenario.ctx0
              (PaymentOptions.mk (Js.Finite (1 # 1000))
                 (Some "Add two numbers"))
              Scenario.requirements0 Scenario.clientEnv 200
              (X402MCPClient.mkState None None []) eq_refl eq_refl)
    as (Hchallenge & _ & _ & _ & Hsent & _ & Hkeep).
  split; [exact Hchallenge|]. split.
  - apply (Hsent (mkCtx (Js.IdNum 7) (Some Scenario.proof0)
                    (Some Scenario.requirements0))).
    vm_compute. auto 6.
  - exact (Hkeep (fun call c0 => eq_refl)).
Defined.

(** S1, server half: challenge, verification, handler, settlement and the
    success notification, all under request id 7. *)
Example happy_path :
  invoke (Scenario.serverEnv Scenario.payingClient (Scenario.mockExecute true))
    (Scenario.paidTool Scenario.addNumbers) Scenario.config0 Scenario.args0
    Scenario.ctx0
  = (Ok "Result: 30",
     mkState (mkCtx (Js.IdNum 7) None None)
       [EvSendRequest (buildPaymentRequest (Js.IdNum 7) Scenario.requirements0);
        EvFacilitatorValidate Scenario.proof0 Scenario.requirements0;
        EvHandlerCalled (CallArgs Scenario.args0)
          (mkCtx (Js.IdNum 7) (Some Scenario.proof0)
             (Some Scenario.requirements0));
        EvHandlerReturned
          (mkCtx (Js.IdNum 7) (Some Scenario.proof0)
             (Some Scenario.requirements0));
        EvSettlePayment;
        EvExecutePayment Scenario.proof0 Scenario.requirements0;
        EvSendNotification
          (PaymentResultNotification.mk "x402/payment_result" true
             (Some "0xabc") "base-sepolia" (Js.IdNum 7) (Some "0x1234")
             None)]).
Proof. reflexivity. Qed.

(** S1, client half: the ledger knows request 7, the amount is under the
    cap, the challenge is signed and answered under id 7. *)
Example responder_signs_known_request :
  fst (X402MCPClient.handlePaymentRequired Scenario.clientEnv 200
         (Scenario.challenge "1000")
         (X402MCPClient.mkState (Some (Scenario.cap (1 # 100)))
            (Some Scenario.ledger1) []))
  = Ok (PaymentRequiredResponse.mk (Js.IdNum 7) (Some Scenario.proof0))
  /\ X402MCPClient.trace
       (snd (X402MCPClient.handlePaymentRequired Scenario.clientEnv 200
               (Scenario.challenge "1000")
               (X402MCPClient.mkState (Some (Scenario.cap (1 # 100)))
                  (Some Scenario.ledger1) [])))
     = [X402MCPClient.EvGetPendingRequest (Js.IdNum 7);
        X402MCPClient.EvUpdatePaymentStatus (Js.IdNum 7)
          PaymentAuditStorage.PaymentPending;
        X402MCPClient.EvProcessPrice "1000" "base-sepolia";
        X402MCPClient.EvEnforce (Js.Finite (1 # 1000)) "0xPayee";
        X402MCPClient.EvCreateAccount;
        X402MCPClient.EvCreatePayment "0xAccount" (Scenario.params0 "1000")].
Proof. split; reflexivity. Qed.

(** S3: a peer without the extension; the invocation fails with 40200 and
    nothing but the challenge happens. *)
Example unaware_peer :
  invoke (Scenario.serverEnv Scenario.unawareClient (Scenario.mockExecute true))
    (Scenario.paidTool Scenario.addNumbers) Scenario.config0 Scenario.args0
    Scenario.ctx0
  = (Throw (PaymentError 40200 "Payment required: Add two numbers"
              (PaymentRequiredDetails "1000" "0xUSDC" "0xPayee"
                 "base-sepolia")),
     mkState (mkCtx (Js.IdNum 7) None None)
       [EvSendRequest
          (buildPaymentRequest (Js.IdNum 7) Scenario.requirements0)]).
Proof. reflexivity. Qed.

(** S6: a handler without payment options is called directly. *)
Example free_handler :
  invoke (Scenario.serverEnv Scenario.payingClient (Scenario.mockExecute true))
    (HandlerRegistry.mkInfo "echo" Scenario.addNumbers HandlerRegistry.tool
       (HandlerRegistry.ToolOptions
          (MCPToolOptions.mk "echo" None None None))
       None "TestCalculator")
    Scenario.config0 Scenario.args0 Scenario.ctx0
  = (Ok "Result: 30",
     mkState (mkCtx (Js.IdNum 7) None None)
       [EvHandlerCalled (CallArgs Scenario.args0) Scenario.ctx0;
        EvHandlerReturned Scenario.ctx0]).
Proof. reflexivity. Qed.

End RoundTrip.
